(** * SlotWatch Pro: the monitoring engine of [src/background.ts]

    [src/src/background.ts] holds two revisions of the background script,
    an earlier one that compares recognised text and the current one that
    compares pixels.  This development embeds the pixel-comparing revision:
    the differ [compareScreenshots], the operator commands
    [startMonitoring], [stopMonitoring], [getStatus] and the scheduled
    [checkForChanges] cycle with its two notification paths, then the
    remaining handlers ([initializeStorage], [captureReference],
    [saveSettings], [handleMessage], the alarm listener), the string part
    of [base64ToImageData], and [compareTexts] of the earlier revision.

    Conventions of the embedding.
    - Array indices and counters are [nat]; channel bytes are [Z].
    - A finite double is the rational it denotes; [Binary64.round] is
      the rounding to nearest, ties to even, that every arithmetic
      operation of the script ends with.  The two special values the
      percentage expression can produce ([NaN], [Infinity]) are kept as
      constructors of [number].
    - The differ is given twice: [DifferBinary64] rounds each operation
      as the script does and is the one the engine calls; [Differ] carries
      the percentage arithmetic out on exact rationals.  The two share the
      sampling loop and, on captures of up to [2^32] pixels, raise the
      same flag ([hasChanged_agree]).  The draw of [getRandomInterval] and
      the division that turns it into minutes are rounded.
    - The browser is a record of outcomes ([Host]) plus a mutable [World]
      (storage, the alarm slot and a trace of every host call); [async]
      functions are state-and-exception computations over the world. *)

From Stdlib Require Import Ascii String List ZArith QArith Qround Qabs Qpower.
From Stdlib Require Import Bool Lia Arith Lqa.
Import ListNotations.

Open Scope Z_scope.

(** ** Data model ([types.ts] and the object literals of [background.ts]) *)

Record TelegramConfig := mkTelegramConfig {
  botToken : string;
  chatId : string
}.

Record ReferenceSnapshot := mkReferenceSnapshot {
  url : string;
  timestamp : Z;
  screenshot : string;
  keyPhrases : list string
}.

Record MonitoringConfig := mkMonitoringConfig {
  isActive : bool;
  intervalMin : Z;
  intervalMax : Z;
  autoRefresh : bool;
  refreshDelay : Z;
  lastCheckTime : option Z
}.

Record StorageData := mkStorageData {
  telegram : option TelegramConfig;
  reference : option ReferenceSnapshot;
  monitoring : option MonitoringConfig;
  keywords : option (list string)
}.

(** The browser's [ImageData]: [data] is the RGBA byte array, four entries
    per pixel, row by row. *)
Record ImageData := mkImageData {
  width : nat;
  height : nat;
  data : list Z
}.

(** The invariant every [ImageData] produced by [getImageData] satisfies:
    both dimensions are positive and [data] holds [4 * width * height]
    bytes. *)
Definition wellFormed (img : ImageData) : Prop :=
  (0 < width img)%nat /\ (0 < height img)%nat /\
  List.length (data img) = (4 * (width img * height img))%nat.

(** A JavaScript number as far as [compareScreenshots] can produce one. *)
Inductive number :=
| NaN
| Infinity
| Fin (q : Q).

Record ComparisonResult := mkComparisonResult {
  hasChanged : bool;
  changePercentage : number;
  detectedText : string;
  missingPhrases : list string
}.

(** A thrown JavaScript value: an [Error] with its message, or anything
    else. *)
Inductive Thrown :=
| JsError (message : string)
| NonError.

(** ** Constants *)

Definition DEFAULT_INTERVAL_MIN : Z := 40.
Definition DEFAULT_INTERVAL_MAX : Z := 125.
Definition DEFAULT_REFRESH_DELAY : Z := 3000.
Definition CHANGE_THRESHOLD : Q := 5.

(** ** IEEE binary64 arithmetic

    The doubles of the script, as the rationals they denote.  Overflow is
    not modelled: the rounded quantities of the script stay far below
    [2^1024]. *)

Module Binary64.

Definition pow2 (e : Z) : Q := Qpower 2 e.

(** The exponent [e] with [2^e <= x < 2^(e+1)], for positive [x]. *)
Definition binade (x : Q) : Z :=
  let e0 := Z.log2 (Qnum x) - Z.log2 (Zpos (Qden x)) in
  if Qle_bool (pow2 e0) x then e0 else e0 - 1.

(** The integer nearest to [q], the even one of the two when [q] lies
    halfway. *)
Definition nearestEven (q : Q) : Z :=
  let f := Qfloor q in
  match Qcompare (q - inject_Z f) (1 # 2) with
  | Lt => f
  | Gt => f + 1
  | Eq => if Z.even f then f else f + 1
  end.

(** The exponent of the unit in the last place of the 53-bit significand
    at [x]; below [2^-1022] the spacing stays that of the subnormals. *)
Definition ulpExponent (x : Q) : Z := Z.max (binade x) (-1022) - 52.

Definition roundPositive (x : Q) : Q :=
  let u := ulpExponent x in
  Qred (inject_Z (nearestEven (x * pow2 (- u))) * pow2 u).

(** The double nearest to [x], ties to even. *)
Definition round (x : Q) : Q :=
  match Qcompare (Qred x) 0 with
  | Eq => 0
  | Gt => roundPositive (Qred x)
  | Lt => Qred (- roundPositive (Qred (- x)))
  end.


End Binary64.

(** ** The differ

    The sampling loop, the threshold test and the two-decimal printing of
    [compareScreenshots], and the function itself with its percentage
    arithmetic read in exact rationals. *)

Module Differ.

(** [refData[i] ?? 0]: an index past the end reads [undefined], which the
    nullish default turns into [0]. *)
Definition channelAt (d : list Z) (i : nat) : Z := nth i d 0.

(** The body of the sampling loop's test:
    [rDiff > 30 || gDiff > 30 || bDiff > 30] at byte offset [i]. *)
Definition exceedsTolerance (refData curData : list Z) (i : nat) : bool :=
  let rDiff := Z.abs (channelAt refData i - channelAt curData i) in
  let gDiff := Z.abs (channelAt refData (i + 1) - channelAt curData (i + 1)) in
  let bDiff := Z.abs (channelAt refData (i + 2) - channelAt curData (i + 2)) in
  (30 <? rDiff) || (30 <? gDiff) || (30 <? bDiff).

(** [for (let i = 0; i < refData.length - 3; i += 16)] with its [break].
    The loop test [i < refData.length - 3] is written [i + 3 < length] so
    that it reads the same on [nat]; [fuel] bounds the number of iterations
    and [sampleLoop_fuel] shows that [length refData] is always enough. *)
Fixpoint sampleLoop (fuel : nat) (refData curData : list Z)
         (i diffPixels : nat) : nat :=
  match fuel with
  | O => diffPixels
  | S fuel' =>
      if (i + 3 <? List.length refData)%nat then
        if (List.length curData <=? i + 2)%nat then diffPixels
        else sampleLoop fuel' refData curData (i + 16)
               (if exceedsTolerance refData curData i
                then S diffPixels else diffPixels)
      else diffPixels
  end.

(** [(diffPixels / sampledPixels) * 100] on non-negative operands. *)
Definition percentageOf (diffPixels : nat) (sampledPixels : Q) : number :=
  if Qeq_bool sampledPixels 0 then
    match diffPixels with O => NaN | S _ => Infinity end
  else Fin (inject_Z (Z.of_nat diffPixels) / sampledPixels * 100)%Q.

(** [x > CHANGE_THRESHOLD]. *)
Definition exceeds (x : number) (t : Q) : bool :=
  match x with
  | NaN => false
  | Infinity => true
  | Fin q => negb (Qle_bool q t)
  end.

(** [Number.prototype.toFixed(2)] followed by [parseFloat] on a finite
    value: the nearest multiple of 1/100, a tie going to the larger
    magnitude. *)
Definition roundHundredths (x : Q) : Q :=
  Qred (Qmake (Qfloor (x * 100 + (1 # 2))%Q) 100).

Definition toFixed2 (x : Q) : Q :=
  if Qle_bool 0 x then roundHundredths x
  else Qred (- roundHundredths (- x))%Q.

Definition parseFloatToFixed2 (x : number) : number :=
  match x with
  | Fin q => Fin (toFixed2 q)
  | other => other
  end.

Definition layoutChanged : ComparisonResult :=
  {| hasChanged := true;
     changePercentage := Fin 100;
     detectedText := "";
     missingPhrases := ["Page layout changed"%string] |}.

(** The body of [compareScreenshots] once both images are decoded. *)
Definition compareImageData (refImageData curImageData : ImageData)
  : ComparisonResult :=
  if negb (width refImageData =? width curImageData)%nat
     || negb (height refImageData =? height curImageData)%nat
  then layoutChanged
  else
    let refData := data refImageData in
    let curData := data curImageData in
    let totalPixels := (inject_Z (Z.of_nat (List.length refData)) / 4)%Q in
    let diffPixels :=
      sampleLoop (List.length refData) refData curData 0 0 in
    let sampledPixels := (totalPixels / 4)%Q in
    let changePercentage := percentageOf diffPixels sampledPixels in
    {| hasChanged := exceeds changePercentage CHANGE_THRESHOLD;
       changePercentage := parseFloatToFixed2 changePercentage;
       detectedText := "";
       missingPhrases :=
         if exceeds changePercentage CHANGE_THRESHOLD
         then ["Visual changes detected"%string] else [] |}.

(** [compareScreenshots]: [decode] stands for [base64ToImageData], whose
    work (base64, PNG decoding, canvas) is the browser's; [None] is its
    [throw].  Every failure inside the [try] is rethrown as
    ['Failed to compare screenshots'].  The console output of the differ
    is not recorded. *)
Definition compareScreenshots (decode : string -> option ImageData)
           (referenceBase64 currentBase64 : string)
  : ComparisonResult + Thrown :=
  match decode referenceBase64 with
  | None => inr (JsError "Failed to compare screenshots")
  | Some refImageData =>
      match decode currentBase64 with
      | None => inr (JsError "Failed to compare screenshots")
      | Some curImageData => inl (compareImageData refImageData curImageData)
      end
  end.

End Differ.

(** ** The differ in binary64

    [compareScreenshots] as the script runs it, each division and the
    multiplication rounded.  The loop, the threshold test and the
    two-decimal printing are those of [Differ]; the counter and the array
    length are integers, exact in a double. *)

Module DifferBinary64.

Import Differ.

(** [(diffPixels / sampledPixels) * 100]: the quotient is rounded, then
    the product. *)
Definition percentageOf (diffPixels : nat) (sampledPixels : Q) : number :=
  if Qeq_bool sampledPixels 0 then
    match diffPixels with O => NaN | S _ => Infinity end
  else Fin (Binary64.round
              (Binary64.round (inject_Z (Z.of_nat diffPixels) / sampledPixels)
               * 100))%Q.

(** [parseFloat(x.toFixed(2))]: [toFixed] prints the exact value of the
    double to the nearest hundredth, [parseFloat] reads the decimal back as
    the nearest double. *)
Definition parseFloatToFixed2 (x : number) : number :=
  match x with
  | Fin q => Fin (Binary64.round (toFixed2 q))
  | other => other
  end.

Definition compareImageData (refImageData curImageData : ImageData)
  : ComparisonResult :=
  if negb (width refImageData =? width curImageData)%nat
     || negb (height refImageData =? height curImageData)%nat
  then layoutChanged
  else
    let refData := data refImageData in
    let curData := data curImageData in
    let totalPixels :=
      Binary64.round (inject_Z (Z.of_nat (List.length refData)) / 4)%Q in
    let diffPixels :=
      sampleLoop (List.length refData) refData curData 0 0 in
    let sampledPixels := Binary64.round (totalPixels / 4)%Q in
    let changePercentage := percentageOf diffPixels sampledPixels in
    {| hasChanged := exceeds changePercentage CHANGE_THRESHOLD;
       changePercentage := parseFloatToFixed2 changePercentage;
       detectedText := "";
       missingPhrases :=
         if exceeds changePercentage CHANGE_THRESHOLD
         then ["Visual changes detected"%string] else [] |}.

Definition compareScreenshots (decode : string -> option ImageData)
           (referenceBase64 currentBase64 : string)
  : ComparisonResult + Thrown :=
  match decode referenceBase64 with
  | None => inr (JsError "Failed to compare screenshots")
  | Some refImageData =>
      match decode currentBase64 with
      | None => inr (JsError "Failed to compare screenshots")
      | Some curImageData => inl (compareImageData refImageData curImageData)
      end
  end.

End DifferBinary64.

(** ** The monitor engine *)

Module Engine.

(** [compareScreenshots] is that of [DifferBinary64] from here on. *)
Import DifferBinary64.

Record Tab := mkTab {
  tabId : option Z;
  tabUrl : option string
}.

Record Alarm := mkAlarm {
  delayInMinutes : Q;
  periodInMinutes : Q
}.

(** The [Response] of [fetch]: its [ok] flag and what [response.text()]
    settles to. *)
Record Response := mkResponse {
  ok : bool;
  text : string + Thrown
}.

(** What the browser answers during one handler run.  Each call below is
    made at most once per run, apart from [decode] which is a function of
    its argument.  [inr] and [Some] carry the value a rejected call throws.
    Storage and alarm calls always resolve. *)
Record Host := mkHost {
  now : Z;                                  (* Date.now() *)
  random : Q;                               (* Math.random() *)
  tabsQuery : list Tab + Thrown;            (* chrome.tabs.query *)
  tabsReload : option Thrown;               (* chrome.tabs.reload *)
  captureVisibleTab : string + Thrown;      (* chrome.tabs.captureVisibleTab *)
  decode : string -> option ImageData;      (* base64ToImageData *)
  fetch : Response + Thrown;                (* fetch(url, ...) *)
  notificationsCreate : option Thrown       (* chrome.notifications.create *)
}.

(** One entry per host call, the payload being the data the call's
    arguments are built from. *)
Inductive Event :=
| StorageSet (key : string)
| AlarmsCreate (a : Alarm)
| AlarmsClear
| TabsQuery
| TabsReload (id : Z)
| SetTimeout (ms : Z)
| CaptureVisibleTab
| Fetch (token chat : string) (c : ComparisonResult)
| NotificationsCreate (c : ComparisonResult)
| ConsoleLog (msg : string)
| ConsoleError (msg : string).

(** Storage, the alarm registered under [ALARM_NAME], and the host calls
    made so far, most recent first. *)
Record World := mkWorld {
  storage : StorageData;
  alarm : option Alarm;
  trace : list Event
}.

(** [data] of the script is [responseData] here; of the two payloads the
    script sends, only the monitoring entry of [getStatus] is modelled. *)
Record MessageResponse := mkMessageResponse {
  success : bool;
  responseData : option MonitoringConfig;
  error : option string
}.

(** *** Computations that read and write the world and may throw *)

Definition M (A : Type) : Type := World -> (A + Thrown) * World.

Definition ret {A} (a : A) : M A := fun w => (inl a, w).

Definition throw {A} (e : Thrown) : M A := fun w => (inr e, w).

Definition bind {A B} (c : M A) (k : A -> M B) : M B :=
  fun w =>
    match c w with
    | (inl a, w') => k a w'
    | (inr e, w') => (inr e, w')
    end.

Definition tryCatch {A} (body : M A) (handler : Thrown -> M A) : M A :=
  fun w =>
    match body w with
    | (inl a, w') => (inl a, w')
    | (inr e, w') => handler e w'
    end.

Notation "x <- c ;; k" := (bind c (fun x => k))
  (at level 61, c at next level, right associativity).
Notation "c ;; k" := (bind c (fun _ => k))
  (at level 61, right associativity).

Definition emit (e : Event) : M unit :=
  fun w => (inl tt, {| storage := storage w; alarm := alarm w;
                       trace := e :: trace w |}).

(** A host call that may reject: it is recorded, then settles. *)
Definition hostCall {A} (e : Event) (outcome : A + Thrown) : M A :=
  fun w => (outcome, {| storage := storage w; alarm := alarm w;
                        trace := e :: trace w |}).

Definition settle (outcome : option Thrown) : unit + Thrown :=
  match outcome with
  | None => inl tt
  | Some e => inr e
  end.

(** [chrome.storage.local.get([...])]. *)
Definition storageGet : M StorageData := fun w => (inl (storage w), w).

(** [chrome.storage.local.set({ monitoring: config })]. *)
Definition storageSetMonitoring (config : MonitoringConfig) : M unit :=
  fun w =>
    (inl tt,
     {| storage := {| telegram := telegram (storage w);
                      reference := reference (storage w);
                      monitoring := Some config;
                      keywords := keywords (storage w) |};
        alarm := alarm w;
        trace := StorageSet "monitoring" :: trace w |}).

(** [chrome.alarms.create(ALARM_NAME, ...)]. *)
Definition alarmsCreate (a : Alarm) : M unit :=
  fun w => (inl tt, {| storage := storage w; alarm := Some a;
                       trace := AlarmsCreate a :: trace w |}).

(** [chrome.alarms.clear(ALARM_NAME)]. *)
Definition alarmsClear : M unit :=
  fun w => (inl tt, {| storage := storage w; alarm := None;
                       trace := AlarmsClear :: trace w |}).

(** *** JavaScript defaults *)

(** [data.monitoring?.f || d] on a numeric field: [undefined] and [0] are
    falsy. *)
Definition orDefault (m : option MonitoringConfig)
           (f : MonitoringConfig -> Z) (d : Z) : Z :=
  match m with
  | Some c => if f c =? 0 then d else f c
  | None => d
  end.

(** [data.monitoring?.autoRefresh ?? true]. *)
Definition autoRefreshOr (m : option MonitoringConfig) : bool :=
  match m with
  | Some c => autoRefresh c
  | None => true
  end.

(** The object literal shared by [startMonitoring], [stopMonitoring] and
    [checkForChanges]: the spread [...(data.monitoring || {})] followed by
    the five explicit fields; [lastCheckTime] is the one field the spread
    alone decides. *)
Definition withDefaults (m : option MonitoringConfig) (active : bool)
  : MonitoringConfig :=
  {| isActive := active;
     intervalMin := orDefault m intervalMin DEFAULT_INTERVAL_MIN;
     intervalMax := orDefault m intervalMax DEFAULT_INTERVAL_MAX;
     autoRefresh := autoRefreshOr m;
     refreshDelay := orDefault m refreshDelay DEFAULT_REFRESH_DELAY;
     lastCheckTime := match m with
                      | Some c => lastCheckTime c
                      | None => None
                      end |}.

Definition emptyString (s : string) : bool :=
  match s with
  | EmptyString => true
  | String _ _ => false
  end.

(** [!data.telegram?.botToken || !data.telegram?.chatId]. *)
Definition telegramNotConfigured (t : option TelegramConfig) : bool :=
  match t with
  | None => true
  | Some c => emptyString (botToken c) || emptyString (chatId c)
  end.

(** [error instanceof Error ? error.message : 'Unknown error']. *)
Definition errorMessage (e : Thrown) : string :=
  match e with
  | JsError m => m
  | NonError => "Unknown error"
  end.

Definition succeeded : MessageResponse :=
  {| success := true; responseData := None; error := None |}.

Definition failed (msg : string) : MessageResponse :=
  {| success := false; responseData := None; error := Some msg |}.

(** [Math.floor(Math.random() * (max - min + 1)) + min].  The bounds are
    integers, on which (below [2^53]) the subtraction and the additions
    are exact; the product with [Math.random()] is rounded before it is
    floored. *)
Definition getRandomInterval (h : Host) (min max : Z) : Z :=
  Qfloor (Binary64.round (random h * inject_Z (max - min + 1))) + min.

(** *** Operator commands *)

Definition startMonitoring (h : Host) : M MessageResponse :=
  tryCatch
    (data <- storageGet ;;
     match reference data with
     | None => ret (failed "No reference snapshot captured")
     | Some _ =>
         if telegramNotConfigured (telegram data)
         then ret (failed "Telegram settings not configured")
         else
           let config := withDefaults (monitoring data) true in
           storageSetMonitoring config ;;
           let intervalMinutes :=
             Binary64.round
               (inject_Z (getRandomInterval h (intervalMin config)
                                            (intervalMax config)) / 60)%Q in
           alarmsCreate {| delayInMinutes := intervalMinutes;
                           periodInMinutes := intervalMinutes |} ;;
           emit (ConsoleLog "Monitoring started") ;;
           ret succeeded
     end)
    (fun e => ret (failed (errorMessage e))).

Definition stopMonitoring : M MessageResponse :=
  tryCatch
    (data <- storageGet ;;
     let config := withDefaults (monitoring data) false in
     storageSetMonitoring config ;;
     alarmsClear ;;
     emit (ConsoleLog "Monitoring stopped") ;;
     ret succeeded)
    (fun e => ret (failed (errorMessage e))).

Definition getStatus : M MessageResponse :=
  data <- storageGet ;;
  ret {| success := true; responseData := monitoring data; error := None |}.

(** *** Notification paths *)

(** [config] is [data.telegram!]: the assertion leaves no trace at run
    time, so an absent entry arrives as [undefined] and the template
    literal that reads [config.botToken], placed before the [try], throws a
    [TypeError]. *)
Definition sendTelegramNotification (h : Host)
           (config : option TelegramConfig) (comparison : ComparisonResult)
  : M unit :=
  match config with
  | None =>
      throw (JsError "Cannot read properties of undefined (reading 'botToken')")
  | Some c =>
      tryCatch
        (response <- hostCall (Fetch (botToken c) (chatId c) comparison)
                              (fetch h) ;;
         if ok response
         then emit (ConsoleLog "Telegram notification sent")
         else
           (_ <- (fun w => (text response, w)) ;;
            emit (ConsoleError "Telegram error:")))
        (fun _ => emit (ConsoleError "Telegram error:"))
  end.

Definition showBrowserNotification (h : Host) (comparison : ComparisonResult)
  : M unit :=
  hostCall (NotificationsCreate comparison)
           (settle (notificationsCreate h)) ;;
  emit (ConsoleLog "Browser notification shown").

(** *** The scheduled check *)

(** [const [activeTab] = ...; if (!activeTab || !activeTab.id)]: the first
    tab of the answer, when it has a truthy id. *)
Definition activeTabId (tabs : list Tab) : option Z :=
  match tabs with
  | [] => None
  | activeTab :: _ =>
      match tabId activeTab with
      | None => None
      | Some id => if id =? 0 then None else Some id
      end
  end.

(** [data.monitoring?.isActive] as a condition. *)
Definition monitoringActive (m : option MonitoringConfig) : bool :=
  match m with
  | Some c => isActive c
  | None => false
  end.

(** [data.monitoring?.autoRefresh] as a condition. *)
Definition monitoringAutoRefresh (m : option MonitoringConfig) : bool :=
  match m with
  | Some c => autoRefresh c
  | None => false
  end.

Definition checkForChanges (h : Host) : M unit :=
  tryCatch
    (data <- storageGet ;;
     match reference data with
     | None => ret tt
     | Some ref =>
         if negb (monitoringActive (monitoring data)) then ret tt
         else
           tabs <- hostCall TabsQuery (tabsQuery h) ;;
           match activeTabId tabs with
           | None => emit (ConsoleLog "No active tab found")
           | Some id =>
               (if monitoringAutoRefresh (monitoring data)
                then
                  hostCall (TabsReload id) (settle (tabsReload h)) ;;
                  emit (SetTimeout (orDefault (monitoring data) refreshDelay
                                              DEFAULT_REFRESH_DELAY))
                else ret tt) ;;
               newScreenshot <- hostCall CaptureVisibleTab
                                         (captureVisibleTab h) ;;
               comparison <- (fun w =>
                                (compareScreenshots (decode h)
                                   (screenshot ref) newScreenshot, w)) ;;
               emit (ConsoleLog "Comparison result") ;;
               let config :=
                 {| isActive := monitoringActive (monitoring data);
                    intervalMin := orDefault (monitoring data) intervalMin
                                             DEFAULT_INTERVAL_MIN;
                    intervalMax := orDefault (monitoring data) intervalMax
                                             DEFAULT_INTERVAL_MAX;
                    autoRefresh := autoRefreshOr (monitoring data);
                    refreshDelay := orDefault (monitoring data) refreshDelay
                                              DEFAULT_REFRESH_DELAY;
                    lastCheckTime := Some (now h) |} in
               storageSetMonitoring config ;;
               if hasChanged comparison then
                 emit (ConsoleLog "Changes detected! Sending notifications...") ;;
                 sendTelegramNotification h (telegram data) comparison ;;
                 showBrowserNotification h comparison
               else ret tt
           end
     end)
    (fun _ => emit (ConsoleError "Check error:")).

End Engine.

(** ** The differ as the specification words it *)

Module DifferSpec.

Import Differ.

(** The sampled positions: the pixels of the image, in row order, taken at
    the fixed stride of four. *)
Definition sampledPositions (img : ImageData) : list nat :=
  filter (fun p => (p mod 4 =? 0)%nat) (seq 0 (width img * height img)).

(** A position is different when the red, green or blue channel (alpha is
    ignored) differs by more than the tolerance of 30. *)
Definition different (ref cur : ImageData) (p : nat) : bool :=
  existsb
    (fun channel =>
       30 <? Z.abs (nth (4 * p + channel) (data ref) 0
                    - nth (4 * p + channel) (data cur) 0))
    [0; 1; 2]%nat.

Definition differentPositions (ref cur : ImageData) : list nat :=
  filter (different ref cur) (sampledPositions ref).

(** [100 * (different positions) / (sampled positions)], before rounding. *)
Definition exactMagnitude (ref cur : ImageData) : Q :=
  (100 * inject_Z (Z.of_nat (List.length (differentPositions ref cur)))
   / inject_Z (Z.of_nat (List.length (sampledPositions ref))))%Q.

(** [p] is [x] rounded to two decimal places: a whole number of
    hundredths at most half a hundredth away from [x]. *)
Definition roundedTo2 (x p : Q) : Prop :=
  (exists n : Z, p == n # 100) /\ (Qabs (p - x) <= 1 # 200)%Q.

(** *** Quantities of the code, named for the lemmas below *)

(** The number of iterations the sampling loop makes over [len] bytes. *)
Definition iterations (len : nat) : nat := ((len + 12) / 16)%nat.

(** The unrounded percentage the code computes on two images of equal
    dimensions: the different sampled positions over a quarter of the pixel
    count. *)
Definition rawPercentage (ref cur : ImageData) : Q :=
  (inject_Z (Z.of_nat (List.length (differentPositions ref cur)))
   / (inject_Z (Z.of_nat (width ref * height ref)) / 4) * 100)%Q.

End DifferSpec.

(** *** What the binary64 differ is compared with *)

Module DifferBinary64Spec.

(** [p] is what [parseFloat] reads from [x] printed with two decimals: the
    double nearest to a whole number of hundredths that is at most half a
    hundredth away from [x]. *)
Definition printedTo2 (x p : Q) : Prop :=
  exists k : Z, p = Binary64.round (k # 100)
                /\ (Qabs ((k # 100) - x) <= 1 # 200)%Q.

(** The percentage for [d] different positions over a quarter of [n]
    pixels: as the script computes it, and as the exact quotient. *)
Definition computedPercentage (d n : Z) : Q :=
  Binary64.round
    (Binary64.round (inject_Z d / (inject_Z n / 4)) * 100)%Q.

Definition exactPercentage (d n : Z) : Q :=
  (inject_Z d / (inject_Z n / 4) * 100)%Q.

End DifferBinary64Spec.

(** ** Sample images and hosts used by the examples *)

Module Samples.

Import Differ Engine.

Definition black (w h : nat) : ImageData :=
  {| width := w; height := h; data := repeat 0 (4 * (w * h)) |}.

(** The first [n] bytes (four per pixel) white, the rest black. *)
Definition whiteThenBlack (w h n : nat) : ImageData :=
  {| width := w; height := h;
     data := repeat 255 n ++ repeat 0 (4 * (w * h) - n) |}.

(** A decoder answering from a table of known screenshots and throwing on
    every other string. *)
Fixpoint decodeTable (table : list (string * ImageData)) (base64 : string)
  : option ImageData :=
  match table with
  | [] => None
  | (name, img) :: rest =>
      if String.eqb name base64 then Some img else decodeTable rest base64
  end.

Definition sampleDecode (ref cur : ImageData) : string -> option ImageData :=
  decodeTable [("reference"%string, ref); ("current"%string, cur)].

Definition sampleReference : ReferenceSnapshot :=
  {| url := "https://example.org/queue";
     timestamp := 1700000000000;
     screenshot := "reference";
     keyPhrases := [] |}.

Definition sampleTelegram : TelegramConfig :=
  {| botToken := "123:abc"; chatId := "42" |}.

Definition activeConfig : MonitoringConfig :=
  {| isActive := true;
     intervalMin := 40;
     intervalMax := 125;
     autoRefresh := true;
     refreshDelay := 3000;
     lastCheckTime := None |}.

Definition inactiveConfig : MonitoringConfig :=
  {| isActive := false;
     intervalMin := 40;
     intervalMax := 125;
     autoRefresh := true;
     refreshDelay := 3000;
     lastCheckTime := None |}.

Definition worldOf (t : option TelegramConfig) (r : option ReferenceSnapshot)
           (m : option MonitoringConfig) : World :=
  {| storage := {| telegram := t; reference := r; monitoring := m;
                   keywords := None |};
     alarm := None;
     trace := [] |}.

(** A browser with one active tab (id 7) in which every call resolves,
    apart from what [capture], [decoder] and [fetched] say. *)
Definition hostWith (capture : string + Thrown)
           (decoder : string -> option ImageData)
           (fetched : Response + Thrown) : Host :=
  {| now := 1700000060000;
     random := 1 # 2;
     tabsQuery := inl [ {| tabId := Some 7;
                           tabUrl := Some "https://example.org/queue"%string |} ];
     tabsReload := None;
     captureVisibleTab := capture;
     decode := decoder;
     fetch := fetched;
     notificationsCreate := None |}.

(** The page changed: a 2x2 reference, all black, against a capture whose
    first pixel is white. *)
Definition changedDecode : string -> option ImageData :=
  sampleDecode (black 2 2) (whiteThenBlack 2 2 4).

Definition delivered : Response + Thrown :=
  inl {| ok := true; text := inl ""%string |}.

End Samples.

(** ** Intermediate worlds of a check cycle, named for the lemmas below *)

Module EngineSteps.

Import DifferBinary64 Engine.

(** The world once a cycle that found monitoring entry [m] and tab [id]
    has captured, compared and written the new config. *)
Definition afterUpdate (h : Host) (w : World) (m : MonitoringConfig) (id : Z)
  : World :=
  {| storage :=
       {| telegram := telegram (storage w);
          reference := reference (storage w);
          monitoring :=
            Some {| isActive := isActive m;
                    intervalMin := orDefault (Some m) intervalMin
                                             DEFAULT_INTERVAL_MIN;
                    intervalMax := orDefault (Some m) intervalMax
                                             DEFAULT_INTERVAL_MAX;
                    autoRefresh := autoRefresh m;
                    refreshDelay := orDefault (Some m) refreshDelay
                                              DEFAULT_REFRESH_DELAY;
                    lastCheckTime := Some (now h) |};
          keywords := keywords (storage w) |};
     alarm := alarm w;
     trace :=
       StorageSet "monitoring" :: ConsoleLog "Comparison result"
       :: CaptureVisibleTab
       :: (if autoRefresh m
           then [SetTimeout (orDefault (Some m) refreshDelay
                                       DEFAULT_REFRESH_DELAY);
                 TabsReload id]
           else [])
       ++ TabsQuery :: trace w |}.

(** Whether the Telegram request came back with [response.ok]. *)
Definition telegramDelivered (h : Host) : bool :=
  match fetch h with
  | inl response => ok response
  | inr _ => false
  end.

(** The last statement of [checkForChanges] under the cycle's [catch]. *)
Definition notificationStep (h : Host) (t : option TelegramConfig)
           (c : ComparisonResult) : M unit :=
  tryCatch
    (if hasChanged c then
       emit (ConsoleLog "Changes detected! Sending notifications...") ;;
       sendTelegramNotification h t c ;;
       showBrowserNotification h c
     else ret tt)
    (fun _ => emit (ConsoleError "Check error:")).

(** [checkForChanges] from its first [await] on: the rest of the cycle
    once [chrome.storage.local.get] has answered [data].  The constant
    [data] is read once; while the cycle waits for the browser the
    handlers of other events run, so the world the rest of the cycle
    resumes in need not be the one [data] was read from. *)
Definition checkForChangesFrom (h : Host) (data : StorageData) : M unit :=
  tryCatch
    (match reference data with
     | None => ret tt
     | Some ref =>
         if negb (monitoringActive (monitoring data)) then ret tt
         else
           tabs <- hostCall TabsQuery (tabsQuery h) ;;
           match activeTabId tabs with
           | None => emit (ConsoleLog "No active tab found")
           | Some id =>
               (if monitoringAutoRefresh (monitoring data)
                then
                  hostCall (TabsReload id) (settle (tabsReload h)) ;;
                  emit (SetTimeout (orDefault (monitoring data) refreshDelay
                                              DEFAULT_REFRESH_DELAY))
                else ret tt) ;;
               newScreenshot <- hostCall CaptureVisibleTab
                                         (captureVisibleTab h) ;;
               comparison <- (fun w =>
                                (compareScreenshots (decode h)
                                   (screenshot ref) newScreenshot, w)) ;;
               emit (ConsoleLog "Comparison result") ;;
               let config :=
                 {| isActive := monitoringActive (monitoring data);
                    intervalMin := orDefault (monitoring data) intervalMin
                                             DEFAULT_INTERVAL_MIN;
                    intervalMax := orDefault (monitoring data) intervalMax
                                             DEFAULT_INTERVAL_MAX;
                    autoRefresh := autoRefreshOr (monitoring data);
                    refreshDelay := orDefault (monitoring data) refreshDelay
                                              DEFAULT_REFRESH_DELAY;
                    lastCheckTime := Some (now h) |} in
               storageSetMonitoring config ;;
               if hasChanged comparison then
                 emit (ConsoleLog "Changes detected! Sending notifications...") ;;
                 sendTelegramNotification h (telegram data) comparison ;;
                 showBrowserNotification h comparison
               else ret tt
           end
     end)
    (fun _ => emit (ConsoleError "Check error:")).

End EngineSteps.

(** ** The remaining handlers of the script *)

Module Handlers.

Import DifferBinary64 Engine.

Definition ALARM_NAME : string := "slotwatch_monitor".

(** The [defaultConfig] literal of [initializeStorage]. *)
Definition defaultConfig : MonitoringConfig :=
  {| isActive := false;
     intervalMin := DEFAULT_INTERVAL_MIN;
     intervalMax := DEFAULT_INTERVAL_MAX;
     autoRefresh := true;
     refreshDelay := DEFAULT_REFRESH_DELAY;
     lastCheckTime := None |}.

(** [initializeStorage]: a stored object is always truthy, so the test
    [!data.monitoring] asks whether the key is absent. *)
Definition initializeStorage : M unit :=
  data <- storageGet ;;
  match monitoring data with
  | Some _ => ret tt
  | None => storageSetMonitoring defaultConfig
  end.

(** The [onInstalled] listener. *)
Definition onInstalled : M unit :=
  emit (ConsoleLog "SlotWatch Pro installed") ;;
  initializeStorage.

(** [chrome.storage.local.set({ reference })]. *)
Definition storageSetReference (r : ReferenceSnapshot) : M unit :=
  fun w =>
    (inl tt,
     {| storage := {| telegram := telegram (storage w);
                      reference := Some r;
                      monitoring := monitoring (storage w);
                      keywords := keywords (storage w) |};
        alarm := alarm w;
        trace := StorageSet "reference" :: trace w |}).

(** [a ?? b] on an optional entry of the items passed to [set]. *)
Definition orKeep {A} (new old : option A) : option A :=
  match new with
  | Some _ => new
  | None => old
  end.

(** [chrome.storage.local.set(items)] for an object holding any of the
    four keys: the keys present are overwritten, the others are left
    alone.  The call is recorded once, under the name of the handler's
    variable. *)
Definition storageSetItems (items : StorageData) : M unit :=
  fun w =>
    (inl tt,
     {| storage := {| telegram := orKeep (telegram items)
                                         (telegram (storage w));
                      reference := orKeep (reference items)
                                          (reference (storage w));
                      monitoring := orKeep (monitoring items)
                                           (monitoring (storage w));
                      keywords := orKeep (keywords items)
                                         (keywords (storage w)) |};
        alarm := alarm w;
        trace := StorageSet "settings" :: trace w |}).

(** What a response can carry in its [data] field. *)
Inductive ResponseData :=
| ReferenceData (r : ReferenceSnapshot)
| StatusData (m : MonitoringConfig).

(** [MessageResponse] with both payloads of the script. *)
Record Reply := mkReply {
  replySuccess : bool;
  replyData : option ResponseData;
  replyError : option string
}.

Definition toReply (r : MessageResponse) : Reply :=
  {| replySuccess := success r;
     replyData := option_map StatusData (responseData r);
     replyError := error r |}.

Definition replyFailed (msg : string) : Reply :=
  {| replySuccess := false; replyData := None; replyError := Some msg |}.

(** [const [tab] = ...; if (!tab || !tab.id)] keeps the tab itself, whose
    [url] the snapshot needs. *)
Definition firstTabWithId (tabs : list Tab) : option Tab :=
  match tabs with
  | [] => None
  | tab :: _ =>
      match activeTabId tabs with
      | Some _ => Some tab
      | None => None
      end
  end.

(** [tab.url || '']. *)
Definition urlOrEmpty (tab : Tab) : string :=
  match tabUrl tab with
  | Some u => u
  | None => ""
  end.

(** [data.keywords || []]: an array, even an empty one, is truthy. *)
Definition keywordsOrEmpty (k : option (list string)) : list string :=
  match k with
  | Some l => l
  | None => []
  end.

Definition captureReference (h : Host) : M Reply :=
  tryCatch
    (tabs <- hostCall TabsQuery (tabsQuery h) ;;
     match firstTabWithId tabs with
     | None => ret (replyFailed "No active tab found")
     | Some tab =>
         newScreenshot <- hostCall CaptureVisibleTab (captureVisibleTab h) ;;
         data <- storageGet ;;
         let keyPhrases := keywordsOrEmpty (keywords data) in
         let reference :=
           {| url := urlOrEmpty tab;
              timestamp := now h;
              screenshot := newScreenshot;
              keyPhrases := keyPhrases |} in
         storageSetReference reference ;;
         emit (ConsoleLog "Reference captured successfully") ;;
         ret {| replySuccess := true;
                replyData := Some (ReferenceData reference);
                replyError := None |}
     end)
    (fun e =>
       emit (ConsoleError "Capture error:") ;;
       ret (replyFailed (errorMessage e))).

(** [saveSettings]: [payload] is the object of the message, passed to
    [set] as it is. *)
Definition saveSettings (payload : StorageData) : M Reply :=
  tryCatch
    (storageSetItems payload ;;
     ret {| replySuccess := true; replyData := None; replyError := None |})
    (fun e => ret (replyFailed (errorMessage e))).

(** A message as [handleMessage] sees it: one of the five types of
    [MessageType], [SAVE_SETTINGS] with its payload object, or any other
    [type] string. *)
Inductive Message :=
| CAPTURE_REFERENCE
| START_MONITORING
| STOP_MONITORING
| GET_STATUS
| SAVE_SETTINGS (payload : StorageData)
| OtherType (type : string).

Definition mapReply (c : M MessageResponse) : M Reply :=
  r <- c ;; ret (toReply r).

Definition handleMessage (h : Host) (message : Message) : M Reply :=
  match message with
  | CAPTURE_REFERENCE => captureReference h
  | START_MONITORING => mapReply (startMonitoring h)
  | STOP_MONITORING => mapReply stopMonitoring
  | GET_STATUS => mapReply getStatus
  | SAVE_SETTINGS payload => saveSettings payload
  | OtherType _ => ret (replyFailed "Unknown message type")
  end.

(** The [onAlarm] listener. *)
Definition onAlarm (h : Host) (name : string) : M unit :=
  if String.eqb name ALARM_NAME then checkForChanges h else ret tt.

(** *** [base64ToImageData] *)

(** [s.includes(',')]. *)
Fixpoint includesComma (s : string) : bool :=
  match s with
  | EmptyString => false
  | String c rest => Ascii.eqb c ","%char || includesComma rest
  end.

(** The text of [s] up to its first comma. *)
Fixpoint uptoComma (s : string) : string :=
  match s with
  | EmptyString => EmptyString
  | String c rest =>
      if Ascii.eqb c ","%char then EmptyString else String c (uptoComma rest)
  end.

(** The text of [s] after its first comma. *)
Fixpoint afterComma (s : string) : string :=
  match s with
  | EmptyString => EmptyString
  | String c rest => if Ascii.eqb c ","%char then rest else afterComma rest
  end.

(** [base64.includes(',') ? base64.split(',')[1] : base64]. *)
Definition base64Data (base64 : string) : string :=
  if includesComma base64 then uptoComma (afterComma base64) else base64.

(** [base64ToImageData], with [decodePng] for the browser's part ([atob],
    [createImageBitmap], the canvas read-back); [None] is the rethrown
    ['Unable to download all specified images']. *)
Definition base64ToImageData (decodePng : string -> option ImageData)
           (base64 : string) : option ImageData :=
  if emptyString (base64Data base64) then None
  else decodePng (base64Data base64).

End Handlers.

(** ** The text comparison of the earlier revision *)

Module TextDiffer.

(** [ComparisonResult] as [types.ts] declares it. *)
Record TextComparisonResult := mkTextComparisonResult {
  textHasChanged : bool;
  textMissingPhrases : list string;
  textDetected : string
}.

(** [s.includes(sub)]: [sub] occurs in [s] at some position. *)
Fixpoint includes (s sub : string) : bool :=
  String.prefix sub s
  || match s with
     | EmptyString => false
     | String _ rest => includes rest sub
     end.

Section CompareTexts.

(** [String.prototype.toLowerCase], the runtime's. *)
Variable toLowerCase : string -> string.

Definition wasPresent (referenceText phrase : string) : bool :=
  includes (toLowerCase referenceText) (toLowerCase phrase).

(** The test of the loop body, [wasPresent && !isPresent]. *)
Definition wentMissing (referenceText currentText phrase : string) : bool :=
  wasPresent referenceText phrase && negb (wasPresent currentText phrase).

(** The [for ... of] loop pushes, in order, the phrases that pass the
    test. *)
Fixpoint collectMissing (referenceText currentText : string)
         (keyPhrases : list string) : list string :=
  match keyPhrases with
  | [] => []
  | phrase :: rest =>
      if wentMissing referenceText currentText phrase
      then phrase :: collectMissing referenceText currentText rest
      else collectMissing referenceText currentText rest
  end.

Definition compareTexts (referenceText currentText : string)
           (keyPhrases : list string) : TextComparisonResult :=
  let missingPhrases := collectMissing referenceText currentText keyPhrases in
  {| textHasChanged := (0 <? List.length missingPhrases)%nat;
     textMissingPhrases := missingPhrases;
     textDetected := currentText |}.

End CompareTexts.

End TextDiffer.

(** ** Observations on worlds, named for the lemmas below *)

Module CycleSpec.

Import Engine.

(** The entry a cycle writes back from the entry [m] it read when it
    began: the flag and [autoRefresh] as read, the intervals and the
    refresh delay as read unless zero, in which case the default, and the
    time of the check. *)
Definition stamped (h : Host) (m : MonitoringConfig) : MonitoringConfig :=
  {| isActive := isActive m;
     intervalMin := if intervalMin m =? 0 then DEFAULT_INTERVAL_MIN
                    else intervalMin m;
     intervalMax := if intervalMax m =? 0 then DEFAULT_INTERVAL_MAX
                    else intervalMax m;
     autoRefresh := autoRefresh m;
     refreshDelay := if refreshDelay m =? 0 then DEFAULT_REFRESH_DELAY
                     else refreshDelay m;
     lastCheckTime := Some (now h) |}.

(** What a cycle that runs from [w] to [w'] with no other handler in
    between may do to the world: it keeps the credentials, the reference,
    the keywords, the alarm and the active flag, and either keeps the
    monitoring entry or replaces it by the active entry it read, stamped. *)
Definition cycleFrame (h : Host) (w w' : World) : Prop :=
  telegram (storage w') = telegram (storage w)
  /\ reference (storage w') = reference (storage w)
  /\ keywords (storage w') = keywords (storage w)
  /\ alarm w' = alarm w
  /\ monitoringActive (monitoring (storage w'))
     = monitoringActive (monitoring (storage w))
  /\ (monitoring (storage w') = monitoring (storage w)
      \/ exists m, monitoring (storage w) = Some m
                   /\ isActive m = true
                   /\ monitoring (storage w') = Some (stamped h m)).

(** The Telegram requests made so far. *)
Definition telegramRequests (w : World) : nat :=
  List.length
    (filter (fun e => match e with Fetch _ _ _ => true | _ => false end)
            (trace w)).

(** The browser notifications attempted so far. *)
Definition browserNotifications (w : World) : nat :=
  List.length
    (filter (fun e => match e with NotificationsCreate _ => true
                              | _ => false end)
            (trace w)).

End CycleSpec.

(** * Properties of the binary64 rounding *)

Module Binary64Proofs.

Import Binary64.

Lemma pow2_pos (e : Z) : (0 < pow2 e)%Q.
Proof. apply Qpower_0_lt. reflexivity. Qed.

Lemma pow2_add (a b : Z) : (pow2 (a + b) == pow2 a * pow2 b)%Q.
Proof. apply Qpower_plus. discriminate. Qed.

Lemma pow2_cancel (a : Z) : (pow2 a * pow2 (- a) == 1)%Q.
Proof. rewrite <- pow2_add, Z.add_opp_diag_r. reflexivity. Qed.

Lemma pow2_le (a b : Z) : a <= b -> (pow2 a <= pow2 b)%Q.
Proof. intros H. apply Qpower_le_compat_l; [exact H|discriminate]. Qed.

Lemma pow2_Z (n : Z) : 0 <= n -> (pow2 n == inject_Z (2 ^ n))%Q.
Proof. intros H. symmetry. apply (Zpower_Qpower 2 n H). Qed.

(** The position of a positive rational among the powers of two. *)
Lemma binade_spec (x : Q) :
  (0 < x)%Q -> (pow2 (binade x) <= x)%Q /\ (x < pow2 (binade x + 1))%Q.
Proof.
  intros Hx. destruct x as [a b]. unfold binade. cbn [Qnum Qden].
  assert (Ha : 0 < a) by (unfold Qlt in Hx; cbn in Hx; lia).
  set (la := Z.log2 a). set (lb := Z.log2 (Zpos b)).
  destruct (Z.log2_spec a Ha) as (Ha1 & Ha2). fold la in Ha1, Ha2.
  destruct (Z.log2_spec (Zpos b) (Pos2Z.is_pos b)) as (Hb1 & Hb2).
  fold lb in Hb1, Hb2.
  assert (Hla : 0 <= la) by apply Z.log2_nonneg.
  assert (Hlb : 0 <= lb) by apply Z.log2_nonneg.
  assert (Hqa : (a # b == inject_Z a / inject_Z (Zpos b))%Q)
    by apply Qmake_Qdiv.
  assert (Hbpos : (0 < inject_Z (Zpos b))%Q) by reflexivity.
  assert (Hx1 : (inject_Z a == (a # b) * inject_Z (Zpos b))%Q).
  { rewrite Hqa. field. discriminate. }
  (* the bounds of numerator and denominator, as rationals *)
  rewrite Zle_Qle, <- pow2_Z in Ha1 by exact Hla.
  rewrite Zlt_Qlt, <- pow2_Z in Ha2 by lia.
  rewrite Zle_Qle, <- pow2_Z in Hb1 by exact Hlb.
  rewrite Zlt_Qlt, <- pow2_Z in Hb2 by lia.
  (* x < 2^(la - lb + 1) *)
  assert (Hup : (a # b < pow2 (la - lb + 1))%Q).
  { apply Qmult_lt_r with (z := pow2 lb); [apply pow2_pos|].
    rewrite <- pow2_add. replace (la - lb + 1 + lb) with (Z.succ la) by lia.
    apply Qle_lt_trans with (y := inject_Z a); [|exact Ha2].
    rewrite Hx1. apply Qmult_le_l; [exact Hx|exact Hb1]. }
  (* 2^(la - lb - 1) < x *)
  assert (Hlow : (pow2 (la - lb - 1) < a # b)%Q).
  { apply Qmult_lt_r with (z := pow2 (Z.succ lb)); [apply pow2_pos|].
    rewrite <- pow2_add. replace (la - lb - 1 + Z.succ lb) with la by lia.
    apply Qle_lt_trans with (y := inject_Z a); [exact Ha1|].
    rewrite Hx1. apply Qmult_lt_l; [exact Hx|exact Hb2]. }
  destruct (Qle_bool (pow2 (la - lb)) (a # b)) eqn:E.
  - apply Qle_bool_iff in E. split; assumption.
  - split.
    + apply Qlt_le_weak. exact Hlow.
    + replace (la - lb - 1 + 1) with (la - lb) by lia.
      apply Qnot_le_lt. intros H. apply Qle_bool_iff in H. congruence.
Qed.

Lemma nearestEven_close (q : Q) :
  (Qabs (inject_Z (nearestEven q) - q) <= 1 # 2)%Q.
Proof.
  unfold nearestEven.
  pose proof (Qfloor_le q) as Hlo. pose proof (Qlt_floor q) as Hhi.
  rewrite inject_Z_plus in Hhi. change (inject_Z 1) with 1%Q in Hhi.
  apply Qabs_Qle_condition.
  destruct (Qcompare_spec (q - inject_Z (Qfloor q)) (1 # 2)) as [H|H|H].
  - destruct (Z.even (Qfloor q));
      rewrite ?inject_Z_plus; change (inject_Z 1) with 1%Q; split; lra.
  - split; lra.
  - rewrite inject_Z_plus. change (inject_Z 1) with 1%Q. split; lra.
Qed.

Lemma nearestEven_Z (z : Z) : nearestEven (inject_Z z) = z.
Proof.
  unfold nearestEven. rewrite Qfloor_Z.
  destruct (Qcompare_spec (inject_Z z - inject_Z z) (1 # 2)) as [H|H|H].
  - exfalso. lra.
  - reflexivity.
  - exfalso. lra.
Qed.

Lemma nearestEven_compat (p q : Q) :
  (p == q)%Q -> nearestEven p = nearestEven q.
Proof.
  intros H. unfold nearestEven.
  assert (Hf : Qfloor p = Qfloor q) by (rewrite H; reflexivity).
  rewrite Hf.
  assert (Hc : Qcompare (p - inject_Z (Qfloor q)) (1 # 2)
               = Qcompare (q - inject_Z (Qfloor q)) (1 # 2))
    by (rewrite H; reflexivity).
  rewrite Hc. reflexivity.
Qed.

Lemma nearestEven_nonneg (q : Q) : (0 <= q)%Q -> 0 <= nearestEven q.
Proof.
  intros H. unfold nearestEven.
  assert (Hf : 0 <= Qfloor q).
  { change 0 with (Qfloor 0). apply Qfloor_resp_le. exact H. }
  destruct (Qcompare _ _); [destruct (Z.even _)| |]; lia.
Qed.

(** The value of [roundPositive], before reduction. *)
Lemma roundPositive_value (x : Q) :
  (roundPositive x
   == inject_Z (nearestEven (x * pow2 (- ulpExponent x)))
      * pow2 (ulpExponent x))%Q.
Proof. unfold roundPositive. apply Qred_correct. Qed.

(** Half a unit in the last place bounds the rounding error. *)
Lemma roundPositive_error (x : Q) :
  (Qabs (roundPositive x - x) <= pow2 (ulpExponent x - 1))%Q.
Proof.
  rewrite roundPositive_value. set (u := ulpExponent x).
  pose proof (nearestEven_close (x * pow2 (- u))) as Hc.
  pose proof (pow2_pos u) as Hu. pose proof (pow2_cancel u) as Hcan.
  assert (Hhalf : (pow2 (u - 1) == (1 # 2) * pow2 u)%Q).
  { replace (u - 1) with (u + -1) by lia.
    rewrite pow2_add. change (pow2 (-1)) with (1 # 2)%Q.
    generalize (pow2 u). intros p. ring. }
  assert (Hfac : (inject_Z (nearestEven (x * pow2 (- u))) * pow2 u - x
                  == (inject_Z (nearestEven (x * pow2 (- u)))
                      - x * pow2 (- u)) * pow2 u)%Q).
  { generalize (inject_Z (nearestEven (x * pow2 (- u)))). intros n.
    revert Hcan. generalize (pow2 u) (pow2 (- u)). intros p p' Hcan.
    transitivity (n * p - x * (p * p'))%Q; [rewrite Hcan|]; ring. }
  rewrite Hfac, Qabs_Qmult, (Qabs_pos (pow2 u)) by (apply Qlt_le_weak, Hu).
  rewrite Hhalf. apply Qmult_le_compat_r; [exact Hc|apply Qlt_le_weak, Hu].
Qed.


Lemma round_compat (x y : Q) : (x == y)%Q -> round x = round y.
Proof.
  intros H. unfold round. rewrite (Qred_complete x y H).
  rewrite (Qred_complete (- x) (- y)) by (rewrite H; reflexivity).
  reflexivity.
Qed.

Lemma round_of_positive (x : Q) :
  (0 < x)%Q -> round x = roundPositive (Qred x).
Proof.
  intros H. unfold round.
  assert (E : (Qred x ?= 0)%Q = Gt).
  { apply Qgt_alt. rewrite Qred_correct. exact H. }
  rewrite E. reflexivity.
Qed.

Lemma round_of_zero (x : Q) : (x == 0)%Q -> round x = 0%Q.
Proof.
  intros H. unfold round.
  assert (E : (Qred x ?= 0)%Q = Eq).
  { apply Qeq_alt. rewrite Qred_correct. exact H. }
  rewrite E. reflexivity.
Qed.

Lemma roundPositive_nonneg (x : Q) : (0 <= x)%Q -> (0 <= roundPositive x)%Q.
Proof.
  intros H. rewrite roundPositive_value.
  apply Qmult_le_0_compat; [|apply Qlt_le_weak, pow2_pos].
  change 0%Q with (inject_Z 0). rewrite <- Zle_Qle.
  apply nearestEven_nonneg.
  apply Qmult_le_0_compat; [exact H|apply Qlt_le_weak, pow2_pos].
Qed.

Lemma round_nonneg (x : Q) : (0 <= x)%Q -> (0 <= round x)%Q.
Proof.
  intros H. destruct (Qlt_le_dec 0 x) as [Hp|Hz].
  - rewrite (round_of_positive x Hp). apply roundPositive_nonneg.
    rewrite Qred_correct. exact H.
  - rewrite (round_of_zero x); [apply Qle_refl|]. apply Qle_antisym; assumption.
Qed.

(** In the normal range the error is relative: at most [2^-53] of the
    value. *)
Lemma round_error (x : Q) :
  (pow2 (-1022) <= x)%Q -> (Qabs (round x - x) <= x * pow2 (-53))%Q.
Proof.
  intros Hn.
  assert (Hx : (0 < x)%Q)
    by (apply Qlt_le_trans with (pow2 (-1022)); [apply pow2_pos|exact Hn]).
  rewrite (round_of_positive x Hx).
  pose proof (Qred_correct x) as Hred.
  assert (Hx' : (0 < Qred x)%Q) by (rewrite Hred; exact Hx).
  destruct (binade_spec (Qred x) Hx') as (Hlo & Hhi).
  pose proof (roundPositive_error (Qred x)) as He.
  unfold ulpExponent in He. set (b := binade (Qred x)) in *.
  set (rp := roundPositive (Qred x)) in *.
  assert (Hb : -1022 <= b).
  { destruct (Z_le_gt_dec (-1022) b) as [H|H]; [exact H|exfalso].
    assert (Hp : (pow2 (b + 1) <= pow2 (-1022))%Q) by (apply pow2_le; lia).
    rewrite Hred in Hhi.
    apply (Qlt_irrefl x). apply Qlt_le_trans with (pow2 (b + 1)); [exact Hhi|].
    apply Qle_trans with (pow2 (-1022)); assumption. }
  rewrite Z.max_l in He by exact Hb.
  replace (b - 52 - 1) with (b + -53) in He by lia.
  rewrite pow2_add in He. rewrite Hred in He, Hlo.
  apply Qle_trans with (pow2 b * pow2 (-53))%Q; [exact He|].
  apply Qmult_le_compat_r; [exact Hlo|apply Qlt_le_weak, pow2_pos].
Qed.


(** Integers below [2^53] are doubles. *)
Lemma round_exact_Z (z : Z) :
  0 <= z < 2 ^ 53 -> (round (inject_Z z) == inject_Z z)%Q.
Proof.
  intros (H0 & H53).
  destruct (Z.eq_dec z 0) as [->|Hnz]; [reflexivity|].
  assert (Hz : (0 < inject_Z z)%Q).
  { change 0%Q with (inject_Z 0). rewrite <- Zlt_Qlt. lia. }
  rewrite (round_of_positive _ Hz).
  pose proof (Qred_correct (inject_Z z)) as Hred.
  assert (Hx' : (0 < Qred (inject_Z z))%Q) by (rewrite Hred; exact Hz).
  destruct (binade_spec _ Hx') as (Hlo & Hhi).
  rewrite roundPositive_value. unfold ulpExponent.
  set (b := binade (Qred (inject_Z z))) in *.
  rewrite Hred in Hlo, Hhi.
  assert (Hb0 : 0 <= b).
  { destruct (Z_le_gt_dec 0 b) as [H|H]; [exact H|exfalso].
    assert (Hp : (pow2 (b + 1) <= pow2 0)%Q) by (apply pow2_le; lia).
    change (pow2 0) with (inject_Z 1) in Hp.
    assert (Hlt : (inject_Z z < inject_Z 1)%Q)
      by (apply Qlt_le_trans with (pow2 (b + 1)); assumption).
    rewrite <- Zlt_Qlt in Hlt. lia. }
  assert (Hb52 : b <= 52).
  { destruct (Z_le_gt_dec b 52) as [H|H]; [exact H|exfalso].
    assert (Hp : (pow2 53 <= pow2 b)%Q) by (apply pow2_le; lia).
    rewrite (pow2_Z 53) in Hp by lia.
    assert (Hle : (inject_Z (2 ^ 53) <= inject_Z z)%Q)
      by (apply Qle_trans with (pow2 b); assumption).
    rewrite <- Zle_Qle in Hle. lia. }
  rewrite Z.max_l by lia.
  replace (- (b - 52)) with (52 - b) by lia.
  assert (Hint : (Qred (inject_Z z) * pow2 (52 - b)
                  == inject_Z (z * 2 ^ (52 - b)))%Q).
  { rewrite Hred, pow2_Z by lia. rewrite inject_Z_mult. reflexivity. }
  rewrite (nearestEven_compat _ _ Hint), nearestEven_Z.
  rewrite inject_Z_mult, <- pow2_Z by lia.
  rewrite <- Qmult_assoc, <- pow2_add.
  replace (52 - b + (b - 52)) with 0 by lia.
  change (pow2 0) with 1%Q. apply Qmult_1_r.
Qed.



(** A 53-bit integer scaled by a power of two in the normal range is a
    double. *)
Lemma round_exact_dyadic (z j : Z) :
  0 <= z < 2 ^ 53 -> -1022 <= j ->
  (round (inject_Z z * pow2 j) == inject_Z z * pow2 j)%Q.
Proof.
  intros (H0 & H53) Hj.
  destruct (Z.eq_dec z 0) as [->|Hnz].
  { rewrite round_of_zero; [symmetry|]; apply Qmult_0_l. }
  pose proof (pow2_pos j) as Hpj.
  assert (Hz1 : (1 <= inject_Z z)%Q).
  { change 1%Q with (inject_Z 1). rewrite <- Zle_Qle. lia. }
  assert (Hz53 : (inject_Z z < pow2 53)%Q).
  { rewrite pow2_Z by lia. rewrite <- Zlt_Qlt. exact H53. }
  set (x := (inject_Z z * pow2 j)%Q).
  assert (Hxlo : (pow2 j <= x)%Q).
  { unfold x. rewrite <- (Qmult_1_l (pow2 j)) at 1.
    apply Qmult_le_compat_r; [exact Hz1|apply Qlt_le_weak, Hpj]. }
  assert (Hxhi : (x < pow2 (53 + j))%Q).
  { unfold x. rewrite pow2_add. apply Qmult_lt_compat_r; assumption. }
  assert (Hx : (0 < x)%Q) by (apply Qlt_le_trans with (pow2 j); assumption).
  rewrite (round_of_positive _ Hx).
  pose proof (Qred_correct x) as Hred.
  assert (Hx' : (0 < Qred x)%Q) by (rewrite Hred; exact Hx).
  destruct (binade_spec _ Hx') as (Hlo & Hhi).
  rewrite roundPositive_value. unfold ulpExponent.
  set (b := binade (Qred x)) in *. rewrite Hred in Hlo, Hhi.
  assert (Hbj : j <= b).
  { destruct (Z_le_gt_dec j b) as [H|H]; [exact H|exfalso].
    assert (Hp : (pow2 (b + 1) <= pow2 j)%Q) by (apply pow2_le; lia).
    apply (Qlt_irrefl x). apply Qlt_le_trans with (pow2 (b + 1)); [exact Hhi|].
    apply Qle_trans with (pow2 j); assumption. }
  assert (Hb52 : b <= j + 52).
  { destruct (Z_le_gt_dec b (j + 52)) as [H|H]; [exact H|exfalso].
    assert (Hp : (pow2 (53 + j) <= pow2 b)%Q) by (apply pow2_le; lia).
    apply (Qlt_irrefl x).
    apply Qlt_le_trans with (pow2 (53 + j)); [exact Hxhi|].
    apply Qle_trans with (pow2 b); assumption. }
  rewrite Z.max_l by lia.
  replace (- (b - 52)) with (52 - b) by lia.
  assert (Hint : (Qred x * pow2 (52 - b)
                  == inject_Z (z * 2 ^ (j + 52 - b)))%Q).
  { rewrite Hred. unfold x. rewrite <- Qmult_assoc, <- pow2_add.
    replace (j + (52 - b)) with (j + 52 - b) by lia.
    rewrite pow2_Z by lia. rewrite inject_Z_mult. reflexivity. }
  rewrite (nearestEven_compat _ _ Hint), nearestEven_Z.
  rewrite inject_Z_mult, <- pow2_Z by lia.
  rewrite <- Qmult_assoc, <- pow2_add.
  replace (j + 52 - b + (b - 52)) with j by lia.
  reflexivity.
Qed.

Lemma round_exact_quarter (z : Z) :
  0 <= z < 2 ^ 53 -> (round (inject_Z z / 4) == inject_Z z / 4)%Q.
Proof.
  intros H.
  assert (E : (inject_Z z / 4 == inject_Z z * pow2 (-2))%Q) by reflexivity.
  rewrite (round_compat _ _ E), E. apply round_exact_dyadic; [exact H|lia].
Qed.

Lemma round_of_negative (x : Q) :
  (x < 0)%Q -> round x = Qred (- roundPositive (Qred (- x))).
Proof.
  intros H. unfold round.
  assert (E : (Qred x ?= 0)%Q = Lt).
  { apply Qlt_alt. rewrite Qred_correct. exact H. }
  rewrite E. reflexivity.
Qed.

(** Rounding is symmetric about zero. *)
Lemma round_opp (x : Q) : (round (- x) == - round x)%Q.
Proof.
  destruct (Q_dec x 0) as [[Hn|Hp]|Hz].
  - assert (Hp : (0 < - x)%Q) by lra.
    rewrite (round_of_positive _ Hp), (round_of_negative _ Hn).
    generalize (roundPositive (Qred (- x))). intros p.
    rewrite Qred_correct. ring.
  - assert (Hn : (- x < 0)%Q) by lra.
    rewrite (round_of_positive _ Hp), (round_of_negative _ Hn).
    assert (E : Qred (- - x) = Qred x)
      by (apply Qred_complete; ring).
    rewrite E. generalize (roundPositive (Qred x)). intros p.
    rewrite Qred_correct. reflexivity.
  - rewrite (round_of_zero x Hz), (round_of_zero (- x)) by lra. reflexivity.
Qed.

(** Integers of magnitude below [2^53] are doubles. *)
Lemma round_exact_integer (z : Z) :
  Z.abs z < 2 ^ 53 -> (round (inject_Z z) == inject_Z z)%Q.
Proof.
  intros H. destruct (Z_le_gt_dec 0 z) as [Hz|Hz].
  - apply round_exact_Z. lia.
  - assert (E : (inject_Z z == - inject_Z (- z))%Q).
    { rewrite inject_Z_opp. ring. }
    rewrite (round_compat _ _ E), round_opp, round_exact_Z by lia.
    symmetry. exact E.
Qed.

Lemma nearestEven_floor (q : Q) :
  Qfloor q <= nearestEven q <= Qfloor q + 1.
Proof.
  unfold nearestEven.
  destruct (Qcompare _ _); [destruct (Z.even _)| |]; lia.
Qed.

Lemma nearestEven_mono (p q : Q) :
  (p <= q)%Q -> nearestEven p <= nearestEven q.
Proof.
  intros H. pose proof (Qfloor_resp_le _ _ H) as Hf.
  destruct (Z.eq_dec (Qfloor p) (Qfloor q)) as [E|E].
  - unfold nearestEven. rewrite E.
    destruct (Qcompare_spec (p - inject_Z (Qfloor q)) (1 # 2)) as [Hp|Hp|Hp];
      destruct (Qcompare_spec (q - inject_Z (Qfloor q)) (1 # 2)) as [Hq|Hq|Hq];
      try (destruct (Z.even (Qfloor q))); try lia; exfalso; lra.
  - pose proof (nearestEven_floor p). pose proof (nearestEven_floor q). lia.
Qed.

Lemma nearestEven_pow2 (n : Z) : 0 <= n -> nearestEven (pow2 n) = 2 ^ n.
Proof.
  intros H. rewrite (nearestEven_compat _ _ (pow2_Z n H)).
  apply nearestEven_Z.
Qed.

(** A rounded value stays within the binade of its argument, ends
    included; below the normal range, within the subnormals. *)
Lemma roundPositive_range (x : Q) :
  (0 < x)%Q ->
  (roundPositive x <= pow2 (ulpExponent x + 53))%Q
  /\ (-1022 <= binade x -> (pow2 (binade x) <= roundPositive x)%Q).
Proof.
  intros Hx. destruct (binade_spec x Hx) as (Hlo & Hhi).
  rewrite roundPositive_value. unfold ulpExponent.
  set (b := binade x) in *. set (u := Z.max b (-1022) - 52).
  pose proof (pow2_pos u) as Hu. pose proof (pow2_pos (- u)) as Hu'.
  split.
  - assert (Hle : (x * pow2 (- u) <= pow2 53)%Q).
    { apply Qle_trans with (pow2 (u + 53) * pow2 (- u))%Q.
      - apply Qmult_le_compat_r; [|apply Qlt_le_weak, Hu'].
        apply Qle_trans with (pow2 (b + 1)); [apply Qlt_le_weak, Hhi|].
        apply pow2_le. lia.
      - rewrite <- pow2_add. apply pow2_le. lia. }
    apply nearestEven_mono in Hle. rewrite nearestEven_pow2 in Hle by lia.
    rewrite Zle_Qle, <- pow2_Z in Hle by lia.
    rewrite (Z.add_comm u 53), pow2_add.
    apply Qmult_le_compat_r; [exact Hle|apply Qlt_le_weak, Hu].
  - intros Hb. assert (Eu : u = b - 52) by lia.
    assert (Hge : (pow2 52 <= x * pow2 (- u))%Q).
    { apply Qle_trans with (pow2 b * pow2 (- u))%Q.
      - rewrite <- pow2_add. apply pow2_le. lia.
      - apply Qmult_le_compat_r; [exact Hlo|apply Qlt_le_weak, Hu']. }
    apply nearestEven_mono in Hge. rewrite nearestEven_pow2 in Hge by lia.
    rewrite Zle_Qle, <- pow2_Z in Hge by lia.
    apply Qle_trans with (pow2 52 * pow2 u)%Q.
    + rewrite <- pow2_add. apply pow2_le. lia.
    + apply Qmult_le_compat_r; [exact Hge|apply Qlt_le_weak, Hu].
Qed.


Lemma roundPositive_mono (x y : Q) :
  (0 < x)%Q -> (x <= y)%Q -> (roundPositive x <= roundPositive y)%Q.
Proof.
  intros Hx Hxy.
  assert (Hy : (0 < y)%Q) by (apply Qlt_le_trans with x; assumption).
  destruct (binade_spec x Hx) as (Hxlo & Hxhi).
  destruct (binade_spec y Hy) as (Hylo & Hyhi).
  assert (Hb : binade x <= binade y).
  { destruct (Z_le_gt_dec (binade x) (binade y)) as [H|H]; [exact H|exfalso].
    assert (Hp : (pow2 (binade y + 1) <= pow2 (binade x))%Q)
      by (apply pow2_le; lia).
    apply (Qlt_irrefl y).
    apply Qlt_le_trans with (pow2 (binade y + 1)); [exact Hyhi|].
    apply Qle_trans with (pow2 (binade x)); [exact Hp|].
    apply Qle_trans with x; assumption. }
  destruct (Z.eq_dec (ulpExponent x) (ulpExponent y)) as [E|E].
  - rewrite !roundPositive_value, E.
    apply Qmult_le_compat_r; [|apply Qlt_le_weak, pow2_pos].
    rewrite <- Zle_Qle. apply nearestEven_mono.
    apply Qmult_le_compat_r; [exact Hxy|apply Qlt_le_weak, pow2_pos].
  - destruct (roundPositive_range x Hx) as (Hux & _).
    destruct (roundPositive_range y Hy) as (_ & Hly).
    unfold ulpExponent in E, Hux.
    apply Qle_trans with (pow2 (Z.max (binade x) (-1022) - 52 + 53));
      [exact Hux|].
    apply Qle_trans with (pow2 (binade y)); [apply pow2_le; lia|].
    apply Hly. lia.
Qed.

(** Rounding is monotone. *)
Lemma round_mono (x y : Q) : (x <= y)%Q -> (round x <= round y)%Q.
Proof.
  intros Hxy.
  assert (Hpos : forall a b, (0 < a)%Q -> (a <= b)%Q ->
                             (round a <= round b)%Q).
  { intros a b Ha Hab.
    assert (Hb : (0 < b)%Q) by (apply Qlt_le_trans with a; assumption).
    rewrite (round_of_positive a Ha), (round_of_positive b Hb).
    apply roundPositive_mono; rewrite !Qred_correct; assumption. }
  destruct (Q_dec x 0) as [[Hn|Hp]|Hz].
  - assert (Hx : (round x <= 0)%Q).
    { assert (E : (x == - - x)%Q) by ring.
      rewrite (round_compat _ _ E), round_opp.
      pose proof (round_nonneg (- x)) as H. lra. }
    destruct (Qlt_le_dec y 0) as [Hy|Hy].
    + assert (H : (round (- y) <= round (- x))%Q) by (apply Hpos; lra).
      rewrite !round_opp in H. lra.
    + pose proof (round_nonneg y Hy). lra.
  - apply Hpos; assumption.
  - rewrite (round_of_zero x Hz). apply round_nonneg. lra.
Qed.

End Binary64Proofs.

(** * Properties of the differ *)

Module DifferProofs.

Import Differ DifferSpec.

(** Quotient and remainder of [a] by [b], as equations [lia] can use. *)
Ltac divmod a b :=
  let Hd := fresh "Hdiv" in
  let Hm := fresh "Hmod" in
  pose proof (Nat.div_mod a b ltac:(lia)) as Hd;
  pose proof (Nat.mod_upper_bound a b ltac:(lia)) as Hm.

Lemma iterations_test (len j : nat) :
  (16 * j + 3 <? len)%nat = (j <? iterations len)%nat.
Proof.
  unfold iterations. divmod (len + 12)%nat 16%nat.
  destruct (Nat.ltb_spec (16 * j + 3) len);
    destruct (Nat.ltb_spec j ((len + 12) / 16)); solve [reflexivity | lia].
Qed.

Lemma iterations_le (len : nat) : (iterations len <= len)%nat.
Proof.
  unfold iterations. divmod (len + 12)%nat 16%nat. lia.
Qed.

(** Fuel beyond the number of remaining iterations changes nothing. *)
Lemma sampleLoop_fuel (refData curData : list Z) (fuel : nat) :
  forall fuel' j d,
    (iterations (List.length refData) <= j + fuel)%nat ->
    (fuel <= fuel')%nat ->
    sampleLoop fuel' refData curData (16 * j) d
    = sampleLoop fuel refData curData (16 * j) d.
Proof.
  induction fuel as [|fuel IH]; intros fuel' j d Hk Hf.
  - destruct fuel' as [|fuel']; [reflexivity|].
    cbn [sampleLoop]. rewrite iterations_test.
    destruct (Nat.ltb_spec j (iterations (List.length refData))); [lia|reflexivity].
  - destruct fuel' as [|fuel']; [lia|].
    cbn [sampleLoop].
    destruct (16 * j + 3 <? List.length refData)%nat; [|reflexivity].
    destruct (List.length curData <=? 16 * j + 2)%nat; [reflexivity|].
    replace (16 * j + 16)%nat with (16 * S j)%nat by lia.
    apply IH; lia.
Qed.

(** With arrays of one length the [break] never fires and the loop counts
    the offsets [0, 16, 32, ...] whose channels exceed the tolerance. *)
Lemma sampleLoop_count (refData curData : list Z) :
  List.length curData = List.length refData ->
  forall fuel j d,
    (iterations (List.length refData) <= j + fuel)%nat ->
    sampleLoop fuel refData curData (16 * j) d
    = (d + List.length
             (filter (fun k => exceedsTolerance refData curData (16 * k))
                     (seq j (iterations (List.length refData) - j))))%nat.
Proof.
  intros Hlen. induction fuel as [|fuel IH]; intros j d Hk.
  - replace (iterations (List.length refData) - j)%nat with 0%nat by lia.
    simpl. lia.
  - cbn [sampleLoop]. rewrite iterations_test.
    destruct (Nat.ltb_spec j (iterations (List.length refData))) as [Hj|Hj].
    + assert (Hi : (16 * j + 3 < List.length refData)%nat).
      { apply Nat.ltb_lt. rewrite iterations_test. apply Nat.ltb_lt. exact Hj. }
      destruct (Nat.leb_spec (List.length curData) (16 * j + 2)) as [Hb|Hb];
        [lia|].
      replace (16 * j + 16)%nat with (16 * S j)%nat by lia.
      rewrite IH by lia.
      replace (iterations (List.length refData) - j)%nat
        with (S (iterations (List.length refData) - S j))%nat by lia.
      cbn [seq filter].
      destruct (exceedsTolerance refData curData (16 * j));
        cbn [List.length]; lia.
    + replace (iterations (List.length refData) - j)%nat with 0%nat by lia.
      simpl. lia.
Qed.

Lemma exceedsTolerance_same (l : list Z) (i : nat) :
  exceedsTolerance l l i = false.
Proof.
  unfold exceedsTolerance. rewrite !Z.sub_diag. reflexivity.
Qed.

Lemma sampleLoop_same (l : list Z) :
  forall fuel i d, sampleLoop fuel l l i d = d.
Proof.
  induction fuel as [|fuel IH]; intros i d; simpl; [reflexivity|].
  destruct (i + 3 <? List.length l)%nat; [|reflexivity].
  destruct (List.length l <=? i + 2)%nat; [reflexivity|].
  rewrite exceedsTolerance_same. apply IH.
Qed.

(** Every fourth pixel below [n], listed by multiples. *)
Lemma stride_positions (n : nat) :
  filter (fun p => (p mod 4 =? 0)%nat) (seq 0 n)
  = map (fun k => (4 * k)%nat) (seq 0 ((n + 3) / 4)).
Proof.
  induction n as [|n IH]; [reflexivity|].
  rewrite seq_S, filter_app, IH, Nat.add_0_l. cbn [filter].
  divmod n 4%nat. divmod (n + 3)%nat 4%nat. divmod (S n + 3)%nat 4%nat.
  destruct (Nat.eqb_spec (n mod 4) 0) as [H0|H0].
  - replace ((S n + 3) / 4)%nat with (S ((n + 3) / 4)) by lia.
    rewrite seq_S, map_app, Nat.add_0_l. cbn [map].
    replace (4 * ((n + 3) / 4))%nat with n by lia. reflexivity.
  - replace ((S n + 3) / 4)%nat with ((n + 3) / 4)%nat by lia.
    apply app_nil_r.
Qed.

Lemma filter_map_comm {A B} (f : B -> bool) (g : A -> B) (l : list A) :
  filter f (map g l) = map g (filter (fun x => f (g x)) l).
Proof.
  induction l as [|x l IH]; [reflexivity|].
  cbn [map filter]. destruct (f (g x)); cbn [map]; rewrite IH; reflexivity.
Qed.

(** The loop's test at byte offset [16 * k] is the specification's test at
    pixel [4 * k]. *)
Lemma exceedsTolerance_different (ref cur : ImageData) (k : nat) :
  exceedsTolerance (data ref) (data cur) (16 * k)
  = different ref cur (4 * k).
Proof.
  unfold exceedsTolerance, different, channelAt. cbn [existsb].
  replace (4 * (4 * k) + 0)%nat with (16 * k)%nat by lia.
  replace (4 * (4 * k) + 1)%nat with (16 * k + 1)%nat by lia.
  replace (4 * (4 * k) + 2)%nat with (16 * k + 2)%nat by lia.
  rewrite orb_false_r, orb_assoc. reflexivity.
Qed.

Lemma sampledPositions_length (img : ImageData) :
  List.length (sampledPositions img)
  = ((width img * height img + 3) / 4)%nat.
Proof.
  unfold sampledPositions. rewrite stride_positions, length_map, length_seq.
  reflexivity.
Qed.

(** On two well-formed images of equal dimensions, [diffPixels] is the
    number of different sampled positions. *)
Lemma diffPixels_count (ref cur : ImageData) :
  wellFormed ref -> wellFormed cur ->
  width ref = width cur -> height ref = height cur ->
  sampleLoop (List.length (data ref)) (data ref) (data cur) 0 0
  = List.length (differentPositions ref cur).
Proof.
  intros (_ & _ & Lr) (_ & _ & Lc) Hw Hh.
  assert (Hlen : List.length (data cur) = List.length (data ref))
    by (rewrite Lr, Lc, Hw, Hh; reflexivity).
  change (sampleLoop (List.length (data ref)) (data ref) (data cur) 0 0)
    with (sampleLoop (List.length (data ref)) (data ref) (data cur)
                     (16 * 0) 0).
  rewrite (sampleLoop_count _ _ Hlen) by (pose proof (iterations_le
    (List.length (data ref))); lia).
  rewrite Nat.sub_0_r, Nat.add_0_l.
  unfold differentPositions, sampledPositions.
  rewrite stride_positions, filter_map_comm, length_map.
  replace (iterations (List.length (data ref)))
    with ((width ref * height ref + 3) / 4)%nat.
  - f_equal. apply filter_ext. intros k. apply exceedsTolerance_different.
  - unfold iterations. rewrite Lr.
    divmod (width ref * height ref + 3)%nat 4%nat.
    divmod (4 * (width ref * height ref) + 12)%nat 16%nat. lia.
Qed.

Lemma toFixed2_compat (x y : Q) : x == y -> toFixed2 x = toFixed2 y.
Proof.
  intros H. unfold toFixed2, roundHundredths.
  assert (Hp : Qfloor (x * 100 + (1 # 2)) = Qfloor (y * 100 + (1 # 2)))
    by (rewrite H; reflexivity).
  assert (Hn : Qfloor (- x * 100 + (1 # 2)) = Qfloor (- y * 100 + (1 # 2)))
    by (rewrite H; reflexivity).
  assert (Hs : Qle_bool 0 x = Qle_bool 0 y) by (rewrite H; reflexivity).
  rewrite Hp, Hn, Hs. reflexivity.
Qed.

Lemma sampledPixels_value (img : ImageData) :
  wellFormed img ->
  (inject_Z (Z.of_nat (List.length (data img))) / 4 / 4
   == inject_Z (Z.of_nat (width img * height img)) / 4)%Q.
Proof.
  intros (_ & _ & L). rewrite L, Nat2Z.inj_mul, inject_Z_mult.
  change (inject_Z (Z.of_nat 4)) with 4%Q. field.
Qed.

Lemma sampledPixels_nonzero (img : ImageData) :
  wellFormed img ->
  ~ (inject_Z (Z.of_nat (width img * height img)) / 4 == 0)%Q.
Proof.
  intros (Hw & Hh & _) H.
  assert (Hn : (0 < Z.of_nat (width img * height img))%Z) by nia.
  assert (Hq : (0 < inject_Z (Z.of_nat (width img * height img)))%Q).
  { rewrite <- (Zlt_Qlt 0). exact Hn. }
  assert (Hx : (inject_Z (Z.of_nat (width img * height img))
                == inject_Z (Z.of_nat (width img * height img)) / 4 * 4)%Q)
    by field.
  rewrite H in Hx. lra.
Qed.

(** What the code returns on two well-formed images of equal dimensions,
    whatever their size. *)
Lemma compareImageData_equal_dimensions (ref cur : ImageData) :
  wellFormed ref -> wellFormed cur ->
  width ref = width cur -> height ref = height cur ->
  compareImageData ref cur
  = {| hasChanged := negb (Qle_bool (rawPercentage ref cur) CHANGE_THRESHOLD);
       changePercentage := Fin (toFixed2 (rawPercentage ref cur));
       detectedText := "";
       missingPhrases :=
         if negb (Qle_bool (rawPercentage ref cur) CHANGE_THRESHOLD)
         then ["Visual changes detected"%string] else [] |}.
Proof.
  intros Wr Wc Hw Hh. unfold compareImageData.
  rewrite (diffPixels_count ref cur Wr Wc Hw Hh).
  rewrite <- Hw, <- Hh, !Nat.eqb_refl. cbn [negb orb].
  unfold percentageOf.
  destruct (Qeq_bool _ 0) eqn:E.
  - apply Qeq_bool_eq in E. rewrite (sampledPixels_value ref Wr) in E.
    destruct (sampledPixels_nonzero ref Wr E).
  - assert (Hx : (inject_Z (Z.of_nat (List.length (differentPositions ref cur)))
                  / (inject_Z (Z.of_nat (List.length (data ref))) / 4 / 4) * 100
                  == rawPercentage ref cur)%Q).
    { unfold rawPercentage. rewrite (sampledPixels_value ref Wr). reflexivity. }
    cbn [exceeds parseFloatToFixed2].
    rewrite (toFixed2_compat _ _ Hx), Hx. reflexivity.
Qed.

Lemma hundredths (n : Z) : (n # 100 == inject_Z n * (1 # 100))%Q.
Proof. unfold Qeq, Qmult, inject_Z. cbn. lia. Qed.

Lemma roundHundredths_rounds (x : Q) : roundedTo2 x (roundHundredths x).
Proof.
  unfold roundedTo2, roundHundredths. split.
  - eexists. apply Qred_correct.
  - rewrite Qred_correct, hundredths.
    pose proof (Qfloor_le (x * 100 + (1 # 2))) as Hlo.
    pose proof (Qlt_floor (x * 100 + (1 # 2))) as Hhi.
    rewrite inject_Z_plus in Hhi. change (inject_Z 1) with 1%Q in Hhi.
    apply Qabs_Qle_condition. split; lra.
Qed.

Lemma toFixed2_rounds (x : Q) : roundedTo2 x (toFixed2 x).
Proof.
  unfold toFixed2. destruct (Qle_bool 0 x); [apply roundHundredths_rounds|].
  destruct (roundHundredths_rounds (- x)) as ((n & Hn) & Habs).
  split.
  - exists (- n)%Z. rewrite Qred_correct, Hn. unfold Qeq, Qopp. cbn. lia.
  - rewrite Qred_correct.
    apply Qabs_Qle_condition in Habs. apply Qabs_Qle_condition. split; lra.
Qed.

Lemma roundedTo2_range (x p : Q) :
  roundedTo2 x p -> (0 <= x)%Q -> (x <= 100)%Q -> (0 <= p)%Q /\ (p <= 100)%Q.
Proof.
  intros ((n & Hn) & Habs) H0 H100.
  apply Qabs_Qle_condition in Habs. rewrite Hn in *. rewrite hundredths in *.
  assert (Hlo : (-1 < n)%Z).
  { rewrite Zlt_Qlt. change (inject_Z (-1)) with (-1)%Q. lra. }
  assert (Hhi : (n < 10001)%Z).
  { rewrite Zlt_Qlt. change (inject_Z 10001) with 10001%Q. lra. }
  assert (H1 : (0 <= inject_Z n)%Q) by (rewrite <- (Zle_Qle 0); lia).
  assert (H2 : (inject_Z n <= 10000)%Q).
  { change 10000%Q with (inject_Z 10000). rewrite <- Zle_Qle. lia. }
  split; lra.
Qed.

Lemma differentPositions_le (ref cur : ImageData) :
  (List.length (differentPositions ref cur)
   <= List.length (sampledPositions ref))%nat.
Proof. unfold differentPositions. apply filter_length_le. Qed.

Lemma sampledPositions_nonempty (img : ImageData) :
  wellFormed img -> (0 < List.length (sampledPositions img))%nat.
Proof.
  intros (Hw & Hh & _). rewrite sampledPositions_length.
  divmod (width img * height img + 3)%nat 4%nat. nia.
Qed.

Lemma exactMagnitude_range (ref cur : ImageData) :
  wellFormed ref ->
  (0 <= exactMagnitude ref cur)%Q /\ (exactMagnitude ref cur <= 100)%Q.
Proof.
  intros W. unfold exactMagnitude.
  pose proof (differentPositions_le ref cur) as Hle.
  pose proof (sampledPositions_nonempty ref W) as Hpos.
  set (d := List.length (differentPositions ref cur)) in *.
  set (s := List.length (sampledPositions ref)) in *.
  assert (Hd : (0 <= inject_Z (Z.of_nat d))%Q)
    by (rewrite <- (Zle_Qle 0); lia).
  assert (Hs : (0 < inject_Z (Z.of_nat s))%Q)
    by (rewrite <- (Zlt_Qlt 0); lia).
  assert (Hds : (inject_Z (Z.of_nat d) <= inject_Z (Z.of_nat s))%Q)
    by (rewrite <- Zle_Qle; lia).
  split.
  - apply Qle_shift_div_l; [exact Hs|]. lra.
  - apply Qle_shift_div_r; [exact Hs|]. lra.
Qed.

(** With every sampled position different and a pixel count that is not a
    multiple of four, the unrounded percentage of the code is above 100. *)
Lemma rawPercentage_above_100 (ref cur : ImageData) :
  wellFormed ref ->
  ((width ref * height ref) mod 4 <> 0)%nat ->
  differentPositions ref cur = sampledPositions ref ->
  (100 < rawPercentage ref cur)%Q.
Proof.
  intros (Hw & Hh & _) Hmod4 Hall. unfold rawPercentage.
  rewrite Hall, sampledPositions_length.
  set (n := (width ref * height ref)%nat) in *.
  assert (Hn : (0 < n)%nat) by (subst n; nia).
  divmod n 4%nat. divmod (n + 3)%nat 4%nat.
  assert (Hk : (Z.of_nat n < 4 * Z.of_nat ((n + 3) / 4))%Z) by lia.
  rewrite Zlt_Qlt, inject_Z_mult in Hk. change (inject_Z 4) with 4%Q in Hk.
  assert (Hq : (0 < inject_Z (Z.of_nat n))%Q)
    by (rewrite <- (Zlt_Qlt 0); lia).
  assert (Hden : (0 < inject_Z (Z.of_nat n) / 4)%Q)
    by (apply Qlt_shift_div_l; lra).
  assert (Hratio : (1 < inject_Z (Z.of_nat ((n + 3) / 4))
                        / (inject_Z (Z.of_nat n) / 4))%Q).
  { apply Qlt_shift_div_l; [exact Hden|].
    assert (Hx : (inject_Z (Z.of_nat n) == inject_Z (Z.of_nat n) / 4 * 4)%Q)
      by field.
    lra. }
  lra.
Qed.

Lemma rawPercentage_aligned (ref cur : ImageData) :
  wellFormed ref ->
  ((width ref * height ref) mod 4 = 0)%nat ->
  rawPercentage ref cur == exactMagnitude ref cur.
Proof.
  intros (Hw & Hh & _) Hmod4. unfold rawPercentage, exactMagnitude.
  rewrite sampledPositions_length.
  set (n := (width ref * height ref)%nat) in *.
  set (d := inject_Z (Z.of_nat (List.length (differentPositions ref cur)))).
  assert (Hn : (0 < n)%nat) by (subst n; nia).
  divmod n 4%nat. divmod (n + 3)%nat 4%nat.
  assert (Hk : n = (4 * ((n + 3) / 4))%nat) by lia.
  assert (Hpos : (0 < inject_Z (Z.of_nat ((n + 3) / 4)))%Q).
  { rewrite <- (Zlt_Qlt 0). lia. }
  rewrite Hk at 1. rewrite Nat2Z.inj_mul, inject_Z_mult.
  change (inject_Z (Z.of_nat 4)) with 4%Q.
  field. intros H0. rewrite H0 in Hpos. lra.
Qed.

(** C2.  When the decoded images differ in width or in height,
    [compareScreenshots] returns the fixed layout-change result
    ([hasChanged = true], [changePercentage = 100], reason
    ['Page layout changed']) whatever the pixel arrays hold: the sampling
    loop plays no part in the result. *)
Theorem compareScreenshots_dimensions_differ
        (decode : string -> option ImageData)
        (referenceBase64 currentBase64 : string) (ref cur : ImageData) :
  decode referenceBase64 = Some ref ->
  decode currentBase64 = Some cur ->
  width ref <> width cur \/ height ref <> height cur ->
  compareScreenshots decode referenceBase64 currentBase64
  = inl {| hasChanged := true;
           changePercentage := Fin 100;
           detectedText := "";
           missingPhrases := ["Page layout changed"%string] |}.
Proof.
  intros Hr Hc Hdim. unfold compareScreenshots. rewrite Hr, Hc.
  unfold compareImageData.
  destruct (Nat.eqb_spec (width ref) (width cur)) as [Hw|Hw];
    destruct (Nat.eqb_spec (height ref) (height cur)) as [Hh|Hh];
    try reflexivity.
  destruct Hdim; contradiction.
Qed.

Lemma compareScreenshots_dimensions_differ_witness :
  compareScreenshots
    (Samples.sampleDecode (Samples.black 2 2) (Samples.black 2 3))
    "reference" "current"
  = inl {| hasChanged := true;
           changePercentage := Fin 100;
           detectedText := "";
           missingPhrases := ["Page layout changed"%string] |}.
Proof.
  apply (compareScreenshots_dimensions_differ _ _ _
           (Samples.black 2 2) (Samples.black 2 3)).
  - reflexivity.
  - reflexivity.
  - right. simpl. lia.
Defined.

(** C6.  Two decoded images of equal dimensions and identical pixel data
    compare as unchanged: [hasChanged = false] and
    [changePercentage = 0]. *)
Theorem compareScreenshots_identical
        (decode : string -> option ImageData)
        (referenceBase64 currentBase64 : string) (ref cur : ImageData) :
  decode referenceBase64 = Some ref ->
  decode currentBase64 = Some cur ->
  wellFormed ref ->
  width ref = width cur -> height ref = height cur ->
  data ref = data cur ->
  compareScreenshots decode referenceBase64 currentBase64
  = inl {| hasChanged := false;
           changePercentage := Fin 0;
           detectedText := "";
           missingPhrases := [] |}.
Proof.
  intros Hr Hc Wr Hw Hh Hd. unfold compareScreenshots. rewrite Hr, Hc.
  unfold compareImageData.
  rewrite <- Hw, <- Hh, <- Hd, !Nat.eqb_refl. cbn [negb orb].
  rewrite sampleLoop_same. unfold percentageOf.
  destruct (Qeq_bool _ 0) eqn:E.
  - apply Qeq_bool_eq in E. rewrite (sampledPixels_value ref Wr) in E.
    destruct (sampledPixels_nonzero ref Wr E).
  - apply Qeq_bool_neq in E. cbn [exceeds parseFloatToFixed2].
    assert (Hz : (inject_Z (Z.of_nat 0)
                  / (inject_Z (Z.of_nat (List.length (data ref))) / 4 / 4) * 100
                  == 0)%Q).
    { change (inject_Z (Z.of_nat 0)) with 0%Q. field.
      intros H0. apply E. rewrite H0. reflexivity. }
    rewrite (toFixed2_compat _ _ Hz), Hz. reflexivity.
Qed.

Lemma compareScreenshots_identical_witness :
  compareScreenshots
    (Samples.sampleDecode (Samples.black 3 2) (Samples.black 3 2))
    "reference" "current"
  = inl {| hasChanged := false;
           changePercentage := Fin 0;
           detectedText := "";
           missingPhrases := [] |}.
Proof.
  apply (compareScreenshots_identical _ _ _
           (Samples.black 3 2) (Samples.black 3 2));
    try reflexivity.
  repeat split; simpl; lia.
Defined.

(** With a pixel count that is a multiple of four the reported percentage
    stays within [0, 100]. *)
Lemma compareScreenshots_percentage_aligned_range
      (decode : string -> option ImageData)
      (referenceBase64 currentBase64 : string) (ref cur : ImageData) :
  decode referenceBase64 = Some ref ->
  decode currentBase64 = Some cur ->
  wellFormed ref -> wellFormed cur ->
  width ref = width cur -> height ref = height cur ->
  ((width ref * height ref) mod 4 = 0)%nat ->
  exists r p,
    compareScreenshots decode referenceBase64 currentBase64 = inl r
    /\ changePercentage r = Fin p /\ (0 <= p)%Q /\ (p <= 100)%Q.
Proof.
  intros Hr Hc Wr Wc Hw Hh Hmod4.
  unfold compareScreenshots. rewrite Hr, Hc.
  rewrite (compareImageData_equal_dimensions ref cur Wr Wc Hw Hh).
  pose proof (rawPercentage_aligned ref cur Wr Hmod4) as Hx.
  destruct (exactMagnitude_range ref cur Wr) as (H0 & H100).
  eexists. eexists. split; [reflexivity|]. split; [reflexivity|].
  apply (roundedTo2_range (rawPercentage ref cur));
    [apply toFixed2_rounds| |]; rewrite Hx; assumption.
Qed.

(** C1 fails as stated, in both of its parts, in exact arithmetic and in
    binary64 alike.  On a 3x1 image whose one sampled pixel differs the
    claim's formula gives 100 and the code reports 133.33; on a 4x1019
    image with 51 of 1019 sampled pixels different the code reports
    [changePercentage = 5] together with [hasChanged = true], although 5
    does not exceed the threshold. *)
Lemma compareScreenshots_percentage_counterexample :
  (let ref := Samples.black 3 1 in
   let cur := Samples.whiteThenBlack 3 1 4 in
   wellFormed ref /\ wellFormed cur
   /\ width ref = width cur /\ height ref = height cur
   /\ exactMagnitude ref cur == 100
   /\ (exists r,
         compareScreenshots (Samples.sampleDecode ref cur)
                            "reference" "current" = inl r
         /\ changePercentage r = Fin (13333 # 100)
         /\ ~ roundedTo2 (exactMagnitude ref cur) (13333 # 100))
   /\ (exists r,
         DifferBinary64.compareScreenshots (Samples.sampleDecode ref cur)
                                           "reference" "current" = inl r
         /\ changePercentage r = Fin (Binary64.round (13333 # 100))
         /\ ~ DifferBinary64Spec.printedTo2
                (exactMagnitude ref cur) (Binary64.round (13333 # 100))))
  /\
  (let ref := Samples.black 4 1019 in
   let cur := Samples.whiteThenBlack 4 1019 816 in
   wellFormed ref /\ wellFormed cur
   /\ width ref = width cur /\ height ref = height cur
   /\ (exists r,
         compareScreenshots (Samples.sampleDecode ref cur)
                            "reference" "current" = inl r
         /\ changePercentage r = Fin 5
         /\ hasChanged r = true
         /\ ~ (CHANGE_THRESHOLD < 5)%Q)
   /\ (exists r,
         DifferBinary64.compareScreenshots (Samples.sampleDecode ref cur)
                                           "reference" "current" = inl r
         /\ changePercentage r = Fin 5
         /\ hasChanged r = true
         /\ ~ (CHANGE_THRESHOLD < 5)%Q)).
Proof.
  assert (Wb : forall w h, (0 < w)%nat -> (0 < h)%nat ->
                           wellFormed (Samples.black w h)).
  { intros w h Hw Hh. repeat split; try assumption.
    cbn [data Samples.black]. apply repeat_length. }
  assert (Ww : forall w h n, (0 < w)%nat -> (0 < h)%nat ->
                             (n <= 4 * (w * h))%nat ->
                             wellFormed (Samples.whiteThenBlack w h n)).
  { intros w h n Hw Hh Hn. repeat split; try assumption.
    cbn [data width height Samples.whiteThenBlack].
    rewrite length_app, !repeat_length. lia. }
  split; cbv zeta.
  - assert (Hm : exactMagnitude (Samples.black 3 1)
                                (Samples.whiteThenBlack 3 1 4) == 100)
      by (vm_compute; reflexivity).
    split; [apply Wb; lia|]. split; [apply Ww; lia|].
    split; [reflexivity|]. split; [reflexivity|]. split; [exact Hm|].
    split.
    + eexists. split; [vm_compute; reflexivity|].
      cbn [changePercentage]. split; [reflexivity|].
      intros (_ & Habs). rewrite Hm in Habs.
      vm_compute in Habs. apply Habs. reflexivity.
    + eexists. split; [vm_compute; reflexivity|].
      cbn [changePercentage]. split; [reflexivity|].
      intros (k & Hk & Habs). rewrite Hm in Habs.
      apply Qabs_Qle_condition in Habs. destruct Habs as (Hlo & Hhi).
      assert (Ek : k = 10000).
      { unfold Qle in Hlo, Hhi. cbn in Hlo, Hhi. lia. }
      subst k. vm_compute in Hk. discriminate Hk.
  - split; [apply Wb; lia|]. split; [apply Ww; lia|].
    split; [reflexivity|]. split; [reflexivity|].
    split; eexists; (split; [vm_compute; reflexivity|]);
      cbn [changePercentage hasChanged]; (split; [reflexivity|]);
      (split; [reflexivity|]); vm_compute; discriminate.
Qed.

Lemma nth_repeat_app {A} (a d : A) (l : list A) :
  forall m n, (n < m)%nat -> nth n (repeat a m ++ l) d = a.
Proof.
  induction m as [|m IH]; intros n Hn; [lia|].
  destruct n as [|n]; [reflexivity|]. cbn. apply IH. lia.
Qed.

Lemma filter_all {A} (f : A -> bool) (l : list A) :
  (forall x, In x l -> f x = true) -> filter f l = l.
Proof.
  induction l as [|x l IH]; intros H; [reflexivity|].
  cbn. rewrite (H x (or_introl eq_refl)). f_equal.
  apply IH. intros y Hy. apply H. right. exact Hy.
Qed.

(** Against an all-white capture every sampled position of an all-black
    reference is different. *)
Lemma black_white_all_different (w h : nat) :
  differentPositions (Samples.black w h)
                     (Samples.whiteThenBlack w h (4 * (w * h)))
  = sampledPositions (Samples.black w h).
Proof.
  unfold differentPositions. apply filter_all. intros p Hp.
  unfold sampledPositions in Hp. apply filter_In in Hp.
  destruct Hp as (Hp & _). apply in_seq in Hp.
  cbn [width height Samples.black] in Hp.
  unfold different. cbn [existsb data Samples.black Samples.whiteThenBlack].
  rewrite <- (app_nil_r (repeat 0 (4 * (w * h)))) at 1.
  rewrite !nth_repeat_app by lia. reflexivity.
Qed.

Lemma changePercentage_black_white (w h : nat) :
  (0 < w)%nat -> (0 < h)%nat ->
  changePercentage
    (compareImageData (Samples.black w h)
                      (Samples.whiteThenBlack w h (4 * (w * h))))
  = Fin (toFixed2 (inject_Z (Z.of_nat ((w * h + 3) / 4))
                   / (inject_Z (Z.of_nat (w * h)) / 4) * 100)).
Proof.
  intros Hw Hh. rewrite compareImageData_equal_dimensions.
  - cbn [changePercentage]. unfold rawPercentage.
    rewrite black_white_all_different, sampledPositions_length.
    reflexivity.
  - repeat split; try assumption. cbn [data Samples.black].
    apply repeat_length.
  - repeat split; try assumption.
    cbn [data width height Samples.whiteThenBlack].
    rewrite length_app, !repeat_length. lia.
  - reflexivity.
  - reflexivity.
Qed.

Lemma sampleDecode_compare (ref cur : ImageData) :
  compareScreenshots (Samples.sampleDecode ref cur) "reference" "current"
  = inl (compareImageData ref cur).
Proof. reflexivity. Qed.

(** C5.  The code on two inputs whose pixel count is not a multiple of
    four and whose sampled positions all differ: a 1x1 image changed from
    black to white is reported as 400 percent changed, and a 251x151
    capture (the size of a small browser window) as 100.01 percent. *)
Theorem compareScreenshots_percentage_above_100 :
  (let ref := Samples.black 1 1 in
   let cur := Samples.whiteThenBlack 1 1 4 in
   wellFormed ref /\ wellFormed cur
   /\ width ref = width cur /\ height ref = height cur
   /\ compareScreenshots (Samples.sampleDecode ref cur) "reference" "current"
      = inl {| hasChanged := true;
               changePercentage := Fin 400;
               detectedText := "";
               missingPhrases := ["Visual changes detected"%string] |})
  /\
  (let ref := Samples.black 251 151 in
   let cur := Samples.whiteThenBlack 251 151 (4 * (251 * 151)) in
   width ref = width cur /\ height ref = height cur
   /\ exists r,
        compareScreenshots (Samples.sampleDecode ref cur)
                           "reference" "current" = inl r
        /\ changePercentage r = Fin (10001 # 100)).
Proof.
  split; cbv zeta.
  - repeat split; try (simpl; lia).
  - cbn [width height Samples.black Samples.whiteThenBlack].
    split; [reflexivity|]. split; [reflexivity|].
    eexists. split; [apply sampleDecode_compare|].
    rewrite changePercentage_black_white by lia.
    vm_compute. reflexivity.
Qed.

End DifferProofs.

(** * Properties of the differ in binary64 *)

Module DifferBinary64Proofs.

Import Differ DifferSpec DifferBinary64Spec Binary64 Binary64Proofs.

Local Open Scope Q_scope.

Lemma inject_Z_nonzero (n : Z) : (0 < n)%Z -> ~ inject_Z n == 0.
Proof. intros Hn H. unfold Qeq in H. cbn in H. lia. Qed.

Lemma exactPercentage_scaled (d n : Z) :
  (0 < n)%Z -> exactPercentage d n * inject_Z n == 400 * inject_Z d.
Proof.
  intros Hn. unfold exactPercentage. field. apply inject_Z_nonzero, Hn.
Qed.

Lemma epsilon_value : pow2 (-53) == 1 # 9007199254740992.
Proof. reflexivity. Qed.

Lemma computedPercentage_error (d n : Z) :
  (0 <= d <= n)%Z -> (0 < n <= 2 ^ 32)%Z ->
  0 <= computedPercentage d n
  /\ Qabs (computedPercentage d n - exactPercentage d n)
     <= 1200 * pow2 (-53).
Proof.
  intros (Hd0 & Hdn) (Hn0 & Hn32). split.
  { unfold computedPercentage. apply round_nonneg.
    apply Qmult_le_0_compat; [|discriminate]. apply round_nonneg.
    apply Qle_shift_div_l.
    - apply Qlt_shift_div_l; [reflexivity|].
      rewrite Qmult_0_l. change 0 with (inject_Z 0). rewrite <- Zlt_Qlt. lia.
    - rewrite Qmult_0_l. change 0 with (inject_Z 0). rewrite <- Zle_Qle. lia. }
  destruct (Z.eq_dec d 0) as [->|Hnz].
  { unfold computedPercentage, exactPercentage.
    assert (E : inject_Z 0 / (inject_Z n / 4) == 0).
    { field. apply inject_Z_nonzero, Hn0. }
    rewrite (round_compat _ _ E). change (round 0) with 0.
    rewrite E. vm_compute. discriminate. }
  set (q := inject_Z d / (inject_Z n / 4)).
  pose proof epsilon_value as Heps.
  assert (Hnq : 1 <= inject_Z n).
  { change 1 with (inject_Z 1). rewrite <- Zle_Qle. lia. }
  assert (Hnq32 : inject_Z n <= 4294967296).
  { change 4294967296 with (inject_Z (2 ^ 32)). rewrite <- Zle_Qle. lia. }
  assert (Hdq : 1 <= inject_Z d).
  { change 1 with (inject_Z 1). rewrite <- Zle_Qle. lia. }
  assert (Hdnq : inject_Z d <= inject_Z n) by (rewrite <- Zle_Qle; lia).
  assert (Hqn : q * inject_Z n == 4 * inject_Z d).
  { unfold q. field. intros H. lra. }
  assert (Hs : 0 < inject_Z n / 4) by (apply Qlt_shift_div_l; lra).
  assert (Hs4 : inject_Z n / 4 * 4 == inject_Z n) by field.
  assert (Hq4 : q <= 4).
  { unfold q. apply Qle_shift_div_r; [exact Hs|]. lra. }
  assert (Hqlo : (1 # 1073741824) <= q).
  { unfold q. apply Qle_shift_div_l; [exact Hs|]. lra. }
  (* the quotient *)
  assert (He1 : Qabs (round q - q) <= 4 * pow2 (-53)).
  { apply Qle_trans with (q * pow2 (-53)).
    - apply round_error. apply Qle_trans with (1 # 1073741824); [|exact Hqlo].
      change (1 # 1073741824) with (pow2 (-30)). apply pow2_le. lia.
    - apply Qmult_le_compat_r; [exact Hq4|apply Qlt_le_weak, pow2_pos]. }
  apply Qabs_Qle_condition in He1. destruct He1 as (He1a & He1b).
  set (q1 := round q) in *.
  (* the product *)
  set (z := q1 * 100).
  assert (Hz800 : z <= 800) by (unfold z; rewrite Heps in *; lra).
  assert (Hzlo : (1 # 1073741824) <= z) by (unfold z; rewrite Heps in *; lra).
  assert (He2 : Qabs (round z - z) <= 800 * pow2 (-53)).
  { apply Qle_trans with (z * pow2 (-53)).
    - apply round_error. apply Qle_trans with (1 # 1073741824); [|exact Hzlo].
      change (1 # 1073741824) with (pow2 (-30)). apply pow2_le. lia.
    - apply Qmult_le_compat_r; [exact Hz800|apply Qlt_le_weak, pow2_pos]. }
  apply Qabs_Qle_condition in He2. destruct He2 as (He2a & He2b).
  unfold computedPercentage, exactPercentage. fold q. fold q1. fold z.
  apply Qabs_Qle_condition. unfold z in *. rewrite Heps in *. split; lra.
Qed.


(** Two rationals with denominator [n] that differ are at least [1 / n]
    apart. *)
Lemma denominator_gap (t n m : Q) : 0 < n -> n <= m -> 1 <= t * n -> 1 <= t * m.
Proof.
  intros Hn Hm Ht.
  destruct (Qlt_le_dec 0 t) as [Hp|Hz].
  - apply Qle_trans with (t * n); [exact Ht|].
    rewrite !(Qmult_comm t). apply Qmult_le_compat_r; [exact Hm|].
    apply Qlt_le_weak, Hp.
  - exfalso. assert (H : t * n <= 0 * n)
      by (apply Qmult_le_compat_r; [exact Hz|apply Qlt_le_weak, Hn]).
    rewrite Qmult_0_l in H. lra.
Qed.

Lemma sign_of_product (t n : Q) : 0 < n -> t * n <= 0 -> t <= 0.
Proof.
  intros Hn Ht. destruct (Qlt_le_dec 0 t) as [Hp|Hz]; [exfalso|exact Hz].
  assert (H : 0 < t * n) by (apply Qmult_lt_0_compat; assumption). lra.
Qed.

Lemma computedPercentage_at_threshold : round (round (1 # 20) * 100) == 5.
Proof. vm_compute. reflexivity. Qed.

(** The test [changePercentage > CHANGE_THRESHOLD] on the computed double
    decides as on the exact quotient. *)
Lemma computedPercentage_exceeds (d n : Z) :
  (0 <= d <= n)%Z -> (0 < n <= 2 ^ 32)%Z ->
  (5 < computedPercentage d n <-> 5 < exactPercentage d n).
Proof.
  intros Hd Hn.
  destruct (computedPercentage_error d n Hd Hn) as (_ & He).
  apply Qabs_Qle_condition in He. destruct He as (Hea & Heb).
  pose proof (exactPercentage_scaled d n (proj1 Hn)) as Hx.
  pose proof epsilon_value as Heps. rewrite Heps in Hea, Heb.
  assert (Hn0 : 0 < inject_Z n).
  { change 0 with (inject_Z 0). rewrite <- Zlt_Qlt. lia. }
  assert (Hn32 : inject_Z n <= 4294967296).
  { change 4294967296 with (inject_Z (2 ^ 32)). rewrite <- Zle_Qle. lia. }
  set (x := exactPercentage d n) in *. set (xd := computedPercentage d n) in *.
  destruct (Z.lt_trichotomy (400 * d) (5 * n)) as [Hlt|[Heq|Hgt]].
  - (* below the threshold *)
    assert (Hz : (400 * d + 1 <= 5 * n)%Z) by lia.
    rewrite Zle_Qle, inject_Z_plus, !inject_Z_mult in Hz.
    change (inject_Z 400) with 400 in Hz. change (inject_Z 5) with 5 in Hz.
    change (inject_Z 1) with 1 in Hz.
    assert (Hg : 1 <= (5 - x) * inject_Z n).
    { assert (E : (5 - x) * inject_Z n == 5 * inject_Z n - x * inject_Z n)
        by ring. rewrite E, Hx. lra. }
    apply (denominator_gap _ _ _ Hn0 Hn32) in Hg. split; intros H; exfalso; lra.
  - (* at the threshold *)
    assert (Hq : inject_Z d / (inject_Z n / 4) == 1 # 20).
    { replace n with (80 * d)%Z by lia.
      rewrite inject_Z_mult. change (inject_Z 80) with 80. field.
      apply inject_Z_nonzero. lia. }
    assert (Hxd : xd == 5).
    { unfold xd, computedPercentage. rewrite (round_compat _ _ Hq).
      exact computedPercentage_at_threshold. }
    assert (Hx5 : x == 5).
    { unfold x, exactPercentage. rewrite Hq. reflexivity. }
    rewrite Hxd, Hx5. split; intros H; exact H.
  - (* above the threshold *)
    assert (Hz : (5 * n + 1 <= 400 * d)%Z) by lia.
    rewrite Zle_Qle, inject_Z_plus, !inject_Z_mult in Hz.
    change (inject_Z 400) with 400 in Hz. change (inject_Z 5) with 5 in Hz.
    change (inject_Z 1) with 1 in Hz.
    assert (Hg : 1 <= (x - 5) * inject_Z n).
    { assert (E : (x - 5) * inject_Z n == x * inject_Z n - 5 * inject_Z n)
        by ring. rewrite E, Hx. lra. }
    apply (denominator_gap _ _ _ Hn0 Hn32) in Hg. split; intros H; lra.
Qed.

(** The hundredths [toFixed(2)] prints for the computed double are those
    nearest to the exact quotient. *)
Lemma computedPercentage_hundredths (d n : Z) :
  (0 <= d <= n)%Z -> (0 < n <= 2 ^ 32)%Z ->
  Qabs ((Qfloor (computedPercentage d n * 100 + (1 # 2)) # 100)
        - exactPercentage d n)
  <= 1 # 200.
Proof.
  intros Hd Hn.
  destruct (computedPercentage_error d n Hd Hn) as (_ & He).
  apply Qabs_Qle_condition in He. destruct He as (Hea & Heb).
  pose proof (exactPercentage_scaled d n (proj1 Hn)) as Hx.
  pose proof epsilon_value as Heps. rewrite Heps in Hea, Heb.
  assert (Hn0 : 0 < inject_Z n).
  { change 0 with (inject_Z 0). rewrite <- Zlt_Qlt. lia. }
  assert (Hn32 : inject_Z n <= 4294967296).
  { change 4294967296 with (inject_Z (2 ^ 32)). rewrite <- Zle_Qle. lia. }
  set (x := exactPercentage d n) in *. set (xd := computedPercentage d n) in *.
  pose proof (Qfloor_le (xd * 100 + (1 # 2))) as Hfl.
  pose proof (Qlt_floor (xd * 100 + (1 # 2))) as Hfu.
  set (k := Qfloor (xd * 100 + (1 # 2))) in *.
  rewrite inject_Z_plus in Hfu. change (inject_Z 1) with 1 in Hfu.
  rewrite (DifferProofs.hundredths k).
  assert (Hup : 2 * inject_Z k - 200 * x - 1 <= 0).
  { destruct (Z_le_gt_dec (2 * n * k) (80000 * d + n)) as [Hz|Hz].
    - rewrite Zle_Qle, inject_Z_plus, !inject_Z_mult in Hz.
      change (inject_Z 2) with 2 in Hz.
      change (inject_Z 80000) with 80000 in Hz.
      apply (sign_of_product _ (inject_Z n) Hn0).
      assert (E : (2 * inject_Z k - 200 * x - 1) * inject_Z n
                  == 2 * inject_Z n * inject_Z k
                     - 200 * (x * inject_Z n) - inject_Z n) by ring.
      rewrite E, Hx. lra.
    - exfalso.
      assert (Hz' : (80000 * d + n + 1 <= 2 * n * k)%Z) by lia.
      rewrite Zle_Qle, !inject_Z_plus, !inject_Z_mult in Hz'.
      change (inject_Z 2) with 2 in Hz'.
      change (inject_Z 80000) with 80000 in Hz'.
      change (inject_Z 1) with 1 in Hz'.
      assert (Hg : 1 <= (2 * inject_Z k - 200 * x - 1) * inject_Z n).
      { assert (E : (2 * inject_Z k - 200 * x - 1) * inject_Z n
                    == 2 * inject_Z n * inject_Z k
                       - 200 * (x * inject_Z n) - inject_Z n) by ring.
        rewrite E, Hx. lra. }
      apply (denominator_gap _ _ _ Hn0 Hn32) in Hg. lra. }
  assert (Hdown : 200 * x - 1 - 2 * inject_Z k <= 0).
  { destruct (Z_le_gt_dec (80000 * d - n) (2 * n * k)) as [Hz|Hz].
    - rewrite Zle_Qle in Hz. unfold Z.sub in Hz.
      rewrite inject_Z_plus, inject_Z_opp, !inject_Z_mult in Hz.
      change (inject_Z 2) with 2 in Hz.
      change (inject_Z 80000) with 80000 in Hz.
      apply (sign_of_product _ (inject_Z n) Hn0).
      assert (E : (200 * x - 1 - 2 * inject_Z k) * inject_Z n
                  == 200 * (x * inject_Z n) - inject_Z n
                     - 2 * inject_Z n * inject_Z k) by ring.
      rewrite E, Hx. lra.
    - exfalso.
      assert (Hz' : (2 * n * k + 1 <= 80000 * d + - n)%Z) by lia.
      rewrite Zle_Qle, !inject_Z_plus, inject_Z_opp, !inject_Z_mult in Hz'.
      change (inject_Z 2) with 2 in Hz'.
      change (inject_Z 80000) with 80000 in Hz'.
      change (inject_Z 1) with 1 in Hz'.
      assert (Hg : 1 <= (200 * x - 1 - 2 * inject_Z k) * inject_Z n).
      { assert (E : (200 * x - 1 - 2 * inject_Z k) * inject_Z n
                    == 200 * (x * inject_Z n) - inject_Z n
                       - 2 * inject_Z n * inject_Z k) by ring.
        rewrite E, Hx. lra. }
      apply (denominator_gap _ _ _ Hn0 Hn32) in Hg. lra. }
  apply Qabs_Qle_condition. split; lra.
Qed.


Lemma pixels_bounds (img : ImageData) :
  wellFormed img ->
  (Z.of_nat (width img * height img) <= 2 ^ 32)%Z ->
  (0 < Z.of_nat (width img * height img) <= 2 ^ 32)%Z
  /\ (0 <= Z.of_nat (width img * height img) < 2 ^ 53)%Z.
Proof.
  intros (Hw & Hh & _) Hn.
  assert (0 < width img * height img)%nat
    by (apply Nat.mul_pos_pos; assumption).
  assert (2 ^ 32 < 2 ^ 53)%Z by reflexivity. lia.
Qed.

(** On images of at most [2^32] pixels the two divisions by four are
    exact. *)
Lemma sampledPixels_exact (img : ImageData) :
  wellFormed img ->
  (Z.of_nat (width img * height img) <= 2 ^ 32)%Z ->
  round (round (inject_Z (Z.of_nat (List.length (data img))) / 4) / 4)
  == inject_Z (Z.of_nat (width img * height img)) / 4.
Proof.
  intros W Hn. destruct (pixels_bounds img W Hn) as (_ & H53).
  destruct W as (_ & _ & Hlen). rewrite Hlen.
  set (n := Z.of_nat (width img * height img)) in *.
  assert (E1 : inject_Z (Z.of_nat (4 * (width img * height img))) / 4
               == inject_Z n).
  { rewrite Nat2Z.inj_mul, inject_Z_mult. fold n.
    change (inject_Z (Z.of_nat 4)) with 4. field. }
  rewrite (round_compat _ _ E1).
  assert (E2 : round (inject_Z n) / 4 == inject_Z n / 4).
  { rewrite (round_exact_Z n H53). reflexivity. }
  rewrite (round_compat _ _ E2). apply round_exact_quarter. exact H53.
Qed.

(** [compareImageData] on two well-formed images of equal dimensions and
    at most [2^32] pixels, in terms of the sampled positions. *)
Lemma compareImageData_binary64_equal_dimensions (ref cur : ImageData) :
  wellFormed ref -> wellFormed cur ->
  width ref = width cur -> height ref = height cur ->
  (Z.of_nat (width ref * height ref) <= 2 ^ 32)%Z ->
  let x :=
    computedPercentage
      (Z.of_nat (List.length (differentPositions ref cur)))
      (Z.of_nat (width ref * height ref)) in
  DifferBinary64.compareImageData ref cur
  = {| hasChanged := negb (Qle_bool x CHANGE_THRESHOLD);
       changePercentage := Fin (round (toFixed2 x));
       detectedText := "";
       missingPhrases :=
         if negb (Qle_bool x CHANGE_THRESHOLD)
         then ["Visual changes detected"%string] else [] |}.
Proof.
  intros Wr Wc Hw Hh Hn. cbv zeta. unfold DifferBinary64.compareImageData.
  rewrite <- Hw, <- Hh, !Nat.eqb_refl. cbn [negb orb]. cbv zeta.
  rewrite (DifferProofs.diffPixels_count ref cur Wr Wc Hw Hh).
  pose proof (sampledPixels_exact ref Wr Hn) as Hs.
  destruct (pixels_bounds ref Wr Hn) as ((Hn0 & _) & _).
  unfold DifferBinary64.percentageOf.
  set (s := round (round (inject_Z (Z.of_nat (List.length (data ref))) / 4)
                   / 4)) in *.
  set (d := Z.of_nat (List.length (differentPositions ref cur))).
  set (n := Z.of_nat (width ref * height ref)) in *.
  destruct (Qeq_bool s 0) eqn:E.
  { apply Qeq_bool_eq in E. rewrite Hs in E. exfalso.
    assert (H : inject_Z n == 0).
    { assert (E4 : inject_Z n == inject_Z n / 4 * 4) by field.
      rewrite E4, E. reflexivity. }
    exact (inject_Z_nonzero n Hn0 H). }
  assert (Hq : inject_Z d / s == inject_Z d / (inject_Z n / 4))
    by (rewrite Hs; reflexivity).
  rewrite (round_compat _ _ Hq). reflexivity.
Qed.

Lemma different_count_bounds (ref cur : ImageData) :
  wellFormed ref ->
  (0 <= Z.of_nat (List.length (differentPositions ref cur))
   <= Z.of_nat (width ref * height ref))%Z.
Proof.
  intros (Hw & Hh & _).
  pose proof (DifferProofs.differentPositions_le ref cur) as Hle.
  rewrite DifferProofs.sampledPositions_length in Hle.
  assert (Hp : (0 < width ref * height ref)%nat)
    by (apply Nat.mul_pos_pos; assumption).
  pose proof (Nat.div_mod (width ref * height ref + 3) 4) as Hdm.
  pose proof (Nat.mod_upper_bound (width ref * height ref + 3) 4) as Hmu.
  lia.
Qed.

Lemma toFixed2_nonneg (x : Q) :
  0 <= x -> toFixed2 x == Qfloor (x * 100 + (1 # 2)) # 100.
Proof.
  intros H. unfold toFixed2, roundHundredths.
  apply Qle_bool_iff in H. rewrite H. apply Qred_correct.
Qed.

(** C1, as the code computes it.  On two well-formed images of equal
    dimensions whose pixel count is a multiple of four and at most [2^32],
    [changePercentage] is the double read from [100 * different / sampled]
    printed with two decimals (the figure is within half a hundredth of
    the exact quotient), and [hasChanged] holds exactly when the quotient,
    before it is rounded to two decimals, exceeds [CHANGE_THRESHOLD]. *)
Theorem compareScreenshots_percentage_binary64
        (decode : string -> option ImageData)
        (referenceBase64 currentBase64 : string) (ref cur : ImageData) :
  decode referenceBase64 = Some ref ->
  decode currentBase64 = Some cur ->
  wellFormed ref -> wellFormed cur ->
  width ref = width cur -> height ref = height cur ->
  ((width ref * height ref) mod 4 = 0)%nat ->
  (Z.of_nat (width ref * height ref) <= 2 ^ 32)%Z ->
  exists r p,
    DifferBinary64.compareScreenshots decode referenceBase64 currentBase64
    = inl r
    /\ changePercentage r = Fin p
    /\ printedTo2 (exactMagnitude ref cur) p
    /\ (hasChanged r = true
        <-> CHANGE_THRESHOLD < exactMagnitude ref cur).
Proof.
  intros Hr Hc Wr Wc Hw Hh Hmod4 Hn.
  unfold DifferBinary64.compareScreenshots. rewrite Hr, Hc.
  rewrite (compareImageData_binary64_equal_dimensions ref cur Wr Wc Hw Hh Hn).
  pose proof (DifferProofs.rawPercentage_aligned ref cur Wr Hmod4) as Hx.
  pose proof (different_count_bounds ref cur Wr) as Hd.
  destruct (pixels_bounds ref Wr Hn) as (Hn' & _).
  set (d := Z.of_nat (List.length (differentPositions ref cur))) in *.
  set (n := Z.of_nat (width ref * height ref)) in *.
  change (rawPercentage ref cur) with (exactPercentage d n) in Hx.
  destruct (computedPercentage_error d n Hd Hn') as (H0 & _).
  eexists. eexists. split; [reflexivity|]. cbn [changePercentage hasChanged].
  split; [reflexivity|]. split.
  - exists (Qfloor (computedPercentage d n * 100 + (1 # 2))). split.
    + apply round_compat, toFixed2_nonneg, H0.
    + rewrite <- Hx. apply computedPercentage_hundredths; assumption.
  - rewrite <- Hx, negb_true_iff. unfold CHANGE_THRESHOLD.
    rewrite <- (computedPercentage_exceeds d n Hd Hn').
    destruct (Qle_bool (computedPercentage d n) 5) eqn:E.
    + apply Qle_bool_iff in E. split; [discriminate|].
      intros Hlt. exfalso. apply (Qlt_not_le _ _ Hlt). exact E.
    + split; [intros _|reflexivity].
      apply Qnot_le_lt. intros Hle. apply Qle_bool_iff in Hle. congruence.
Qed.

Lemma compareScreenshots_percentage_binary64_witness :
  exists r p,
    DifferBinary64.compareScreenshots
      (Samples.sampleDecode (Samples.black 2 2)
                            (Samples.whiteThenBlack 2 2 4))
      "reference" "current" = inl r
    /\ changePercentage r = Fin p
    /\ printedTo2 (exactMagnitude (Samples.black 2 2)
                                  (Samples.whiteThenBlack 2 2 4)) p
    /\ (hasChanged r = true
        <-> CHANGE_THRESHOLD
            < exactMagnitude (Samples.black 2 2)
                             (Samples.whiteThenBlack 2 2 4)).
Proof.
  apply (compareScreenshots_percentage_binary64 _ _ _
           (Samples.black 2 2) (Samples.whiteThenBlack 2 2 4));
    try reflexivity; repeat split; simpl; lia.
Defined.


(** On a 32x20 image with 23 of the 160 sampled positions different the
    exact percentage is 14.375; the computed double lies just below it
    and the code reports 14.37. *)
Lemma compareScreenshots_percentage_below_tie :
  let ref := Samples.black 32 20 in
  let cur := Samples.whiteThenBlack 32 20 368 in
  exactMagnitude ref cur == 14375 # 1000
  /\ DifferBinary64.compareScreenshots (Samples.sampleDecode ref cur)
       "reference" "current"
     = inl {| hasChanged := true;
              changePercentage := Fin (round (1437 # 100));
              detectedText := "";
              missingPhrases := ["Visual changes detected"%string] |}.
Proof.
  cbv zeta. split; vm_compute; reflexivity.
Qed.

(** On images of at most [2^32] pixels the rounding never moves the
    percentage across the threshold: the binary64 differ and the exact one
    raise the same flag. *)
Lemma hasChanged_agree (ref cur : ImageData) :
  wellFormed ref -> wellFormed cur ->
  (Z.of_nat (width ref * height ref) <= 2 ^ 32)%Z ->
  hasChanged (DifferBinary64.compareImageData ref cur)
  = hasChanged (Differ.compareImageData ref cur)
  /\ missingPhrases (DifferBinary64.compareImageData ref cur)
     = missingPhrases (Differ.compareImageData ref cur).
Proof.
  intros Wr Wc Hn.
  destruct (Nat.eq_dec (width ref) (width cur)) as [Hw|Hw].
  2:{ unfold DifferBinary64.compareImageData, Differ.compareImageData.
      apply Nat.eqb_neq in Hw. rewrite Hw. split; reflexivity. }
  destruct (Nat.eq_dec (height ref) (height cur)) as [Hh|Hh].
  2:{ unfold DifferBinary64.compareImageData, Differ.compareImageData.
      apply Nat.eqb_neq in Hh. rewrite Hh, orb_true_r. split; reflexivity. }
  rewrite (compareImageData_binary64_equal_dimensions ref cur Wr Wc Hw Hh Hn).
  rewrite (DifferProofs.compareImageData_equal_dimensions ref cur Wr Wc Hw Hh).
  cbn [hasChanged missingPhrases].
  pose proof (different_count_bounds ref cur Wr) as Hd.
  destruct (pixels_bounds ref Wr Hn) as (Hn' & _).
  pose proof (computedPercentage_exceeds _ _ Hd Hn') as Hiff.
  change (exactPercentage
            (Z.of_nat (List.length (differentPositions ref cur)))
            (Z.of_nat (width ref * height ref)))
    with (rawPercentage ref cur) in Hiff.
  set (x := computedPercentage _ _) in *. set (y := rawPercentage ref cur) in *.
  assert (E : Qle_bool x CHANGE_THRESHOLD = Qle_bool y CHANGE_THRESHOLD).
  { unfold CHANGE_THRESHOLD.
    destruct (Qle_bool x 5) eqn:Ex, (Qle_bool y 5) eqn:Ey; try reflexivity;
      exfalso.
    - apply Qle_bool_iff in Ex.
      assert (Hy : 5 < y).
      { apply Qnot_le_lt. intros H. apply Qle_bool_iff in H. congruence. }
      apply Hiff in Hy. lra.
    - apply Qle_bool_iff in Ey.
      assert (Hx : 5 < x).
      { apply Qnot_le_lt. intros H. apply Qle_bool_iff in H. congruence. }
      apply Hiff in Hx. lra. }
  rewrite E. split; reflexivity.
Qed.

(** Images of different dimensions are a layout change, as in [Differ]:
    no arithmetic is involved. *)
Lemma compareImageData_binary64_dimensions_differ (ref cur : ImageData) :
  width ref <> width cur \/ height ref <> height cur ->
  DifferBinary64.compareImageData ref cur = layoutChanged.
Proof.
  intros [H|H]; unfold DifferBinary64.compareImageData;
    apply Nat.eqb_neq in H; rewrite H; [|rewrite orb_true_r]; reflexivity.
Qed.

End DifferBinary64Proofs.


(** * Properties of the monitor engine *)

Module EngineProofs.

Import DifferBinary64 Engine EngineSteps.

(** Unfolds the computation layer down to functions on worlds. *)
Ltac run :=
  unfold tryCatch, bind, ret, throw, emit, hostCall, storageGet,
    storageSetMonitoring, alarmsCreate, alarmsClear;
  cbn [fst snd storage alarm trace telegram reference monitoring keywords].

Lemma orDefault_nonzero (m : option MonitoringConfig)
      (f : MonitoringConfig -> Z) (d : Z) :
  d <> 0 -> orDefault m f d <> 0.
Proof.
  intros Hd. unfold orDefault. destruct m as [c|]; [|exact Hd].
  destruct (Z.eqb_spec (f c) 0); assumption.
Qed.

(** Filling in the defaults a second time changes nothing. *)
Lemma withDefaults_idempotent (m : option MonitoringConfig) (active : bool) :
  withDefaults (Some (withDefaults m active)) active = withDefaults m active.
Proof.
  unfold withDefaults at 1. cbn [orDefault autoRefreshOr].
  cbn [intervalMin intervalMax refreshDelay autoRefresh lastCheckTime
       withDefaults].
  rewrite !(proj2 (Z.eqb_neq _ 0)); [reflexivity| | |];
    apply orDefault_nonzero; discriminate.
Qed.

(** C10.  [getStatus] answers [success = true] with no error in every
    world, returning whatever monitoring entry the storage holds (possibly
    none) and leaving the world as it was. *)
Theorem getStatus_succeeds (w : World) :
  getStatus w
  = (inl {| success := true;
            responseData := monitoring (storage w);
            error := None |}, w).
Proof. reflexivity. Qed.

(** C8.  From every world, two [stopMonitoring] calls in a row both answer
    success without an error, leave [isActive = false] after each call,
    and the second call leaves the storage (and the cleared alarm slot) as
    the first one left it. *)
Theorem stopMonitoring_idempotent (w : World) :
  let first := stopMonitoring w in
  let second := stopMonitoring (snd first) in
  fst first = inl succeeded
  /\ fst second = inl succeeded
  /\ option_map isActive (monitoring (storage (snd first))) = Some false
  /\ option_map isActive (monitoring (storage (snd second))) = Some false
  /\ storage (snd second) = storage (snd first)
  /\ alarm (snd first) = None
  /\ alarm (snd second) = None.
Proof.
  cbv zeta. unfold stopMonitoring. run.
  rewrite withDefaults_idempotent. repeat split.
Qed.

(** C7.  A check that finds no reference snapshot, no monitoring entry or
    [isActive = false] returns at once and leaves the world untouched:
    the storage (hence [lastCheckTime]) is unchanged and the trace gains
    no capture, no storage write, no request and no notification. *)
Theorem checkForChanges_inactive (h : Host) (w : World) :
  reference (storage w) = None
  \/ monitoring (storage w) = None
  \/ (exists m, monitoring (storage w) = Some m /\ isActive m = false) ->
  checkForChanges h w = (inl tt, w).
Proof.
  intros H. unfold checkForChanges. run.
  destruct (reference (storage w)) as [ref|]; [|reflexivity].
  destruct H as [H|[H|(m & H & Hm)]]; [discriminate| |];
    rewrite H; cbn [monitoringActive negb]; [|rewrite Hm]; reflexivity.
Qed.

Lemma checkForChanges_inactive_witness :
  checkForChanges
    (Samples.hostWith (inl "current"%string) Samples.changedDecode
                      Samples.delivered)
    (Samples.worldOf (Some Samples.sampleTelegram)
                     (Some Samples.sampleReference)
                     (Some Samples.inactiveConfig))
  = (inl tt,
     Samples.worldOf (Some Samples.sampleTelegram)
                     (Some Samples.sampleReference)
                     (Some Samples.inactiveConfig)).
Proof.
  apply checkForChanges_inactive.
  right. right. exists Samples.inactiveConfig. split; reflexivity.
Defined.

Lemma telegramNotConfigured_false (t : TelegramConfig) :
  botToken t <> ""%string -> chatId t <> ""%string ->
  telegramNotConfigured (Some t) = false.
Proof.
  intros Hb Hc. cbn [telegramNotConfigured].
  destruct (botToken t); [contradiction|].
  destruct (chatId t); [contradiction|]. reflexivity.
Qed.

Lemma telegramNotConfigured_true (t : option TelegramConfig) :
  t = None
  \/ (exists c, t = Some c /\ (botToken c = ""%string \/ chatId c = ""%string)) ->
  telegramNotConfigured t = true.
Proof.
  intros [->|(c & -> & [H|H])]; cbn [telegramNotConfigured].
  - reflexivity.
  - rewrite H. reflexivity.
  - rewrite H. apply orb_true_r.
Qed.

(** The successful run of [startMonitoring], in full. *)
Lemma startMonitoring_started (h : Host) (w : World) :
  reference (storage w) <> None ->
  telegramNotConfigured (telegram (storage w)) = false ->
  let config := withDefaults (monitoring (storage w)) true in
  let minutes :=
    Binary64.round
      (inject_Z (getRandomInterval h (intervalMin config) (intervalMax config))
       / 60)%Q in
  startMonitoring h w
  = (inl succeeded,
     {| storage := {| telegram := telegram (storage w);
                      reference := reference (storage w);
                      monitoring := Some config;
                      keywords := keywords (storage w) |};
        alarm := Some {| delayInMinutes := minutes;
                         periodInMinutes := minutes |};
        trace := ConsoleLog "Monitoring started"
                 :: AlarmsCreate {| delayInMinutes := minutes;
                                    periodInMinutes := minutes |}
                 :: StorageSet "monitoring" :: trace w |}).
Proof.
  intros Hr Ht. unfold startMonitoring. run.
  destruct (reference (storage w)) as [r|] eqn:E; [|contradiction].
  rewrite Ht. cbn. rewrite E. reflexivity.
Qed.

(** C4.  [startMonitoring] answers ['No reference snapshot captured'] when
    the storage holds no reference; answers
    ['Telegram settings not configured'] when a reference exists but the
    Telegram entry is absent or has an empty bot token or chat id; in both
    cases the world (stored config, alarm slot, trace) is left as it was.
    Otherwise it answers success, the stored config has [isActive = true]
    and the alarm is armed with the drawn interval. *)
Theorem startMonitoring_outcomes (h : Host) (w : World) :
  (reference (storage w) = None ->
   startMonitoring h w = (inl (failed "No reference snapshot captured"), w))
  /\
  (reference (storage w) <> None ->
   telegram (storage w) = None
   \/ (exists c, telegram (storage w) = Some c
                 /\ (botToken c = ""%string \/ chatId c = ""%string)) ->
   startMonitoring h w = (inl (failed "Telegram settings not configured"), w))
  /\
  (reference (storage w) <> None ->
   (exists c, telegram (storage w) = Some c
              /\ botToken c <> ""%string /\ chatId c <> ""%string) ->
   let config := withDefaults (monitoring (storage w)) true in
   let minutes :=
     Binary64.round
       (inject_Z (getRandomInterval h (intervalMin config)
                                    (intervalMax config)) / 60)%Q in
   let w' := snd (startMonitoring h w) in
   fst (startMonitoring h w) = inl succeeded
   /\ monitoring (storage w') = Some config
   /\ isActive config = true
   /\ telegram (storage w') = telegram (storage w)
   /\ reference (storage w') = reference (storage w)
   /\ alarm w' = Some {| delayInMinutes := minutes;
                         periodInMinutes := minutes |}).
Proof.
  split; [|split].
  - intros Hr. unfold startMonitoring. run. rewrite Hr. reflexivity.
  - intros Hr Ht. unfold startMonitoring. run.
    destruct (reference (storage w)); [|contradiction].
    rewrite (telegramNotConfigured_true _ Ht). reflexivity.
  - intros Hr (c & Ht & Hb & Hc). cbv zeta.
    rewrite (startMonitoring_started h w Hr).
    + repeat split.
    + rewrite Ht. apply telegramNotConfigured_false; assumption.
Qed.

Lemma startMonitoring_outcomes_witness :
  startMonitoring
    (Samples.hostWith (inl "current"%string) Samples.changedDecode
                      Samples.delivered)
    (Samples.worldOf (Some Samples.sampleTelegram) None
                     (Some Samples.inactiveConfig))
  = (inl (failed "No reference snapshot captured"),
     Samples.worldOf (Some Samples.sampleTelegram) None
                     (Some Samples.inactiveConfig))
  /\
  startMonitoring
    (Samples.hostWith (inl "current"%string) Samples.changedDecode
                      Samples.delivered)
    (Samples.worldOf (Some {| botToken := ""; chatId := "42" |})
                     (Some Samples.sampleReference)
                     (Some Samples.inactiveConfig))
  = (inl (failed "Telegram settings not configured"),
     Samples.worldOf (Some {| botToken := ""; chatId := "42" |})
                     (Some Samples.sampleReference)
                     (Some Samples.inactiveConfig))
  /\
  fst (startMonitoring
         (Samples.hostWith (inl "current"%string) Samples.changedDecode
                           Samples.delivered)
         (Samples.worldOf (Some Samples.sampleTelegram)
                          (Some Samples.sampleReference)
                          (Some Samples.inactiveConfig)))
  = inl succeeded.
Proof.
  split; [|split].
  - apply (proj1 (startMonitoring_outcomes _ _)). reflexivity.
  - apply (proj1 (proj2 (startMonitoring_outcomes _ _))).
    + discriminate.
    + right. eexists. split; [reflexivity|]. left. reflexivity.
  - apply (proj2 (proj2 (startMonitoring_outcomes _ _))).
    + discriminate.
    + exists Samples.sampleTelegram. repeat split; discriminate.
Defined.

(** Reduces a check cycle whose oracles have been rewritten in. *)
Ltac advance :=
  run; cbn -[compareScreenshots orDefault Z.eqb].

(** [sendTelegramNotification] with a present configuration never throws:
    a rejected [fetch], a rejected [response.text()] and a response that
    is not [ok] all end in the logging branch. *)
Lemma sendTelegramNotification_caught (h : Host) (cfg : TelegramConfig)
      (c : ComparisonResult) (w : World) :
  exists log,
    sendTelegramNotification h (Some cfg) c w
    = (inl tt,
       {| storage := storage w; alarm := alarm w;
          trace := log :: Fetch (botToken cfg) (chatId cfg) c :: trace w |})
    /\ (telegramDelivered h = false ->
        log = ConsoleError "Telegram error:").
Proof.
  unfold sendTelegramNotification, telegramDelivered. run.
  destruct (fetch h) as [[isOk body]|e]; cbn.
  - destruct isOk; cbn.
    + eexists. split; [reflexivity|]. discriminate.
    + destruct body; cbn; eexists; split; reflexivity.
  - eexists. split; reflexivity.
Qed.

(** A cycle that passes its guards, resolves a tab and whose reload,
    capture and comparison succeed commits the new config and then runs
    the notification step. *)
Lemma checkForChanges_completed (h : Host) (w : World)
      (ref : ReferenceSnapshot) (m : MonitoringConfig)
      (tabs : list Tab) (id : Z) (shot : string) (c : ComparisonResult) :
  reference (storage w) = Some ref ->
  monitoring (storage w) = Some m ->
  isActive m = true ->
  tabsQuery h = inl tabs ->
  activeTabId tabs = Some id ->
  (autoRefresh m = true -> tabsReload h = None) ->
  captureVisibleTab h = inl shot ->
  compareScreenshots (decode h) (screenshot ref) shot = inl c ->
  checkForChanges h w
  = notificationStep h (telegram (storage w)) c (afterUpdate h w m id).
Proof.
  intros Hr Hm Ha Hq Ht Hre Hcap Hcmp.
  unfold checkForChanges, notificationStep, afterUpdate.
  run. rewrite Hr, Hm. advance. rewrite Ha, Hq. advance.
  rewrite Ht. advance.
  destruct (autoRefresh m) eqn:Har.
  - rewrite (Hre eq_refl). advance. rewrite Hcap. advance.
    rewrite Hcmp. advance. rewrite Hr. reflexivity.
  - advance. rewrite Hcap. advance.
    rewrite Hcmp. advance. rewrite Hr. reflexivity.
Qed.

(** The notification step never throws, never touches the storage and only
    adds to the trace. *)
Lemma notificationStep_frame (h : Host) (t : option TelegramConfig)
      (c : ComparisonResult) (w : World) :
  fst (notificationStep h t c w) = inl tt
  /\ storage (snd (notificationStep h t c w)) = storage w
  /\ (forall e, In e (trace w) -> In e (trace (snd (notificationStep h t c w)))).
Proof.
  unfold notificationStep, sendTelegramNotification, showBrowserNotification,
    settle.
  run. destruct (hasChanged c); [|cbn; auto].
  destruct t as [cfg|]; [|cbn; auto].
  destruct (fetch h) as [[isOk body]|e1]; [destruct isOk; [|destruct body]|];
    destruct (notificationsCreate h) as [e2|]; cbn; auto 10.
Qed.

(** C3, as the code has it.  A cycle that passes the guards and resolves a
    tab writes [lastCheckTime = now] to the stored config when the reload,
    the capture and the comparison all succeed, whatever the comparison
    found and whatever becomes of the notifications; when the capture or
    the comparison throws, the cycle ends in its [catch] and the storage,
    [lastCheckTime] included, stays as it was. *)
Theorem checkForChanges_check_time (h : Host) (w : World)
        (ref : ReferenceSnapshot) (m : MonitoringConfig)
        (tabs : list Tab) (id : Z) :
  reference (storage w) = Some ref ->
  monitoring (storage w) = Some m ->
  isActive m = true ->
  tabsQuery h = inl tabs ->
  activeTabId tabs = Some id ->
  (autoRefresh m = true -> tabsReload h = None) ->
  let w' := snd (checkForChanges h w) in
  (forall shot c,
      captureVisibleTab h = inl shot ->
      compareScreenshots (decode h) (screenshot ref) shot = inl c ->
      exists m',
        monitoring (storage w') = Some m'
        /\ lastCheckTime m' = Some (now h)
        /\ isActive m' = true
        /\ In (StorageSet "monitoring") (trace w'))
  /\
  ((exists e, captureVisibleTab h = inr e)
   \/ (exists shot e,
         captureVisibleTab h = inl shot
         /\ compareScreenshots (decode h) (screenshot ref) shot = inr e) ->
   storage w' = storage w).
Proof.
  intros Hr Hm Ha Hq Ht Hre. cbv zeta. split.
  - intros shot c Hcap Hcmp.
    rewrite (checkForChanges_completed h w ref m tabs id shot c) by assumption.
    destruct (notificationStep_frame h (telegram (storage w)) c
                (afterUpdate h w m id)) as (_ & Hs & Htr).
    rewrite Hs. eexists. split; [reflexivity|]. cbn. rewrite Ha.
    repeat split. apply Htr. cbn. auto.
  - intros Hfail. unfold checkForChanges. run. rewrite Hr, Hm. advance.
    rewrite Ha, Hq. advance. rewrite Ht. advance.
    destruct Hfail as [(e & Hcap)|(shot & e & Hcap & Hcmp)];
      destruct (autoRefresh m) eqn:Har;
      rewrite ?(Hre eq_refl); advance; rewrite Hcap; advance;
      rewrite ?Hcmp; reflexivity.
Qed.

Lemma checkForChanges_check_time_witness :
  let w := Samples.worldOf (Some Samples.sampleTelegram)
                           (Some Samples.sampleReference)
                           (Some Samples.activeConfig) in
  let h := Samples.hostWith (inl "current"%string) Samples.changedDecode
                            Samples.delivered in
  let failing := Samples.hostWith (inr NonError) Samples.changedDecode
                                  Samples.delivered in
  (exists m',
      monitoring (storage (snd (checkForChanges h w))) = Some m'
      /\ lastCheckTime m' = Some (now h)
      /\ isActive m' = true
      /\ In (StorageSet "monitoring") (trace (snd (checkForChanges h w))))
  /\ storage (snd (checkForChanges failing w)) = storage w.
Proof.
  cbv zeta. split.
  - refine (proj1 (checkForChanges_check_time
                     (Samples.hostWith (inl "current"%string)
                                       Samples.changedDecode Samples.delivered)
                     (Samples.worldOf (Some Samples.sampleTelegram)
                                      (Some Samples.sampleReference)
                                      (Some Samples.activeConfig))
                     Samples.sampleReference Samples.activeConfig
                     _ 7 eq_refl eq_refl eq_refl eq_refl eq_refl
                     (fun _ => eq_refl))
                  "current"%string _ eq_refl eq_refl).
  - refine (proj2 (checkForChanges_check_time
                     (Samples.hostWith (inr NonError)
                                       Samples.changedDecode Samples.delivered)
                     (Samples.worldOf (Some Samples.sampleTelegram)
                                      (Some Samples.sampleReference)
                                      (Some Samples.activeConfig))
                     Samples.sampleReference Samples.activeConfig
                     _ 7 eq_refl eq_refl eq_refl eq_refl eq_refl
                     (fun _ => eq_refl))
                  (or_introl (ex_intro _ NonError eq_refl))).
Defined.

(** C3 fails as stated.  With monitoring active, a reference stored and
    the tab resolved, a capture that throws, and likewise a capture the
    decoder rejects, leaves [lastCheckTime] unset: the cycle logs
    ['Check error:'] and writes nothing. *)
Lemma checkForChanges_check_time_counterexample :
  let w := Samples.worldOf (Some Samples.sampleTelegram)
                           (Some Samples.sampleReference)
                           (Some Samples.activeConfig) in
  let captureThrows :=
    Samples.hostWith (inr (JsError "Failed to capture tab"))
                     Samples.changedDecode Samples.delivered in
  let compareThrows :=
    Samples.hostWith (inl "undecodable"%string)
                     Samples.changedDecode Samples.delivered in
  (monitoringActive (monitoring (storage w)) = true
   /\ reference (storage w) = Some Samples.sampleReference)
  /\ (exists tabs, tabsQuery captureThrows = inl tabs
                   /\ activeTabId tabs = Some 7)
  /\ checkForChanges captureThrows w
     = (inl tt,
        {| storage := storage w;
           alarm := None;
           trace := [ConsoleError "Check error:"; CaptureVisibleTab;
                     SetTimeout 3000; TabsReload 7; TabsQuery] |})
  /\ compareScreenshots (decode compareThrows) "reference" "undecodable"
     = inr (JsError "Failed to compare screenshots")
  /\ checkForChanges compareThrows w
     = (inl tt,
        {| storage := storage w;
           alarm := None;
           trace := [ConsoleError "Check error:"; CaptureVisibleTab;
                     SetTimeout 3000; TabsReload 7; TabsQuery] |})
  /\ option_map lastCheckTime (monitoring (storage w)) = Some None
  /\ option_map lastCheckTime
       (monitoring (storage (snd (checkForChanges captureThrows w))))
     <> Some (Some (now captureThrows)).
Proof.
  cbv zeta. repeat split; try reflexivity.
  - eexists. split; reflexivity.
  - vm_compute. discriminate.
Qed.

(** C9, as the code has it.  In a cycle that detected a change while a
    Telegram entry is stored, the Telegram request is made, its failure
    (a rejected request, a rejected body read, a response that is not
    [ok]) is caught and logged inside [sendTelegramNotification], which
    returns normally, and the browser notification is attempted whatever
    the request's outcome. *)
Theorem notifications_best_effort (h : Host) (w : World)
        (ref : ReferenceSnapshot) (m : MonitoringConfig)
        (tabs : list Tab) (id : Z) (shot : string)
        (c : ComparisonResult) (cfg : TelegramConfig) :
  reference (storage w) = Some ref ->
  monitoring (storage w) = Some m ->
  isActive m = true ->
  tabsQuery h = inl tabs ->
  activeTabId tabs = Some id ->
  (autoRefresh m = true -> tabsReload h = None) ->
  captureVisibleTab h = inl shot ->
  compareScreenshots (decode h) (screenshot ref) shot = inl c ->
  hasChanged c = true ->
  telegram (storage w) = Some cfg ->
  let w' := snd (checkForChanges h w) in
  (forall w0, fst (sendTelegramNotification h (Some cfg) c w0) = inl tt)
  /\ In (Fetch (botToken cfg) (chatId cfg) c) (trace w')
  /\ In (NotificationsCreate c) (trace w')
  /\ (telegramDelivered h = false ->
      In (ConsoleError "Telegram error:") (trace w')).
Proof.
  intros Hr Hm Ha Hq Ht Hre Hcap Hcmp Hch Htg. cbv zeta. split.
  - intros w0.
    destruct (sendTelegramNotification_caught h cfg c w0) as (l & -> & _).
    reflexivity.
  - rewrite (checkForChanges_completed h w ref m tabs id shot c) by assumption.
    unfold notificationStep, showBrowserNotification. rewrite Hch, Htg. run.
    match goal with
    | |- context [sendTelegramNotification h (Some cfg) c ?w1] =>
        destruct (sendTelegramNotification_caught h cfg c w1)
          as (l & -> & Hlog)
    end.
    destruct (notificationsCreate h) as [e|]; cbn;
      (repeat split; [auto 10 | auto 10 |]);
      intros Hd; rewrite (Hlog Hd); auto 10.
Qed.

Lemma notifications_best_effort_witness :
  let h := Samples.hostWith (inl "current"%string) Samples.changedDecode
                            (inr (JsError "Failed to fetch")) in
  let w := Samples.worldOf (Some Samples.sampleTelegram)
                           (Some Samples.sampleReference)
                           (Some Samples.activeConfig) in
  let c := {| hasChanged := true;
              changePercentage := Fin 100;
              detectedText := "";
              missingPhrases := ["Visual changes detected"%string] |} in
  (forall w0,
      fst (sendTelegramNotification h (Some Samples.sampleTelegram) c w0)
      = inl tt)
  /\ In (Fetch "123:abc" "42" c) (trace (snd (checkForChanges h w)))
  /\ In (NotificationsCreate c) (trace (snd (checkForChanges h w)))
  /\ (telegramDelivered h = false ->
      In (ConsoleError "Telegram error:") (trace (snd (checkForChanges h w)))).
Proof.
  cbv zeta.
  exact (notifications_best_effort
           (Samples.hostWith (inl "current"%string) Samples.changedDecode
                             (inr (JsError "Failed to fetch")))
           (Samples.worldOf (Some Samples.sampleTelegram)
                            (Some Samples.sampleReference)
                            (Some Samples.activeConfig))
           Samples.sampleReference Samples.activeConfig
           _ 7 "current"%string _ Samples.sampleTelegram
           eq_refl eq_refl eq_refl eq_refl eq_refl (fun _ => eq_refl)
           eq_refl eq_refl eq_refl eq_refl).
Defined.

(** C9 fails as stated.  With no Telegram entry in the storage, a cycle
    that detected a change finds [sendTelegramNotification] throwing a
    [TypeError] back into the cycle, whose [catch] logs ['Check error:'];
    the browser notification is never attempted. *)
Lemma notifications_best_effort_counterexample :
  let h := Samples.hostWith (inl "current"%string) Samples.changedDecode
                            Samples.delivered in
  let w := Samples.worldOf None (Some Samples.sampleReference)
                           (Some Samples.activeConfig) in
  let c := {| hasChanged := true;
              changePercentage := Fin 100;
              detectedText := "";
              missingPhrases := ["Visual changes detected"%string] |} in
  compareScreenshots (decode h) "reference" "current" = inl c
  /\ telegram (storage w) = None
  /\ sendTelegramNotification h (telegram (storage w)) c w
     = (inr (JsError
               "Cannot read properties of undefined (reading 'botToken')"), w)
  /\ trace (snd (checkForChanges h w))
     = [ConsoleError "Check error:";
        ConsoleLog "Changes detected! Sending notifications...";
        StorageSet "monitoring"; ConsoleLog "Comparison result";
        CaptureVisibleTab; SetTimeout 3000; TabsReload 7; TabsQuery]
  /\ ~ In (NotificationsCreate c) (trace (snd (checkForChanges h w))).
Proof.
  cbv zeta. repeat split; try reflexivity.
  vm_compute. intros H.
  repeat (destruct H as [H|H]; [discriminate H|]). exact H.
Qed.

(** Whatever happens inside, a cycle returns normally: every failure is
    absorbed by its [catch]. *)
Lemma checkForChanges_never_throws (h : Host) (w : World) :
  fst (checkForChanges h w) = inl tt.
Proof.
  unfold checkForChanges, tryCatch.
  destruct (bind _ _ w) as [[[]|e] w1]; reflexivity.
Qed.

End EngineProofs.

(** * Further properties of the differ *)

Module DifferExtras.

Import Differ DifferSpec DifferProofs.

Lemma filter_none {A} (f : A -> bool) (l : list A) :
  (forall x, In x l -> f x = false) -> filter f l = [].
Proof.
  induction l as [|x l IH]; intros H; [reflexivity|].
  cbn. rewrite (H x (or_introl eq_refl)).
  apply IH. intros y Hy. apply H. right. exact Hy.
Qed.

(** Every sampled position is four times some index. *)
Lemma sampledPositions_multiple (img : ImageData) (p : nat) :
  In p (sampledPositions img) -> exists k, p = (4 * k)%nat.
Proof.
  unfold sampledPositions. rewrite stride_positions, in_map_iff.
  intros (k & Hk & _). exists k. symmetry. exact Hk.
Qed.

Lemma rawPercentage_zero (ref cur : ImageData) :
  wellFormed ref ->
  differentPositions ref cur = [] ->
  rawPercentage ref cur == 0.
Proof.
  intros W H. unfold rawPercentage. rewrite H. cbn [List.length Z.of_nat].
  change (inject_Z 0) with 0%Q. field.
  intros H0. apply (sampledPixels_nonzero ref W).
  rewrite H0. reflexivity.
Qed.

Lemma unchanged_result (ref cur : ImageData) :
  wellFormed ref -> wellFormed cur ->
  width ref = width cur -> height ref = height cur ->
  differentPositions ref cur = [] ->
  compareImageData ref cur
  = {| hasChanged := false;
       changePercentage := Fin 0;
       detectedText := "";
       missingPhrases := [] |}.
Proof.
  intros Wr Wc Hw Hh Hd.
  rewrite (compareImageData_equal_dimensions ref cur Wr Wc Hw Hh).
  pose proof (rawPercentage_zero ref cur Wr Hd) as Hz.
  rewrite (toFixed2_compat _ _ Hz), Hz. reflexivity.
Qed.

(** X1.  Differences within the tolerance are not a change: when the red,
    green and blue bytes of every sampled position differ by at most 30
    between two well-formed images of equal dimensions, the result is
    [hasChanged = false] with [changePercentage = 0], whatever the other
    pixels and the alpha bytes hold. *)
Theorem compareScreenshots_within_tolerance
        (decode : string -> option ImageData)
        (referenceBase64 currentBase64 : string) (ref cur : ImageData) :
  decode referenceBase64 = Some ref ->
  decode currentBase64 = Some cur ->
  wellFormed ref -> wellFormed cur ->
  width ref = width cur -> height ref = height cur ->
  (forall k channel,
      (channel < 3)%nat ->
      Z.abs (nth (16 * k + channel) (data ref) 0
             - nth (16 * k + channel) (data cur) 0) <= 30) ->
  compareScreenshots decode referenceBase64 currentBase64
  = inl {| hasChanged := false;
           changePercentage := Fin 0;
           detectedText := "";
           missingPhrases := [] |}.
Proof.
  intros Hr Hc Wr Wc Hw Hh Htol.
  unfold compareScreenshots. rewrite Hr, Hc. f_equal.
  apply unchanged_result; try assumption.
  unfold differentPositions. apply filter_none. intros p Hp.
  destruct (sampledPositions_multiple ref p Hp) as (k & ->).
  unfold different. cbn [existsb].
  replace (4 * (4 * k))%nat with (16 * k)%nat by lia.
  rewrite !(proj2 (Z.ltb_ge _ _)); [reflexivity| | |]; apply Htol; lia.
Qed.

Lemma compareScreenshots_within_tolerance_witness :
  compareScreenshots
    (Samples.sampleDecode (Samples.black 2 2)
       {| width := 2; height := 2;
          data := [30; 0; 30; 255; 200; 200; 200; 255;
                   200; 200; 200; 255; 200; 200; 200; 255] |})
    "reference" "current"
  = inl {| hasChanged := false;
           changePercentage := Fin 0;
           detectedText := "";
           missingPhrases := [] |}.
Proof.
  apply (compareScreenshots_within_tolerance _ _ _
           (Samples.black 2 2)
           {| width := 2; height := 2;
              data := [30; 0; 30; 255; 200; 200; 200; 255;
                       200; 200; 200; 255; 200; 200; 200; 255] |});
    try reflexivity.
  - repeat split; simpl; lia.
  - repeat split; simpl; lia.
  - intros k channel Hc.
    destruct k as [|k].
    + destruct channel as [|[|[|c]]]; simpl; lia.
    + replace (16 * S k + channel)%nat with (16 + (16 * k + channel))%nat
        by lia.
      simpl. destruct (16 * k + channel)%nat; simpl; lia.
Defined.

(** Whether a sampled position is different depends only on the red,
    green and blue bytes at its offset. *)
Lemma different_agree (ref cur1 cur2 : ImageData) :
  (forall k channel,
      (channel < 3)%nat ->
      nth (16 * k + channel) (data cur1) 0
      = nth (16 * k + channel) (data cur2) 0) ->
  differentPositions ref cur1 = differentPositions ref cur2.
Proof.
  intros Hag. unfold differentPositions. apply filter_ext_in. intros p Hp.
  destruct (sampledPositions_multiple ref p Hp) as (k & ->).
  unfold different. cbn [existsb].
  replace (4 * (4 * k))%nat with (16 * k)%nat by lia.
  rewrite !Hag by lia. reflexivity.
Qed.

(** X2.  Only the red, green and blue bytes of every fourth pixel are
    read: two captures that agree on those bytes compare identically
    against the same reference, however much they differ elsewhere. *)
Theorem compareScreenshots_unsampled_bytes_ignored
        (decode : string -> option ImageData)
        (referenceBase64 firstBase64 secondBase64 : string)
        (ref cur1 cur2 : ImageData) :
  decode referenceBase64 = Some ref ->
  decode firstBase64 = Some cur1 ->
  decode secondBase64 = Some cur2 ->
  wellFormed ref -> wellFormed cur1 -> wellFormed cur2 ->
  width ref = width cur1 -> height ref = height cur1 ->
  width ref = width cur2 -> height ref = height cur2 ->
  (forall k channel,
      (channel < 3)%nat ->
      nth (16 * k + channel) (data cur1) 0
      = nth (16 * k + channel) (data cur2) 0) ->
  compareScreenshots decode referenceBase64 firstBase64
  = compareScreenshots decode referenceBase64 secondBase64.
Proof.
  intros Hr Hc1 Hc2 Wr W1 W2 Hw1 Hh1 Hw2 Hh2 Hag.
  unfold compareScreenshots. rewrite Hr, Hc1, Hc2. f_equal.
  rewrite (compareImageData_equal_dimensions ref cur1 Wr W1 Hw1 Hh1).
  rewrite (compareImageData_equal_dimensions ref cur2 Wr W2 Hw2 Hh2).
  unfold rawPercentage. rewrite (different_agree ref cur1 cur2 Hag).
  reflexivity.
Qed.

Lemma compareScreenshots_unsampled_bytes_ignored_witness :
  let decode :=
    Samples.decodeTable
      [("reference"%string, Samples.black 2 2);
       ("first"%string, Samples.whiteThenBlack 2 2 4);
       ("second"%string, Samples.whiteThenBlack 2 2 3)] in
  compareScreenshots decode "reference" "first"
  = compareScreenshots decode "reference" "second".
Proof.
  cbv zeta.
  apply (compareScreenshots_unsampled_bytes_ignored _ _ _ _
           (Samples.black 2 2) (Samples.whiteThenBlack 2 2 4)
           (Samples.whiteThenBlack 2 2 3));
    try reflexivity; try (repeat split; simpl; lia).
  intros k channel Hc. destruct k as [|k].
  - destruct channel as [|[|[|c]]]; [reflexivity..|lia].
  - replace (16 * S k + channel)%nat with (16 + (16 * k + channel))%nat
      by lia.
    simpl. destruct (16 * k + channel)%nat; reflexivity.
Defined.

(** The threshold test in whole numbers. *)
Lemma hasChanged_count (ref cur : ImageData) :
  wellFormed ref -> wellFormed cur ->
  width ref = width cur -> height ref = height cur ->
  (hasChanged (compareImageData ref cur) = true
   <-> (width ref * height ref
        < 80 * List.length (differentPositions ref cur))%nat).
Proof.
  intros Wr Wc Hw Hh.
  rewrite (compareImageData_equal_dimensions ref cur Wr Wc Hw Hh).
  cbn [hasChanged]. unfold rawPercentage, CHANGE_THRESHOLD.
  destruct Wr as (Hpw & Hph & _).
  set (n := (width ref * height ref)%nat) in *.
  set (d := List.length (differentPositions ref cur)).
  assert (Hn : (0 < inject_Z (Z.of_nat n))%Q).
  { rewrite <- (Zlt_Qlt 0). subst n. nia. }
  assert (Heq : (inject_Z (Z.of_nat d) / (inject_Z (Z.of_nat n) / 4) * 100
                 == 400 * inject_Z (Z.of_nat d) / inject_Z (Z.of_nat n))%Q).
  { field. intros H0. rewrite H0 in Hn. lra. }
  rewrite Heq, negb_true_iff.
  assert (Hcmp : (5 < 400 * inject_Z (Z.of_nat d) / inject_Z (Z.of_nat n))%Q
                 <-> (n < 80 * d)%nat).
  { split.
    - intros H. apply (Qmult_lt_compat_r _ _ _ Hn) in H.
      assert (Hs : (400 * inject_Z (Z.of_nat d) / inject_Z (Z.of_nat n)
                    * inject_Z (Z.of_nat n)
                    == 400 * inject_Z (Z.of_nat d))%Q).
      { field. intros H0. rewrite H0 in Hn. lra. }
      rewrite Hs in H.
      assert (Hz : (5 * Z.of_nat n < 400 * Z.of_nat d)%Z).
      { rewrite Zlt_Qlt, !inject_Z_mult. exact H. }
      lia.
    - intros H. apply Qlt_shift_div_l; [exact Hn|].
      assert (Hz : (5 * Z.of_nat n < 400 * Z.of_nat d)%Z) by lia.
      rewrite Zlt_Qlt, !inject_Z_mult in Hz. exact Hz. }
  rewrite <- Hcmp.
  destruct (Qle_bool _ 5) eqn:E.
  - apply Qle_bool_iff in E. split; [discriminate|].
    intros Hlt. exfalso. apply (Qlt_not_le _ _ Hlt). exact E.
  - split; [intros _|reflexivity].
    apply Qnot_le_lt. intros Hle. apply Qle_bool_iff in Hle. congruence.
Qed.



Lemma rawPercentage_nonneg (ref cur : ImageData) :
  wellFormed ref -> (0 <= rawPercentage ref cur)%Q.
Proof.
  intros (Hw & Hh & _). unfold rawPercentage.
  assert (Hn : (0 < inject_Z (Z.of_nat (width ref * height ref)))%Q).
  { rewrite <- (Zlt_Qlt 0). nia. }
  assert (Hd : (0 <= inject_Z (Z.of_nat
                                 (List.length (differentPositions ref cur))))%Q).
  { rewrite <- (Zle_Qle 0). lia. }
  assert (Hq : (0 < inject_Z (Z.of_nat (width ref * height ref)) / 4)%Q)
    by (apply Qlt_shift_div_l; lra).
  apply Qmult_le_0_compat; [|lra].
  apply Qle_shift_div_l; [exact Hq|]. lra.
Qed.

Lemma toFixed2_monotone (x y : Q) :
  (0 <= x)%Q -> (x <= y)%Q -> (toFixed2 x <= toFixed2 y)%Q.
Proof.
  intros H0 Hxy. unfold toFixed2.
  rewrite (proj2 (Qle_bool_iff 0 x) H0).
  rewrite (proj2 (Qle_bool_iff 0 y) (Qle_trans _ _ _ H0 Hxy)).
  unfold roundHundredths. rewrite !Qred_correct.
  assert (Hf : (Qfloor (x * 100 + (1 # 2)) <= Qfloor (y * 100 + (1 # 2)))%Z).
  { apply Qfloor_resp_le. lra. }
  revert Hf.
  generalize (Qfloor (x * 100 + (1 # 2))), (Qfloor (y * 100 + (1 # 2))).
  intros a b Hab. unfold Qle. cbn. lia.
Qed.

(** X4.  The result is monotone in the number of different sampled
    positions: against one reference, a capture with at least as many
    different positions gets at least as large a [changePercentage], and
    is reported as changed whenever the other one is. *)
Theorem changePercentage_monotone (ref cur1 cur2 : ImageData) :
  wellFormed ref -> wellFormed cur1 -> wellFormed cur2 ->
  width ref = width cur1 -> height ref = height cur1 ->
  width ref = width cur2 -> height ref = height cur2 ->
  (List.length (differentPositions ref cur1)
   <= List.length (differentPositions ref cur2))%nat ->
  exists p1 p2,
    changePercentage (compareImageData ref cur1) = Fin p1
    /\ changePercentage (compareImageData ref cur2) = Fin p2
    /\ (p1 <= p2)%Q
    /\ (hasChanged (compareImageData ref cur1) = true ->
        hasChanged (compareImageData ref cur2) = true).
Proof.
  intros Wr W1 W2 Hw1 Hh1 Hw2 Hh2 Hle.
  pose proof (proj1 (hasChanged_count ref cur1 Wr W1 Hw1 Hh1)) as Hc1.
  pose proof (proj2 (hasChanged_count ref cur2 Wr W2 Hw2 Hh2)) as Hc2.
  rewrite (compareImageData_equal_dimensions ref cur1 Wr W1 Hw1 Hh1) in *.
  rewrite (compareImageData_equal_dimensions ref cur2 Wr W2 Hw2 Hh2) in *.
  cbn [changePercentage hasChanged] in *.
  eexists. eexists. split; [reflexivity|]. split; [reflexivity|]. split.
  - apply toFixed2_monotone; [apply rawPercentage_nonneg; exact Wr|].
    unfold rawPercentage. destruct Wr as (Hpw & Hph & _).
    assert (Hn : (0 < inject_Z (Z.of_nat (width ref * height ref)))%Q).
    { rewrite <- (Zlt_Qlt 0). nia. }
    assert (Hd : (inject_Z (Z.of_nat (List.length (differentPositions ref cur1)))
                  <= inject_Z (Z.of_nat
                                 (List.length (differentPositions ref cur2))))%Q).
    { rewrite <- Zle_Qle. lia. }
    apply Qmult_le_compat_r; [|lra].
    apply Qmult_le_compat_r; [exact Hd|].
    apply Qinv_le_0_compat. apply Qlt_le_weak.
    apply Qlt_shift_div_l; lra.
  - intros H. apply Hc2. specialize (Hc1 H). lia.
Qed.

Lemma changePercentage_monotone_witness :
  exists p1 p2,
    changePercentage (compareImageData (Samples.black 4 4)
                                       (Samples.whiteThenBlack 4 4 4))
    = Fin p1
    /\ changePercentage (compareImageData (Samples.black 4 4)
                                          (Samples.whiteThenBlack 4 4 20))
       = Fin p2
    /\ (p1 <= p2)%Q
    /\ (hasChanged (compareImageData (Samples.black 4 4)
                                     (Samples.whiteThenBlack 4 4 4)) = true ->
        hasChanged (compareImageData (Samples.black 4 4)
                                     (Samples.whiteThenBlack 4 4 20)) = true).
Proof.
  apply (changePercentage_monotone (Samples.black 4 4)
           (Samples.whiteThenBlack 4 4 4) (Samples.whiteThenBlack 4 4 20));
    try reflexivity; repeat split; simpl; lia.
Defined.

Lemma different_symmetric (ref cur : ImageData) (p : nat) :
  different ref cur p = different cur ref p.
Proof.
  assert (Habs : forall a b : Z, Z.abs (a - b) = Z.abs (b - a))
    by (intros; lia).
  unfold different. cbn [existsb].
  rewrite !(Habs (nth _ (data ref) 0)). reflexivity.
Qed.

(** X5.  The comparison of two well-formed images does not depend on
    which of them is the reference. *)
Theorem compareImageData_symmetric (ref cur : ImageData) :
  wellFormed ref -> wellFormed cur ->
  compareImageData ref cur = compareImageData cur ref.
Proof.
  intros Wr Wc.
  destruct (Nat.eq_dec (width ref) (width cur)) as [Hw|Hw];
    [destruct (Nat.eq_dec (height ref) (height cur)) as [Hh|Hh]|].
  - rewrite (compareImageData_equal_dimensions ref cur Wr Wc Hw Hh).
    rewrite (compareImageData_equal_dimensions cur ref Wc Wr
               (eq_sym Hw) (eq_sym Hh)).
    assert (Hraw : rawPercentage ref cur = rawPercentage cur ref).
    { unfold rawPercentage, differentPositions, sampledPositions.
      rewrite Hw, Hh.
      rewrite (filter_ext _ _ (different_symmetric ref cur)). reflexivity. }
    rewrite Hraw. reflexivity.
  - unfold compareImageData.
    rewrite (proj2 (Nat.eqb_neq (height ref) (height cur)) Hh).
    rewrite (proj2 (Nat.eqb_neq (height cur) (height ref)) (not_eq_sym Hh)).
    rewrite !orb_true_r. reflexivity.
  - unfold compareImageData.
    rewrite (proj2 (Nat.eqb_neq (width ref) (width cur)) Hw).
    rewrite (proj2 (Nat.eqb_neq (width cur) (width ref)) (not_eq_sym Hw)).
    reflexivity.
Qed.

Lemma compareImageData_symmetric_witness :
  compareImageData (Samples.black 3 2) (Samples.whiteThenBlack 3 2 8)
  = compareImageData (Samples.whiteThenBlack 3 2 8) (Samples.black 3 2).
Proof.
  apply (compareImageData_symmetric (Samples.black 3 2)
                                    (Samples.whiteThenBlack 3 2 8));
    repeat split; simpl; lia.
Defined.

End DifferExtras.

(** * Further properties of the differ in binary64 *)

Module DifferBinary64Extras.

Import Differ DifferSpec DifferBinary64Spec Binary64 Binary64Proofs.

(** The divisor of the percentage is positive on every well-formed image,
    whatever its size. *)
Lemma sampledPixels_positive (img : ImageData) :
  wellFormed img ->
  (0 < round (round (inject_Z (Z.of_nat (List.length (data img))) / 4)
             / 4))%Q.
Proof.
  intros (Hw & Hh & Hlen).
  assert (Hp : (0 < width img * height img)%nat)
    by (apply Nat.mul_pos_pos; assumption).
  assert (H1 : (1 <= inject_Z (Z.of_nat (List.length (data img))) / 4)%Q).
  { apply Qle_shift_div_l; [reflexivity|].
    change (1 * 4)%Q with (inject_Z 4). rewrite <- Zle_Qle. lia. }
  apply round_mono in H1.
  assert (E1 : (round 1 == 1)%Q) by reflexivity.
  rewrite E1 in H1.
  set (t := round (inject_Z (Z.of_nat (List.length (data img))) / 4)) in *.
  assert (H4 : ((1 # 4) <= t / 4)%Q).
  { apply Qle_shift_div_l; [reflexivity|]. lra. }
  apply round_mono in H4.
  assert (E4 : (round (1 # 4) == 1 # 4)%Q) by reflexivity.
  rewrite E4 in H4. lra.
Qed.

(** Without a different position the percentage is zero, whatever the
    size of the image. *)
Lemma unchanged_binary64_result (ref cur : ImageData) :
  wellFormed ref -> wellFormed cur ->
  width ref = width cur -> height ref = height cur ->
  differentPositions ref cur = [] ->
  DifferBinary64.compareImageData ref cur
  = {| hasChanged := false;
       changePercentage := Fin 0;
       detectedText := "";
       missingPhrases := [] |}.
Proof.
  intros Wr Wc Hw Hh Hd.
  unfold DifferBinary64.compareImageData.
  rewrite <- Hw, <- Hh, !Nat.eqb_refl. cbn [negb orb]. cbv zeta.
  rewrite (DifferProofs.diffPixels_count ref cur Wr Wc Hw Hh), Hd.
  cbn [List.length]. unfold DifferBinary64.percentageOf.
  pose proof (sampledPixels_positive ref Wr) as Hs.
  set (s := round (round (inject_Z (Z.of_nat (List.length (data ref))) / 4)
                   / 4)) in *.
  destruct (Qeq_bool s 0) eqn:E.
  { apply Qeq_bool_eq in E. exfalso. lra. }
  assert (Hq : (inject_Z (Z.of_nat 0) / s == 0)%Q).
  { change (inject_Z (Z.of_nat 0)) with 0%Q. field. lra. }
  rewrite (round_of_zero _ Hq). reflexivity.
Qed.

(** X27.  As the code computes it: when the red, green and blue bytes of
    every sampled position differ by at most 30 between two well-formed
    images of equal dimensions, of any size, the result is
    [hasChanged = false] with [changePercentage = 0]. *)
Theorem compareScreenshots_binary64_within_tolerance
        (decode : string -> option ImageData)
        (referenceBase64 currentBase64 : string) (ref cur : ImageData) :
  decode referenceBase64 = Some ref ->
  decode currentBase64 = Some cur ->
  wellFormed ref -> wellFormed cur ->
  width ref = width cur -> height ref = height cur ->
  (forall k channel,
      (channel < 3)%nat ->
      Z.abs (nth (16 * k + channel) (data ref) 0
             - nth (16 * k + channel) (data cur) 0) <= 30) ->
  DifferBinary64.compareScreenshots decode referenceBase64 currentBase64
  = inl {| hasChanged := false;
           changePercentage := Fin 0;
           detectedText := "";
           missingPhrases := [] |}.
Proof.
  intros Hr Hc Wr Wc Hw Hh Htol.
  unfold DifferBinary64.compareScreenshots. rewrite Hr, Hc. f_equal.
  apply unchanged_binary64_result; try assumption.
  unfold differentPositions. apply DifferExtras.filter_none. intros p Hp.
  destruct (DifferExtras.sampledPositions_multiple ref p Hp) as (k & ->).
  unfold different. cbn [existsb].
  replace (4 * (4 * k) + 0)%nat with (16 * k + 0)%nat by lia.
  replace (4 * (4 * k) + 1)%nat with (16 * k + 1)%nat by lia.
  replace (4 * (4 * k) + 2)%nat with (16 * k + 2)%nat by lia.
  pose proof (Htol k 0%nat ltac:(lia)).
  pose proof (Htol k 1%nat ltac:(lia)).
  pose proof (Htol k 2%nat ltac:(lia)).
  repeat match goal with
         | |- context [30 <? ?x] =>
             destruct (Z.ltb_spec 30 x); [lia|]
         end.
  reflexivity.
Qed.

Lemma compareScreenshots_binary64_within_tolerance_witness :
  DifferBinary64.compareScreenshots
    (Samples.sampleDecode (Samples.black 3 2) (Samples.black 3 2))
    "reference" "current"
  = inl {| hasChanged := false;
           changePercentage := Fin 0;
           detectedText := "";
           missingPhrases := [] |}.
Proof.
  apply (compareScreenshots_binary64_within_tolerance _ _ _
           (Samples.black 3 2) (Samples.black 3 2));
    try reflexivity; try (repeat split; simpl; lia).
Defined.

(** X26.  As the code computes it: on two well-formed images of equal
    dimensions and at most [2^32] pixels [hasChanged] holds exactly when
    80 times the number of different sampled positions exceeds the pixel
    count; the rounding of the quotient and of the product never moves the
    percentage across the threshold. *)
Theorem hasChanged_binary64_iff_count (ref cur : ImageData) :
  wellFormed ref -> wellFormed cur ->
  width ref = width cur -> height ref = height cur ->
  Z.of_nat (width ref * height ref) <= 2 ^ 32 ->
  (hasChanged (DifferBinary64.compareImageData ref cur) = true
   <-> (width ref * height ref
        < 80 * List.length (differentPositions ref cur))%nat).
Proof.
  intros Wr Wc Hw Hh Hn.
  rewrite (proj1 (DifferBinary64Proofs.hasChanged_agree ref cur Wr Wc Hn)).
  exact (DifferExtras.hasChanged_count ref cur Wr Wc Hw Hh).
Qed.

Lemma hasChanged_binary64_iff_count_witness :
  hasChanged (DifferBinary64.compareImageData
                (Samples.black 9 9) (Samples.whiteThenBlack 9 9 20)) = true
  <-> (9 * 9
       < 80 * List.length
                (differentPositions (Samples.black 9 9)
                                    (Samples.whiteThenBlack 9 9 20)))%nat.
Proof.
  apply (hasChanged_binary64_iff_count (Samples.black 9 9)
                                       (Samples.whiteThenBlack 9 9 20));
    try reflexivity; repeat split; simpl; lia.
Defined.

Lemma changePercentage_binary64_black_white (w h : nat) :
  (0 < w)%nat -> (0 < h)%nat -> Z.of_nat (w * h) <= 2 ^ 32 ->
  changePercentage
    (DifferBinary64.compareImageData
       (Samples.black w h) (Samples.whiteThenBlack w h (4 * (w * h))))
  = Fin (round (toFixed2 (computedPercentage
                            (Z.of_nat ((w * h + 3) / 4))
                            (Z.of_nat (w * h))))).
Proof.
  intros Hw Hh Hn.
  rewrite DifferBinary64Proofs.compareImageData_binary64_equal_dimensions.
  - cbv zeta. cbn [changePercentage].
    rewrite DifferProofs.black_white_all_different,
      DifferProofs.sampledPositions_length.
    reflexivity.
  - repeat split; try assumption. cbn [data Samples.black].
    apply repeat_length.
  - repeat split; try assumption.
    cbn [data width height Samples.whiteThenBlack].
    rewrite length_app, !repeat_length. lia.
  - reflexivity.
  - reflexivity.
  - exact Hn.
Qed.

(** The two inputs of C5 as the code computes them: 400 on the 1x1 pair
    and 100.01 on the 251x151 pair. *)
Lemma compareScreenshots_binary64_above_100 :
  changePercentage
    (DifferBinary64.compareImageData (Samples.black 1 1)
                                     (Samples.whiteThenBlack 1 1 4))
  = Fin 400
  /\ changePercentage
       (DifferBinary64.compareImageData
          (Samples.black 251 151)
          (Samples.whiteThenBlack 251 151 (4 * (251 * 151))))
     = Fin (round (10001 # 100)).
Proof.
  split; [vm_compute; reflexivity|].
  rewrite changePercentage_binary64_black_white; [|lia|lia|].
  - vm_compute. reflexivity.
  - rewrite Nat2Z.inj_mul. vm_compute. discriminate.
Qed.

End DifferBinary64Extras.

(** * Properties of the remaining handlers *)

Module HandlerProofs.

Import DifferBinary64 DifferSpec Engine EngineSteps EngineProofs Handlers
       CycleSpec.

(** ** [base64ToImageData] *)

Lemma includesComma_intro (prefix payload : string) :
  includesComma (prefix ++ String "," payload) = true.
Proof.
  induction prefix as [|c prefix IH]; cbn; [reflexivity|].
  rewrite IH. apply orb_true_r.
Qed.

Lemma afterComma_prefix (prefix payload : string) :
  includesComma prefix = false ->
  afterComma (prefix ++ String "," payload) = payload.
Proof.
  induction prefix as [|c prefix IH]; cbn; [reflexivity|].
  intros H. apply orb_false_iff in H. destruct H as (Hc & Hp).
  rewrite Hc. apply IH. exact Hp.
Qed.

Lemma uptoComma_whole (s : string) :
  includesComma s = false -> uptoComma s = s.
Proof.
  induction s as [|c s IH]; cbn; [reflexivity|].
  intros H. apply orb_false_iff in H. destruct H as (Hc & Hs).
  rewrite Hc, (IH Hs). reflexivity.
Qed.

Lemma base64Data_data_url (prefix payload : string) :
  includesComma prefix = false ->
  includesComma payload = false ->
  base64Data (prefix ++ String "," payload) = payload.
Proof.
  intros Hp Hs. unfold base64Data.
  rewrite includesComma_intro, (afterComma_prefix _ _ Hp).
  apply uptoComma_whole. exact Hs.
Qed.

Lemma base64Data_bare (payload : string) :
  includesComma payload = false -> base64Data payload = payload.
Proof. intros H. unfold base64Data. rewrite H. reflexivity. Qed.

(** X6.  A data-URL prefix is dropped before decoding: for comma-free
    payloads (base64 has no comma), [compareScreenshots] gives the same
    result on ["<prefix>,<payload>"] strings as on the bare payloads. *)
Theorem compareScreenshots_data_url_prefix
        (decodePng : string -> option ImageData)
        (prefix1 prefix2 payload1 payload2 : string) :
  includesComma prefix1 = false -> includesComma prefix2 = false ->
  includesComma payload1 = false -> includesComma payload2 = false ->
  compareScreenshots (base64ToImageData decodePng)
    (prefix1 ++ String "," payload1) (prefix2 ++ String "," payload2)
  = compareScreenshots (base64ToImageData decodePng) payload1 payload2.
Proof.
  intros Hp1 Hp2 Hs1 Hs2. unfold compareScreenshots, base64ToImageData.
  rewrite (base64Data_data_url _ _ Hp1 Hs1), (base64Data_data_url _ _ Hp2 Hs2).
  rewrite (base64Data_bare _ Hs1), (base64Data_bare _ Hs2). reflexivity.
Qed.

Lemma compareScreenshots_data_url_prefix_witness :
  compareScreenshots (base64ToImageData (Samples.sampleDecode
                                           (Samples.black 2 2)
                                           (Samples.black 2 2)))
    ("data:image/png;base64" ++ String "," "reference")
    ("data:image/png;base64" ++ String "," "current")
  = compareScreenshots (base64ToImageData (Samples.sampleDecode
                                             (Samples.black 2 2)
                                             (Samples.black 2 2)))
      "reference" "current".
Proof.
  apply compareScreenshots_data_url_prefix; reflexivity.
Defined.

(** X7.  An empty payload, bare or behind a data-URL prefix, on the
    reference side or on the current side, makes [compareScreenshots]
    throw ['Failed to compare screenshots'] whatever the browser's decoder
    would answer and whatever the other image is. *)
Theorem compareScreenshots_empty_payload
        (decodePng : string -> option ImageData)
        (prefix other : string) :
  includesComma prefix = false ->
  let failure : ComparisonResult + Thrown :=
    inr (JsError "Failed to compare screenshots") in
  compareScreenshots (base64ToImageData decodePng) EmptyString other
  = failure
  /\ compareScreenshots (base64ToImageData decodePng) other EmptyString
     = failure
  /\ compareScreenshots (base64ToImageData decodePng)
                        (prefix ++ String "," EmptyString) other
     = failure
  /\ compareScreenshots (base64ToImageData decodePng)
                        other (prefix ++ String "," EmptyString)
     = failure.
Proof.
  intros Hp. cbv zeta.
  assert (He : base64ToImageData decodePng (prefix ++ String "," EmptyString)
               = None).
  { unfold base64ToImageData.
    rewrite (base64Data_data_url prefix EmptyString Hp eq_refl).
    reflexivity. }
  assert (Hb : base64ToImageData decodePng EmptyString = None)
    by reflexivity.
  unfold compareScreenshots. rewrite He, Hb.
  destruct (base64ToImageData decodePng other); repeat split.
Qed.

Lemma compareScreenshots_empty_payload_witness :
  let decode := base64ToImageData (fun _ => Some (Samples.black 1 1)) in
  let failure : ComparisonResult + Thrown :=
    inr (JsError "Failed to compare screenshots") in
  compareScreenshots decode EmptyString "iVBORw0KGgo=" = failure
  /\ compareScreenshots decode "iVBORw0KGgo=" EmptyString = failure
  /\ compareScreenshots decode
       ("data:image/png;base64" ++ String "," EmptyString) "iVBORw0KGgo="
     = failure
  /\ compareScreenshots decode
       "iVBORw0KGgo=" ("data:image/png;base64" ++ String "," EmptyString)
     = failure.
Proof.
  apply (compareScreenshots_empty_payload
           (fun _ => Some (Samples.black 1 1))
           "data:image/png;base64" "iVBORw0KGgo=").
  reflexivity.
Defined.

(** ** [getRandomInterval] and the armed alarm *)


(** The integer steps of [getRandomInterval] are exact on bounds of
    magnitude up to [2^51]: the doubles [max - min + 1] and
    [Math.floor(...) + min] are the integers the model computes. *)
Lemma getRandomInterval_integer_steps (min max f : Z) :
  Z.abs min <= 2 ^ 51 -> Z.abs max <= 2 ^ 51 -> min <= max ->
  0 <= f <= max - min ->
  (Binary64.round (Binary64.round (inject_Z max - inject_Z min) + 1)
   == inject_Z (max - min + 1))%Q
  /\ (Binary64.round (inject_Z f + inject_Z min) == inject_Z (f + min))%Q.
Proof.
  intros Hmin Hmax Hle Hf.
  assert (H51 : 2 ^ 51 + 2 ^ 51 + 1 < 2 ^ 53) by reflexivity.
  split.
  - assert (E1 : (inject_Z max - inject_Z min == inject_Z (max - min))%Q).
    { unfold Z.sub. rewrite inject_Z_plus, inject_Z_opp. reflexivity. }
    assert (E2 : (Binary64.round (inject_Z max - inject_Z min) + 1
                  == inject_Z (max - min + 1))%Q).
    { rewrite (Binary64Proofs.round_compat _ _ E1),
        Binary64Proofs.round_exact_integer by lia.
      rewrite inject_Z_plus. reflexivity. }
    rewrite (Binary64Proofs.round_compat _ _ E2).
    apply Binary64Proofs.round_exact_integer. lia.
  - assert (E : (inject_Z f + inject_Z min == inject_Z (f + min))%Q).
    { rewrite inject_Z_plus. reflexivity. }
    rewrite (Binary64Proofs.round_compat _ _ E).
    apply Binary64Proofs.round_exact_integer. lia.
Qed.



(** The draw follows the rounded product: with [Math.random()] at
    0.2441860465116279 and the default bounds the exact product lies just
    below 21, the double is 21 and the interval is 61. *)
Lemma getRandomInterval_rounded_product :
  let r := Binary64.round (2441860465116279 # 10000000000000000) in
  let h := {| now := 0; random := r; tabsQuery := inl [];
              tabsReload := None; captureVisibleTab := inr NonError;
              decode := fun _ => None; fetch := inr NonError;
              notificationsCreate := None |} in
  (r * inject_Z (DEFAULT_INTERVAL_MAX - DEFAULT_INTERVAL_MIN + 1) < 21)%Q
  /\ getRandomInterval h DEFAULT_INTERVAL_MIN DEFAULT_INTERVAL_MAX = 61.
Proof. cbv zeta. split; vm_compute; reflexivity. Qed.



(** ** [initializeStorage] *)

(** X10.  [initializeStorage] never overwrites a stored monitoring entry
    and creates the default one (inactive, 40 to 125 seconds, auto-refresh
    with a 3000 ms delay) when there is none; it touches nothing else, and
    running it again changes nothing. *)
Theorem initializeStorage_keeps_existing (w : World) :
  let w1 := snd (initializeStorage w) in
  monitoring (storage w1)
  = Some (match monitoring (storage w) with
          | Some m => m
          | None => defaultConfig
          end)
  /\ telegram (storage w1) = telegram (storage w)
  /\ reference (storage w1) = reference (storage w)
  /\ keywords (storage w1) = keywords (storage w)
  /\ alarm w1 = alarm w
  /\ initializeStorage w1 = (inl tt, w1).
Proof.
  cbv zeta. unfold initializeStorage. run.
  destruct (monitoring (storage w)) as [m|] eqn:E; cbn.
  - rewrite E. repeat split.
  - repeat split.
Qed.

(** ** [stopMonitoring] and [startMonitoring] as a pair *)

(** A stored config whose three numeric fields are truthy. *)
Lemma withDefaults_nonzero (m : MonitoringConfig) (active : bool) :
  intervalMin m <> 0 -> intervalMax m <> 0 -> refreshDelay m <> 0 ->
  withDefaults (Some m) active
  = {| isActive := active;
       intervalMin := intervalMin m;
       intervalMax := intervalMax m;
       autoRefresh := autoRefresh m;
       refreshDelay := refreshDelay m;
       lastCheckTime := lastCheckTime m |}.
Proof.
  intros H1 H2 H3. unfold withDefaults, orDefault, autoRefreshOr.
  rewrite (proj2 (Z.eqb_neq _ _) H1), (proj2 (Z.eqb_neq _ _) H2),
    (proj2 (Z.eqb_neq _ _) H3).
  reflexivity.
Qed.

(** X11.  [stopMonitoring] clears the alarm and keeps the credentials, the
    reference and the keywords; of a stored monitoring entry it keeps
    [lastCheckTime], [autoRefresh] and every non-zero interval or delay,
    and sets [isActive = false]; without an entry it stores the
    defaults. *)
Theorem stopMonitoring_frame (w : World) :
  let w1 := snd (stopMonitoring w) in
  telegram (storage w1) = telegram (storage w)
  /\ reference (storage w1) = reference (storage w)
  /\ keywords (storage w1) = keywords (storage w)
  /\ alarm w1 = None
  /\ (forall m,
        monitoring (storage w) = Some m ->
        exists m1,
          monitoring (storage w1) = Some m1
          /\ isActive m1 = false
          /\ lastCheckTime m1 = lastCheckTime m
          /\ autoRefresh m1 = autoRefresh m
          /\ (intervalMin m <> 0 -> intervalMin m1 = intervalMin m)
          /\ (intervalMax m <> 0 -> intervalMax m1 = intervalMax m)
          /\ (refreshDelay m <> 0 -> refreshDelay m1 = refreshDelay m))
  /\ (monitoring (storage w) = None ->
      monitoring (storage w1) = Some defaultConfig).
Proof.
  cbv zeta. unfold stopMonitoring. run. repeat split.
  - intros m Hm. rewrite Hm. eexists. split; [reflexivity|].
    cbn [isActive lastCheckTime autoRefresh intervalMin intervalMax
         refreshDelay withDefaults orDefault autoRefreshOr].
    repeat split; intros H; rewrite (proj2 (Z.eqb_neq _ _) H); reflexivity.
  - intros Hm. rewrite Hm. reflexivity.
Qed.

Lemma stopMonitoring_frame_witness :
  let w := Samples.worldOf (Some Samples.sampleTelegram)
                           (Some Samples.sampleReference)
                           (Some Samples.activeConfig) in
  exists m1,
    monitoring (storage (snd (stopMonitoring w))) = Some m1
    /\ isActive m1 = false
    /\ lastCheckTime m1 = lastCheckTime Samples.activeConfig
    /\ autoRefresh m1 = autoRefresh Samples.activeConfig
    /\ (intervalMin Samples.activeConfig <> 0 ->
        intervalMin m1 = intervalMin Samples.activeConfig)
    /\ (intervalMax Samples.activeConfig <> 0 ->
        intervalMax m1 = intervalMax Samples.activeConfig)
    /\ (refreshDelay Samples.activeConfig <> 0 ->
        refreshDelay m1 = refreshDelay Samples.activeConfig).
Proof.
  cbv zeta.
  apply (proj1 (proj2 (proj2 (proj2 (proj2
          (stopMonitoring_frame
             (Samples.worldOf (Some Samples.sampleTelegram)
                              (Some Samples.sampleReference)
                              (Some Samples.activeConfig)))))))).
  reflexivity.
Defined.

(** X12.  Start followed by stop is a round trip: from an inactive config
    with non-zero intervals and delay, with a reference and credentials
    stored, [startMonitoring] makes the config active and the following
    [stopMonitoring] leaves the storage exactly as it was before the
    start, with no alarm armed. *)
Theorem start_then_stop_round_trip (h : Host) (w : World)
        (m : MonitoringConfig) :
  reference (storage w) <> None ->
  telegramNotConfigured (telegram (storage w)) = false ->
  monitoring (storage w) = Some m ->
  isActive m = false ->
  intervalMin m <> 0 -> intervalMax m <> 0 -> refreshDelay m <> 0 ->
  let started := snd (startMonitoring h w) in
  let stopped := snd (stopMonitoring started) in
  option_map isActive (monitoring (storage started)) = Some true
  /\ storage stopped = storage w
  /\ alarm stopped = None.
Proof.
  intros Hr Ht Hm Ha H1 H2 H3. cbv zeta.
  rewrite (startMonitoring_started h w Hr Ht). cbn [snd].
  unfold stopMonitoring. run. rewrite Hm.
  rewrite (withDefaults_nonzero m true H1 H2 H3).
  rewrite withDefaults_nonzero by assumption.
  cbn. repeat split.
  destruct (storage w) as [t r mo k]. cbn in *. subst mo.
  destruct m as [a i1 i2 ar rd lc]. cbn in *. subst a. reflexivity.
Qed.

Lemma start_then_stop_round_trip_witness :
  let h := Samples.hostWith (inl "current"%string) Samples.changedDecode
                            Samples.delivered in
  let w := Samples.worldOf (Some Samples.sampleTelegram)
                           (Some Samples.sampleReference)
                           (Some Samples.inactiveConfig) in
  option_map isActive (monitoring (storage (snd (startMonitoring h w))))
  = Some true
  /\ storage (snd (stopMonitoring (snd (startMonitoring h w)))) = storage w
  /\ alarm (snd (stopMonitoring (snd (startMonitoring h w)))) = None.
Proof.
  cbv zeta.
  apply (start_then_stop_round_trip _ _ Samples.inactiveConfig);
    try reflexivity; discriminate.
Defined.

Lemma checkForChanges_not_active (h : Host) (w : World) :
  monitoringActive (monitoring (storage w)) = false ->
  checkForChanges h w = (inl tt, w).
Proof.
  intros H. unfold checkForChanges. run.
  destruct (reference (storage w)); [|reflexivity].
  rewrite H. reflexivity.
Qed.

(** X13.  An alarm that fires after [stopMonitoring], under whatever
    name, changes nothing: no tab query, no capture, no write, no
    notification. *)
Theorem alarm_after_stop_is_ignored (h : Host) (name : string) (w : World) :
  let stopped := snd (stopMonitoring w) in
  onAlarm h name stopped = (inl tt, stopped).
Proof.
  cbv zeta. unfold onAlarm.
  destruct (String.eqb name ALARM_NAME); [|reflexivity].
  apply checkForChanges_not_active. reflexivity.
Qed.

(** ** Check cycles *)

(** X14.  An active cycle that finds no usable tab (no tab, or a first tab
    without id or with id 0) only logs ['No active tab found'], and one
    whose tab query is rejected only logs ['Check error:']: in both cases
    nothing is reloaded or captured and the storage, [lastCheckTime]
    included, is unchanged. *)
Theorem checkForChanges_without_tab (h : Host) (w : World)
        (ref : ReferenceSnapshot) (m : MonitoringConfig) :
  reference (storage w) = Some ref ->
  monitoring (storage w) = Some m ->
  isActive m = true ->
  (forall tabs,
      tabsQuery h = inl tabs -> activeTabId tabs = None ->
      checkForChanges h w
      = (inl tt,
         {| storage := storage w; alarm := alarm w;
            trace := ConsoleLog "No active tab found" :: TabsQuery
                     :: trace w |}))
  /\ (forall e,
        tabsQuery h = inr e ->
        checkForChanges h w
        = (inl tt,
           {| storage := storage w; alarm := alarm w;
              trace := ConsoleError "Check error:" :: TabsQuery
                       :: trace w |})).
Proof.
  intros Hr Hm Ha. split.
  - intros tabs Hq Ht. unfold checkForChanges. run.
    rewrite Hr, Hm. advance. rewrite Ha, Hq. advance. rewrite Ht.
    reflexivity.
  - intros e Hq. unfold checkForChanges. run.
    rewrite Hr, Hm. advance. rewrite Ha, Hq. reflexivity.
Qed.

Lemma checkForChanges_without_tab_witness :
  let w := Samples.worldOf (Some Samples.sampleTelegram)
                           (Some Samples.sampleReference)
                           (Some Samples.activeConfig) in
  let h := {| now := 0; random := 0;
              tabsQuery := inl [ {| tabId := Some 0; tabUrl := None |} ];
              tabsReload := None;
              captureVisibleTab := inl "current"%string;
              decode := Samples.changedDecode;
              fetch := Samples.delivered;
              notificationsCreate := None |} in
  checkForChanges h w
  = (inl tt,
     {| storage := storage w; alarm := alarm w;
        trace := ConsoleLog "No active tab found" :: TabsQuery :: trace w |}).
Proof.
  cbv zeta.
  refine (proj1 (checkForChanges_without_tab
                   {| now := 0; random := 0;
                      tabsQuery := inl [ {| tabId := Some 0;
                                            tabUrl := None |} ];
                      tabsReload := None;
                      captureVisibleTab := inl "current"%string;
                      decode := Samples.changedDecode;
                      fetch := Samples.delivered;
                      notificationsCreate := None |}
                   (Samples.worldOf (Some Samples.sampleTelegram)
                                    (Some Samples.sampleReference)
                                    (Some Samples.activeConfig))
                   Samples.sampleReference
                   Samples.activeConfig eq_refl eq_refl eq_refl)
                _ eq_refl eq_refl).
Defined.

Lemma unchanged_cycle (h : Host) (w : World)
      (ref : ReferenceSnapshot) (m : MonitoringConfig)
      (tabs : list Tab) (id : Z) (shot : string) (c : ComparisonResult) :
  reference (storage w) = Some ref ->
  monitoring (storage w) = Some m ->
  isActive m = true ->
  tabsQuery h = inl tabs ->
  activeTabId tabs = Some id ->
  (autoRefresh m = true -> tabsReload h = None) ->
  captureVisibleTab h = inl shot ->
  compareScreenshots (decode h) (screenshot ref) shot = inl c ->
  hasChanged c = false ->
  checkForChanges h w = (inl tt, afterUpdate h w m id).
Proof.
  intros Hr Hm Ha Hq Ht Hre Hcap Hcmp Hch.
  rewrite (checkForChanges_completed h w ref m tabs id shot c) by assumption.
  unfold notificationStep. rewrite Hch. reflexivity.
Qed.

(** X15.  A cycle whose comparison reports no change ends right after the
    storage write: the config is stamped with the time of the check and
    neither the Telegram request nor the browser notification is made. *)
Theorem checkForChanges_unchanged_page (h : Host) (w : World)
        (ref : ReferenceSnapshot) (m : MonitoringConfig)
        (tabs : list Tab) (id : Z) (shot : string) (c : ComparisonResult) :
  reference (storage w) = Some ref ->
  monitoring (storage w) = Some m ->
  isActive m = true ->
  tabsQuery h = inl tabs ->
  activeTabId tabs = Some id ->
  (autoRefresh m = true -> tabsReload h = None) ->
  captureVisibleTab h = inl shot ->
  compareScreenshots (decode h) (screenshot ref) shot = inl c ->
  hasChanged c = false ->
  checkForChanges h w = (inl tt, afterUpdate h w m id)
  /\ telegramRequests (afterUpdate h w m id) = telegramRequests w
  /\ browserNotifications (afterUpdate h w m id) = browserNotifications w
  /\ option_map lastCheckTime (monitoring (storage (afterUpdate h w m id)))
     = Some (Some (now h)).
Proof.
  intros Hr Hm Ha Hq Ht Hre Hcap Hcmp Hch.
  split; [exact (unchanged_cycle h w ref m tabs id shot c
                   Hr Hm Ha Hq Ht Hre Hcap Hcmp Hch)|].
  unfold telegramRequests, browserNotifications, afterUpdate.
  cbn [trace storage monitoring lastCheckTime option_map].
  destruct (autoRefresh m); cbn; repeat split.
Qed.

Lemma checkForChanges_unchanged_page_witness :
  let h := Samples.hostWith (inl "reference"%string) Samples.changedDecode
                            Samples.delivered in
  let w := Samples.worldOf (Some Samples.sampleTelegram)
                           (Some Samples.sampleReference)
                           (Some Samples.activeConfig) in
  checkForChanges h w = (inl tt, afterUpdate h w Samples.activeConfig 7).
Proof.
  cbv zeta.
  refine (proj1 (checkForChanges_unchanged_page
           (Samples.hostWith (inl "reference"%string) Samples.changedDecode
                             Samples.delivered)
           (Samples.worldOf (Some Samples.sampleTelegram)
                            (Some Samples.sampleReference)
                            (Some Samples.activeConfig))
           Samples.sampleReference Samples.activeConfig _ 7
           "reference"%string _
           eq_refl eq_refl eq_refl eq_refl eq_refl (fun _ => eq_refl)
           eq_refl eq_refl eq_refl)).
Defined.

Lemma notificationStep_alarm (h : Host) (t : option TelegramConfig)
      (c : ComparisonResult) (w : World) :
  alarm (snd (notificationStep h t c w)) = alarm w.
Proof.
  unfold notificationStep, sendTelegramNotification, showBrowserNotification,
    settle.
  run. destruct (hasChanged c); [|reflexivity].
  destruct t as [cfg|]; [|reflexivity].
  destruct (fetch h) as [[isOk body]|e1]; [destruct isOk; [|destruct body]|];
    destruct (notificationsCreate h) as [e2|]; reflexivity.
Qed.

(** Rewrites the recorded outcomes into a cycle and reduces it. *)
Ltac replay :=
  unfold checkForChanges; run;
  repeat match goal with
         | H : _ = _ |- _ => progress (rewrite H); advance
         end.

(** X16.  Whatever the browser answers, a check cycle that no other
    handler interrupts returns normally and never changes the credentials,
    the reference, the keywords, the alarm or the active flag; the
    monitoring entry is either left as it was or, when it was active,
    replaced by itself with zero intervals and refresh delay set to their
    defaults and [lastCheckTime] set to the time of this check, every
    other field as it was. *)
Theorem checkForChanges_frame (h : Host) (w : World) :
  fst (checkForChanges h w) = inl tt
  /\ cycleFrame h w (snd (checkForChanges h w)).
Proof.
  split; [apply checkForChanges_never_throws|]. unfold cycleFrame.
  destruct (reference (storage w)) as [ref|] eqn:Hr;
    [|replay; rewrite ?Hr; auto 10].
  destruct (monitoring (storage w)) as [m|] eqn:Hm;
    [|replay; rewrite ?Hr, ?Hm; auto 10].
  destruct (isActive m) eqn:Ha; [|replay; rewrite ?Hr, ?Hm, ?Ha; auto 10].
  destruct (tabsQuery h) as [tabs|e] eqn:Hq;
    [|replay; rewrite ?Hr, ?Hm; cbn; rewrite ?Ha; auto 10].
  destruct (activeTabId tabs) as [id|] eqn:Ht;
    [|replay; rewrite ?Hr, ?Hm; cbn; rewrite ?Ha; auto 10].
  destruct (autoRefresh m) eqn:Har.
  - destruct (tabsReload h) as [e|] eqn:Hrl;
      [replay; auto 10|].
    destruct (captureVisibleTab h) as [shot|e] eqn:Hcap;
      [|replay; auto 10].
    destruct (compareScreenshots (decode h) (screenshot ref) shot)
      as [c|e] eqn:Hcmp; [|replay; auto 10].
    rewrite (checkForChanges_completed h w ref m tabs id shot c)
      by (try assumption; intros _; exact Hrl).
    destruct (notificationStep_frame h (telegram (storage w)) c
                (afterUpdate h w m id)) as (_ & Hs & _).
    rewrite Hs, notificationStep_alarm. cbn. rewrite ?Hr, ?Ha.
    repeat (split; [reflexivity|]). right. exists m.
    unfold stamped. rewrite Ha. repeat split.
  - destruct (captureVisibleTab h) as [shot|e] eqn:Hcap;
      [|replay; auto 10].
    destruct (compareScreenshots (decode h) (screenshot ref) shot)
      as [c|e] eqn:Hcmp; [|replay; auto 10].
    rewrite (checkForChanges_completed h w ref m tabs id shot c)
      by (try assumption; intros; congruence).
    destruct (notificationStep_frame h (telegram (storage w)) c
                (afterUpdate h w m id)) as (_ & Hs & _).
    rewrite Hs, notificationStep_alarm. cbn. rewrite ?Hr, ?Ha.
    repeat (split; [reflexivity|]). right. exists m.
    unfold stamped. rewrite Ha, Har. repeat split.
Qed.

(** ** A stop handled while a cycle waits *)

(** An uninterrupted cycle is the rest of the cycle run in the world it
    read. *)
Lemma checkForChanges_from (h : Host) (w : World) :
  checkForChanges h w = checkForChangesFrom h (storage w) w.
Proof. reflexivity. Qed.

(** The rest of a cycle that passes its guards on the entries it read,
    resolves a tab and whose reload, capture and comparison succeed: it
    writes the entry it read, stamped, into the world it resumes in and
    runs the notification step. *)
Lemma checkForChangesFrom_completed (h : Host) (data : StorageData)
      (w : World) (ref : ReferenceSnapshot) (m : MonitoringConfig)
      (tabs : list Tab) (id : Z) (shot : string) (c : ComparisonResult) :
  reference data = Some ref ->
  monitoring data = Some m ->
  isActive m = true ->
  tabsQuery h = inl tabs ->
  activeTabId tabs = Some id ->
  (autoRefresh m = true -> tabsReload h = None) ->
  captureVisibleTab h = inl shot ->
  compareScreenshots (decode h) (screenshot ref) shot = inl c ->
  exists log,
    checkForChangesFrom h data w
    = notificationStep h (telegram data) c
        {| storage := {| telegram := telegram (storage w);
                         reference := reference (storage w);
                         monitoring := Some (stamped h m);
                         keywords := keywords (storage w) |};
           alarm := alarm w;
           trace := log ++ trace w |}.
Proof.
  intros Hr Hm Ha Hq Ht Hre Hcap Hcmp.
  unfold checkForChangesFrom, notificationStep, stamped.
  run. rewrite Hr, Hm. advance. rewrite Ha, Hq. advance.
  rewrite Ht. advance.
  destruct (autoRefresh m) eqn:Har.
  - rewrite (Hre eq_refl). advance. rewrite Hcap. advance.
    rewrite Hcmp. advance.
    eexists (_ :: _ :: _ :: _ :: _ :: [_]). cbn [app]. reflexivity.
  - advance. rewrite Hcap. advance.
    rewrite Hcmp. advance.
    eexists (_ :: _ :: _ :: [_]). cbn [app]. reflexivity.
Qed.

(** X25.  A stop that is handled between a cycle's read of the storage
    and the rest of that cycle is undone in part: the stop succeeds, stores
    [isActive = false] and clears the alarm, and the cycle, once its
    capture and comparison succeed, writes back the entry it had read,
    with [isActive = true].  The storage then says that monitoring is
    active while no alarm is armed. *)
Theorem stop_during_cycle_is_overwritten (h : Host) (w : World)
        (ref : ReferenceSnapshot) (m : MonitoringConfig)
        (tabs : list Tab) (id : Z) (shot : string) (c : ComparisonResult) :
  reference (storage w) = Some ref ->
  monitoring (storage w) = Some m ->
  isActive m = true ->
  tabsQuery h = inl tabs ->
  activeTabId tabs = Some id ->
  (autoRefresh m = true -> tabsReload h = None) ->
  captureVisibleTab h = inl shot ->
  compareScreenshots (decode h) (screenshot ref) shot = inl c ->
  let stopped := snd (stopMonitoring w) in
  let resumed := snd (checkForChangesFrom h (storage w) stopped) in
  fst (stopMonitoring w) = inl succeeded
  /\ monitoringActive (monitoring (storage stopped)) = false
  /\ alarm stopped = None
  /\ monitoring (storage resumed) = Some (stamped h m)
  /\ monitoringActive (monitoring (storage resumed)) = true
  /\ alarm resumed = None.
Proof.
  intros Hr Hm Ha Hq Ht Hre Hcap Hcmp. cbv zeta.
  destruct (checkForChangesFrom_completed h (storage w)
              (snd (stopMonitoring w)) ref m tabs id shot c
              Hr Hm Ha Hq Ht Hre Hcap Hcmp) as (log & Hrun).
  rewrite Hrun.
  destruct (notificationStep_frame h (telegram (storage w)) c
              {| storage :=
                   {| telegram := telegram (storage (snd (stopMonitoring w)));
                      reference :=
                        reference (storage (snd (stopMonitoring w)));
                      monitoring := Some (stamped h m);
                      keywords :=
                        keywords (storage (snd (stopMonitoring w))) |};
                 alarm := alarm (snd (stopMonitoring w));
                 trace := log ++ trace (snd (stopMonitoring w)) |})
    as (_ & Hs & _).
  rewrite Hs, notificationStep_alarm.
  unfold stopMonitoring. run. cbn. rewrite Ha. repeat split.
Qed.


Lemma stop_during_cycle_is_overwritten_witness :
  let h := Samples.hostWith (inl "current"%string) Samples.changedDecode
                            Samples.delivered in
  let w := Samples.worldOf (Some Samples.sampleTelegram)
                           (Some Samples.sampleReference)
                           (Some Samples.activeConfig) in
  let stopped := snd (stopMonitoring w) in
  let resumed := snd (checkForChangesFrom h (storage w) stopped) in
  fst (stopMonitoring w) = inl succeeded
  /\ monitoringActive (monitoring (storage stopped)) = false
  /\ alarm stopped = None
  /\ monitoring (storage resumed) = Some (stamped h Samples.activeConfig)
  /\ monitoringActive (monitoring (storage resumed)) = true
  /\ alarm resumed = None.
Proof.
  cbv zeta.
  refine (stop_during_cycle_is_overwritten
            (Samples.hostWith (inl "current"%string) Samples.changedDecode
                              Samples.delivered)
            (Samples.worldOf (Some Samples.sampleTelegram)
                             (Some Samples.sampleReference)
                             (Some Samples.activeConfig))
            Samples.sampleReference Samples.activeConfig _ 7
            "current"%string _
            eq_refl eq_refl eq_refl eq_refl eq_refl (fun _ => eq_refl)
            eq_refl eq_refl).
Defined.

(** ** [captureReference] *)

(** The successful run of [captureReference], in full. *)
Lemma captureReference_captured (h : Host) (w : World)
      (tabs : list Tab) (tab : Tab) (shot : string) :
  tabsQuery h = inl tabs ->
  firstTabWithId tabs = Some tab ->
  captureVisibleTab h = inl shot ->
  let snapshot :=
    {| url := urlOrEmpty tab;
       timestamp := now h;
       screenshot := shot;
       keyPhrases := keywordsOrEmpty (keywords (storage w)) |} in
  captureReference h w
  = (inl {| replySuccess := true;
            replyData := Some (ReferenceData snapshot);
            replyError := None |},
     {| storage := {| telegram := telegram (storage w);
                      reference := Some snapshot;
                      monitoring := monitoring (storage w);
                      keywords := keywords (storage w) |};
        alarm := alarm w;
        trace := ConsoleLog "Reference captured successfully"
                 :: StorageSet "reference" :: CaptureVisibleTab
                 :: TabsQuery :: trace w |}).
Proof.
  intros Hq Ht Hcap. unfold captureReference, storageSetReference. run.
  rewrite Hq. cbn. rewrite Ht. cbn. rewrite Hcap. reflexivity.
Qed.

(** X17.  [captureReference] answers ['No active tab found'] without
    capturing when there is no usable tab; answers the error's message
    when the capture is rejected; in both cases the storage is unchanged.
    Otherwise it stores and returns a snapshot holding the tab's url, the
    current time, the capture and the stored keywords (none: the empty
    list), and leaves credentials, monitoring entry, keywords and alarm
    alone. *)
Theorem captureReference_outcomes (h : Host) (w : World) :
  (forall tabs,
      tabsQuery h = inl tabs -> firstTabWithId tabs = None ->
      fst (captureReference h w) = inl (replyFailed "No active tab found")
      /\ storage (snd (captureReference h w)) = storage w
      /\ trace (snd (captureReference h w)) = TabsQuery :: trace w)
  /\
  (forall tabs tab e,
      tabsQuery h = inl tabs -> firstTabWithId tabs = Some tab ->
      captureVisibleTab h = inr e ->
      fst (captureReference h w) = inl (replyFailed (errorMessage e))
      /\ storage (snd (captureReference h w)) = storage w)
  /\
  (forall tabs tab shot,
      tabsQuery h = inl tabs -> firstTabWithId tabs = Some tab ->
      captureVisibleTab h = inl shot ->
      let snapshot :=
        {| url := urlOrEmpty tab;
           timestamp := now h;
           screenshot := shot;
           keyPhrases := keywordsOrEmpty (keywords (storage w)) |} in
      fst (captureReference h w)
      = inl {| replySuccess := true;
               replyData := Some (ReferenceData snapshot);
               replyError := None |}
      /\ reference (storage (snd (captureReference h w))) = Some snapshot
      /\ telegram (storage (snd (captureReference h w)))
         = telegram (storage w)
      /\ monitoring (storage (snd (captureReference h w)))
         = monitoring (storage w)
      /\ keywords (storage (snd (captureReference h w)))
         = keywords (storage w)
      /\ alarm (snd (captureReference h w)) = alarm w).
Proof.
  split; [|split].
  - intros tabs Hq Ht. unfold captureReference. run.
    rewrite Hq. cbn. rewrite Ht. repeat split.
  - intros tabs tab e Hq Ht Hcap. unfold captureReference. run.
    rewrite Hq. cbn. rewrite Ht. cbn. rewrite Hcap. repeat split.
  - intros tabs tab shot Hq Ht Hcap. cbv zeta.
    rewrite (captureReference_captured h w tabs tab shot Hq Ht Hcap).
    repeat split.
Qed.

Lemma captureReference_outcomes_witness :
  let w := Samples.worldOf None None None in
  let h := Samples.hostWith (inl "shot"%string) Samples.changedDecode
                            Samples.delivered in
  let failing := Samples.hostWith (inr (JsError "Tabs cannot be captured"))
                                  Samples.changedDecode Samples.delivered in
  let noTab := {| now := 0; random := 0; tabsQuery := inl [];
                  tabsReload := None;
                  captureVisibleTab := inl "shot"%string;
                  decode := Samples.changedDecode;
                  fetch := Samples.delivered;
                  notificationsCreate := None |} in
  fst (captureReference noTab w) = inl (replyFailed "No active tab found")
  /\ fst (captureReference failing w)
     = inl (replyFailed "Tabs cannot be captured")
  /\ reference (storage (snd (captureReference h w)))
     = Some {| url := "https://example.org/queue";
               timestamp := 1700000060000;
               screenshot := "shot";
               keyPhrases := [] |}.
Proof.
  cbv zeta. split; [|split].
  - apply (proj1 (captureReference_outcomes
                    {| now := 0; random := 0; tabsQuery := inl [];
                       tabsReload := None;
                       captureVisibleTab := inl "shot"%string;
                       decode := Samples.changedDecode;
                       fetch := Samples.delivered;
                       notificationsCreate := None |}
                    (Samples.worldOf None None None)) [] eq_refl eq_refl).
  - apply (proj1 (proj2 (captureReference_outcomes
                    (Samples.hostWith (inr (JsError "Tabs cannot be captured"))
                                      Samples.changedDecode Samples.delivered)
                    (Samples.worldOf None None None)))
                 _ _ _ eq_refl eq_refl eq_refl).
  - apply (proj2 (proj2 (captureReference_outcomes
                    (Samples.hostWith (inl "shot"%string)
                                      Samples.changedDecode Samples.delivered)
                    (Samples.worldOf None None None)))
                 _ _ _ eq_refl eq_refl eq_refl).
Defined.

(** ** [saveSettings] *)

(** X18.  [saveSettings] with the popup's payload (credentials and
    keywords) answers success, stores the credentials and leaves reference
    and monitoring entry alone; with non-empty credentials saved, the next
    [startMonitoring] succeeds when a reference is stored and fails with
    ['No reference snapshot captured'] when none is. *)
Theorem saveSettings_then_start (h : Host) (w : World)
        (cfg : TelegramConfig) (words : option (list string)) :
  botToken cfg <> ""%string -> chatId cfg <> ""%string ->
  let payload := {| telegram := Some cfg; reference := None;
                    monitoring := None; keywords := words |} in
  let saved := snd (saveSettings payload w) in
  fst (saveSettings payload w)
  = inl {| replySuccess := true; replyData := None; replyError := None |}
  /\ telegram (storage saved) = Some cfg
  /\ reference (storage saved) = reference (storage w)
  /\ monitoring (storage saved) = monitoring (storage w)
  /\ (reference (storage w) <> None ->
      fst (startMonitoring h saved) = inl succeeded)
  /\ (reference (storage w) = None ->
      fst (startMonitoring h saved)
      = inl (failed "No reference snapshot captured")).
Proof.
  intros Hb Hc. cbv zeta. unfold saveSettings, storageSetItems. run.
  repeat split.
  - intros Hr. rewrite startMonitoring_started; [reflexivity|exact Hr|].
    cbn [storage telegram]. apply telegramNotConfigured_false; assumption.
  - intros Hr. unfold startMonitoring. run. rewrite Hr. reflexivity.
Qed.

Lemma saveSettings_then_start_witness :
  let payload := {| telegram := Some Samples.sampleTelegram;
                    reference := None; monitoring := None;
                    keywords := Some ["No slots available"%string] |} in
  let w := Samples.worldOf None (Some Samples.sampleReference) None in
  fst (startMonitoring
         (Samples.hostWith (inl "current"%string) Samples.changedDecode
                           Samples.delivered)
         (snd (saveSettings payload w)))
  = inl succeeded.
Proof.
  cbv zeta.
  refine (proj1 (proj2 (proj2 (proj2 (proj2
            (saveSettings_then_start
               (Samples.hostWith (inl "current"%string)
                                 Samples.changedDecode Samples.delivered)
               (Samples.worldOf None (Some Samples.sampleReference) None)
               Samples.sampleTelegram (Some ["No slots available"%string])
               _ _))))) _); discriminate.
Defined.

(** ** Sessions *)

(** X19.  From any storage state, the messages SAVE_SETTINGS (non-empty
    credentials), CAPTURE_REFERENCE (with a usable tab and a capture that
    succeeds) and START_MONITORING in this order end with monitoring
    started: START_MONITORING answers success, GET_STATUS then returns a
    config with [isActive = true], and the stored reference holds the
    capture. *)
Theorem operator_session (h1 h2 h3 h4 : Host) (w : World)
        (cfg : TelegramConfig) (words : option (list string))
        (tabs : list Tab) (tab : Tab) (shot : string) :
  botToken cfg <> ""%string -> chatId cfg <> ""%string ->
  tabsQuery h2 = inl tabs -> firstTabWithId tabs = Some tab ->
  captureVisibleTab h2 = inl shot ->
  let payload := {| telegram := Some cfg; reference := None;
                    monitoring := None; keywords := words |} in
  let w1 := snd (handleMessage h1 (SAVE_SETTINGS payload) w) in
  let w2 := snd (handleMessage h2 CAPTURE_REFERENCE w1) in
  let w3 := snd (handleMessage h3 START_MONITORING w2) in
  fst (handleMessage h3 START_MONITORING w2)
  = inl {| replySuccess := true; replyData := None; replyError := None |}
  /\ exists m,
      fst (handleMessage h4 GET_STATUS w3)
      = inl {| replySuccess := true;
               replyData := Some (StatusData m);
               replyError := None |}
      /\ isActive m = true
      /\ option_map screenshot (reference (storage w3)) = Some shot.
Proof.
  intros Hb Hc Hq Ht Hcap. cbv zeta. cbn [handleMessage].
  unfold saveSettings at 1 2 3, storageSetItems. run.
  rewrite (captureReference_captured h2 _ tabs tab shot Hq Ht Hcap).
  cbn [snd]. unfold mapReply. run.
  rewrite startMonitoring_started;
    [|discriminate
     |cbn [storage telegram]; apply telegramNotConfigured_false; assumption].
  split; [reflexivity|]. eexists. split; [reflexivity|].
  split; reflexivity.
Qed.

End HandlerProofs.

Module CycleProofs.

Import DifferBinary64 DifferSpec DifferExtras Engine EngineSteps
       EngineProofs Handlers CycleSpec HandlerProofs.

Lemma operator_session_witness :
  let h := Samples.hostWith (inl "shot"%string) Samples.changedDecode
                            Samples.delivered in
  let payload := {| telegram := Some Samples.sampleTelegram;
                    reference := None; monitoring := None;
                    keywords := None |} in
  let w := Samples.worldOf None None None in
  let w1 := snd (handleMessage h (SAVE_SETTINGS payload) w) in
  let w2 := snd (handleMessage h CAPTURE_REFERENCE w1) in
  let w3 := snd (handleMessage h START_MONITORING w2) in
  fst (handleMessage h START_MONITORING w2)
  = inl {| replySuccess := true; replyData := None; replyError := None |}
  /\ exists m,
      fst (handleMessage h GET_STATUS w3)
      = inl {| replySuccess := true;
               replyData := Some (StatusData m);
               replyError := None |}
      /\ isActive m = true
      /\ option_map screenshot (reference (storage w3)) = Some "shot"%string.
Proof.
  cbv zeta.
  apply (operator_session
           (Samples.hostWith (inl "shot"%string) Samples.changedDecode
                             Samples.delivered)
           (Samples.hostWith (inl "shot"%string) Samples.changedDecode
                             Samples.delivered)
           (Samples.hostWith (inl "shot"%string) Samples.changedDecode
                             Samples.delivered)
           (Samples.hostWith (inl "shot"%string) Samples.changedDecode
                             Samples.delivered)
           (Samples.worldOf None None None)
           Samples.sampleTelegram None
           [ {| tabId := Some 7;
                tabUrl := Some "https://example.org/queue"%string |} ]
           {| tabId := Some 7;
              tabUrl := Some "https://example.org/queue"%string |}
           "shot"%string);
    try reflexivity; discriminate.
Defined.

Lemma different_same (img : ImageData) (p : nat) : different img img p = false.
Proof.
  unfold different. cbn [existsb]. rewrite !Z.sub_diag. reflexivity.
Qed.

(** X20.  A cycle whose capture is the very string stored as the
    reference screenshot, decoding to a well-formed image, sends nothing:
    no Telegram request and no browser notification are added, and the
    config is stamped with the time of the check. *)
Theorem checkForChanges_same_capture (h : Host) (w : World)
        (ref : ReferenceSnapshot) (m : MonitoringConfig)
        (tabs : list Tab) (id : Z) (img : ImageData) :
  reference (storage w) = Some ref ->
  monitoring (storage w) = Some m ->
  isActive m = true ->
  tabsQuery h = inl tabs ->
  activeTabId tabs = Some id ->
  (autoRefresh m = true -> tabsReload h = None) ->
  captureVisibleTab h = inl (screenshot ref) ->
  decode h (screenshot ref) = Some img ->
  wellFormed img ->
  let w' := snd (checkForChanges h w) in
  telegramRequests w' = telegramRequests w
  /\ browserNotifications w' = browserNotifications w
  /\ option_map lastCheckTime (monitoring (storage w')) = Some (Some (now h)).
Proof.
  intros Hr Hm Ha Hq Ht Hre Hcap Hdec Wf. cbv zeta.
  assert (Hcmp : compareScreenshots (decode h) (screenshot ref) (screenshot ref)
                 = inl {| hasChanged := false;
                          changePercentage := Fin 0;
                          detectedText := "";
                          missingPhrases := [] |}).
  { unfold compareScreenshots. rewrite Hdec. f_equal.
    apply DifferBinary64Extras.unchanged_binary64_result;
      try assumption; try reflexivity.
    unfold differentPositions. apply filter_none.
    intros p _. apply different_same. }
  rewrite (unchanged_cycle h w ref m tabs id _ _
             Hr Hm Ha Hq Ht Hre Hcap Hcmp eq_refl).
  unfold telegramRequests, browserNotifications, afterUpdate.
  cbn [snd trace storage monitoring lastCheckTime option_map filter].
  destruct (autoRefresh m); cbn; repeat split.
Qed.

Lemma checkForChanges_same_capture_witness :
  let h := Samples.hostWith (inl "reference"%string) Samples.changedDecode
                            Samples.delivered in
  let w := Samples.worldOf (Some Samples.sampleTelegram)
                           (Some Samples.sampleReference)
                           (Some Samples.activeConfig) in
  telegramRequests (snd (checkForChanges h w)) = telegramRequests w
  /\ browserNotifications (snd (checkForChanges h w))
     = browserNotifications w
  /\ option_map lastCheckTime (monitoring (storage (snd (checkForChanges h w))))
     = Some (Some (now h)).
Proof.
  cbv zeta.
  apply (checkForChanges_same_capture
           (Samples.hostWith (inl "reference"%string) Samples.changedDecode
                             Samples.delivered)
           (Samples.worldOf (Some Samples.sampleTelegram)
                            (Some Samples.sampleReference)
                            (Some Samples.activeConfig))
           Samples.sampleReference Samples.activeConfig
           [ {| tabId := Some 7;
                tabUrl := Some "https://example.org/queue"%string |} ]
           7 (Samples.black 2 2));
    try reflexivity.
  repeat split; simpl; lia.
Defined.

Lemma notificationStep_counts (h : Host) (cfg : TelegramConfig)
      (c : ComparisonResult) (w : World) :
  hasChanged c = true ->
  telegramRequests (snd (notificationStep h (Some cfg) c w))
  = S (telegramRequests w)
  /\ browserNotifications (snd (notificationStep h (Some cfg) c w))
     = S (browserNotifications w).
Proof.
  intros Hch.
  unfold notificationStep, sendTelegramNotification, showBrowserNotification,
    settle, telegramRequests, browserNotifications.
  rewrite Hch. run.
  destruct (fetch h) as [[isOk body]|e1]; [destruct isOk; [|destruct body]|];
    destruct (notificationsCreate h) as [e2|]; cbn; split; reflexivity.
Qed.

Lemma afterUpdate_counts (h : Host) (w : World) (m : MonitoringConfig)
      (id : Z) :
  telegramRequests (afterUpdate h w m id) = telegramRequests w
  /\ browserNotifications (afterUpdate h w m id) = browserNotifications w.
Proof.
  unfold telegramRequests, browserNotifications, afterUpdate.
  cbn [trace]. destruct (autoRefresh m); cbn; split; reflexivity.
Qed.

(** One changed cycle, counted. *)
Lemma changed_cycle_counts (h : Host) (w : World)
      (ref : ReferenceSnapshot) (m : MonitoringConfig)
      (tabs : list Tab) (id : Z) (shot : string)
      (c : ComparisonResult) (cfg : TelegramConfig) :
  reference (storage w) = Some ref ->
  monitoring (storage w) = Some m ->
  isActive m = true ->
  tabsQuery h = inl tabs ->
  activeTabId tabs = Some id ->
  (autoRefresh m = true -> tabsReload h = None) ->
  captureVisibleTab h = inl shot ->
  compareScreenshots (decode h) (screenshot ref) shot = inl c ->
  hasChanged c = true ->
  telegram (storage w) = Some cfg ->
  telegramRequests (snd (checkForChanges h w)) = S (telegramRequests w)
  /\ browserNotifications (snd (checkForChanges h w))
     = S (browserNotifications w)
  /\ storage (snd (checkForChanges h w)) = storage (afterUpdate h w m id).
Proof.
  intros Hr Hm Ha Hq Ht Hre Hcap Hcmp Hch Htg.
  rewrite (checkForChanges_completed h w ref m tabs id shot c) by assumption.
  rewrite Htg.
  destruct (notificationStep_counts h cfg c (afterUpdate h w m id) Hch)
    as (Hf & Hn).
  destruct (afterUpdate_counts h w m id) as (Hf0 & Hn0).
  destruct (notificationStep_frame h (Some cfg) c (afterUpdate h w m id))
    as (_ & Hs & _).
  rewrite Hf, Hn, Hf0, Hn0, Hs. repeat split.
Qed.

(** X21.  A cycle that detects a change while credentials are stored makes
    exactly one Telegram request and exactly one browser-notification
    attempt, whatever the outcome of either. *)
Theorem changed_cycle_notifies_once (h : Host) (w : World)
        (ref : ReferenceSnapshot) (m : MonitoringConfig)
        (tabs : list Tab) (id : Z) (shot : string)
        (c : ComparisonResult) (cfg : TelegramConfig) :
  reference (storage w) = Some ref ->
  monitoring (storage w) = Some m ->
  isActive m = true ->
  tabsQuery h = inl tabs ->
  activeTabId tabs = Some id ->
  (autoRefresh m = true -> tabsReload h = None) ->
  captureVisibleTab h = inl shot ->
  compareScreenshots (decode h) (screenshot ref) shot = inl c ->
  hasChanged c = true ->
  telegram (storage w) = Some cfg ->
  telegramRequests (snd (checkForChanges h w)) = S (telegramRequests w)
  /\ browserNotifications (snd (checkForChanges h w))
     = S (browserNotifications w).
Proof.
  intros Hr Hm Ha Hq Ht Hre Hcap Hcmp Hch Htg.
  destruct (changed_cycle_counts h w ref m tabs id shot c cfg)
    as (Hf & Hn & _); try assumption.
  split; assumption.
Qed.

(** X22.  There is no debounce: when two consecutive cycles both detect a
    change, the second one notifies again, so that two Telegram requests
    and two browser-notification attempts are made in all. *)
Theorem changed_cycles_notify_again (h1 h2 : Host) (w : World)
        (ref : ReferenceSnapshot) (m : MonitoringConfig)
        (tabs1 tabs2 : list Tab) (id1 id2 : Z) (shot1 shot2 : string)
        (c1 c2 : ComparisonResult) (cfg : TelegramConfig) :
  reference (storage w) = Some ref ->
  monitoring (storage w) = Some m ->
  isActive m = true ->
  telegram (storage w) = Some cfg ->
  tabsQuery h1 = inl tabs1 -> activeTabId tabs1 = Some id1 ->
  tabsQuery h2 = inl tabs2 -> activeTabId tabs2 = Some id2 ->
  (autoRefresh m = true -> tabsReload h1 = None /\ tabsReload h2 = None) ->
  captureVisibleTab h1 = inl shot1 ->
  captureVisibleTab h2 = inl shot2 ->
  compareScreenshots (decode h1) (screenshot ref) shot1 = inl c1 ->
  compareScreenshots (decode h2) (screenshot ref) shot2 = inl c2 ->
  hasChanged c1 = true -> hasChanged c2 = true ->
  let w1 := snd (checkForChanges h1 w) in
  let w2 := snd (checkForChanges h2 w1) in
  telegramRequests w2 = (telegramRequests w + 2)%nat
  /\ browserNotifications w2 = (browserNotifications w + 2)%nat.
Proof.
  intros Hr Hm Ha Htg Hq1 Ht1 Hq2 Ht2 Hre Hcap1 Hcap2 Hcmp1 Hcmp2 Hch1 Hch2.
  cbv zeta.
  destruct (changed_cycle_counts h1 w ref m tabs1 id1 shot1 c1 cfg)
    as (Hf1 & Hn1 & Hs1); try assumption.
  { intros H. apply (Hre H). }
  set (w1 := snd (checkForChanges h1 w)) in *.
  assert (Hm1 : exists m1, monitoring (storage w1) = Some m1
                           /\ isActive m1 = true
                           /\ autoRefresh m1 = autoRefresh m).
  { rewrite Hs1. cbn. eexists. repeat split. exact Ha. }
  destruct Hm1 as (m1 & Hm1 & Ha1 & Har1).
  destruct (changed_cycle_counts h2 w1 ref m1 tabs2 id2 shot2 c2 cfg)
    as (Hf2 & Hn2 & _); try assumption.
  - rewrite Hs1. exact Hr.
  - rewrite Har1. intros H. apply (Hre H).
  - rewrite Hs1. exact Htg.
  - rewrite Hf2, Hn2, Hf1, Hn1. split; lia.
Qed.

Lemma changed_cycle_notifies_once_witness :
  let h := Samples.hostWith (inl "current"%string) Samples.changedDecode
                            (inr NonError) in
  let w := Samples.worldOf (Some Samples.sampleTelegram)
                           (Some Samples.sampleReference)
                           (Some Samples.activeConfig) in
  telegramRequests (snd (checkForChanges h w)) = S (telegramRequests w)
  /\ browserNotifications (snd (checkForChanges h w))
     = S (browserNotifications w).
Proof.
  cbv zeta.
  apply (changed_cycle_notifies_once
           (Samples.hostWith (inl "current"%string) Samples.changedDecode
                             (inr NonError))
           (Samples.worldOf (Some Samples.sampleTelegram)
                            (Some Samples.sampleReference)
                            (Some Samples.activeConfig))
           Samples.sampleReference Samples.activeConfig
           [ {| tabId := Some 7;
                tabUrl := Some "https://example.org/queue"%string |} ]
           7 "current"%string
           {| hasChanged := true;
              changePercentage := Fin 100;
              detectedText := "";
              missingPhrases := ["Visual changes detected"%string] |}
           Samples.sampleTelegram);
    reflexivity.
Defined.

Lemma changed_cycles_notify_again_witness :
  let h := Samples.hostWith (inl "current"%string) Samples.changedDecode
                            Samples.delivered in
  let w := Samples.worldOf (Some Samples.sampleTelegram)
                           (Some Samples.sampleReference)
                           (Some Samples.activeConfig) in
  telegramRequests (snd (checkForChanges h (snd (checkForChanges h w))))
  = (telegramRequests w + 2)%nat
  /\ browserNotifications (snd (checkForChanges h (snd (checkForChanges h w))))
     = (browserNotifications w + 2)%nat.
Proof.
  cbv zeta.
  apply (changed_cycles_notify_again
           (Samples.hostWith (inl "current"%string) Samples.changedDecode
                             Samples.delivered)
           (Samples.hostWith (inl "current"%string) Samples.changedDecode
                             Samples.delivered)
           (Samples.worldOf (Some Samples.sampleTelegram)
                            (Some Samples.sampleReference)
                            (Some Samples.activeConfig))
           Samples.sampleReference Samples.activeConfig
           [ {| tabId := Some 7;
                tabUrl := Some "https://example.org/queue"%string |} ]
           [ {| tabId := Some 7;
                tabUrl := Some "https://example.org/queue"%string |} ]
           7 7 "current"%string "current"%string
           {| hasChanged := true;
              changePercentage := Fin 100;
              detectedText := "";
              missingPhrases := ["Visual changes detected"%string] |}
           {| hasChanged := true;
              changePercentage := Fin 100;
              detectedText := "";
              missingPhrases := ["Visual changes detected"%string] |}
           Samples.sampleTelegram);
    try reflexivity.
  intros _. split; reflexivity.
Defined.

End CycleProofs.

(** * Properties of the text comparison *)

Module TextProofs.

Import TextDiffer.

Lemma prefix_append (sub s : string) :
  String.prefix sub s = true <-> exists b, s = (sub ++ b)%string.
Proof.
  revert s. induction sub as [|a sub IH]; intros s.
  - split; [intros _; exists s; reflexivity|]. intros _.
    destruct s; reflexivity.
  - destruct s as [|c s]; cbn.
    + split; [discriminate|]. intros (b & H). discriminate H.
    + destruct (ascii_dec a c) as [->|Hne].
      * rewrite IH. split; intros (b & H); exists b.
        -- rewrite H. reflexivity.
        -- injection H as H. exact H.
      * split; [discriminate|]. intros (b & H).
        injection H as Hc _. congruence.
Qed.

(** [includes] finds exactly the occurrences of [sub] inside [s]. *)
Lemma includes_occurs (s sub : string) :
  includes s sub = true <-> exists a b, s = (a ++ sub ++ b)%string.
Proof.
  induction s as [|c s IH].
  - cbn [includes]. rewrite orb_false_r, prefix_append. split.
    + intros (b & H). exists ""%string, b. exact H.
    + intros (a & b & H). destruct a as [|x a]; [|discriminate H].
      exists b. exact H.
  - cbn [includes]. rewrite orb_true_iff, prefix_append, IH. split.
    + intros [(b & H)|(a & b & H)].
      * exists ""%string, b. exact H.
      * exists (String c a), b. rewrite H. reflexivity.
    + intros (a & b & H). destruct a as [|x a].
      * left. exists b. exact H.
      * right. injection H as _ H. exists a, b. exact H.
Qed.

Section CompareTexts.

Variable toLowerCase : string -> string.

Lemma collectMissing_filter (referenceText currentText : string)
      (keyPhrases : list string) :
  collectMissing toLowerCase referenceText currentText keyPhrases
  = filter (wentMissing toLowerCase referenceText currentText) keyPhrases.
Proof.
  induction keyPhrases as [|p l IH]; [reflexivity|].
  cbn. rewrite IH. reflexivity.
Qed.

(** X23.  [compareTexts] on twice the same text reports no change and no
    missing phrase, whatever the key phrases and the lower-casing. *)
Theorem compareTexts_same_text (text : string) (keyPhrases : list string) :
  compareTexts toLowerCase text text keyPhrases
  = {| textHasChanged := false;
       textMissingPhrases := [];
       textDetected := text |}.
Proof.
  unfold compareTexts.
  assert (H : collectMissing toLowerCase text text keyPhrases = []).
  { induction keyPhrases as [|p l IH]; [reflexivity|].
    cbn. unfold wentMissing. rewrite andb_negb_r. exact IH. }
  rewrite H. reflexivity.
Qed.

(** X24.  [compareTexts] reports exactly the key phrases that occur,
    ignoring case, in the reference text and no longer in the current
    one, and [hasChanged] holds exactly when there is such a phrase: text
    that appears, or changes outside the key phrases, is never
    reported. *)
Theorem compareTexts_reports (referenceText currentText : string)
        (keyPhrases : list string) :
  let result := compareTexts toLowerCase referenceText currentText keyPhrases in
  (forall phrase,
      In phrase (textMissingPhrases result)
      <-> In phrase keyPhrases
          /\ includes (toLowerCase referenceText) (toLowerCase phrase) = true
          /\ includes (toLowerCase currentText) (toLowerCase phrase) = false)
  /\ (textHasChanged result = true
      <-> exists phrase,
          In phrase keyPhrases
          /\ includes (toLowerCase referenceText) (toLowerCase phrase) = true
          /\ includes (toLowerCase currentText) (toLowerCase phrase) = false).
Proof.
  cbv zeta. unfold compareTexts. cbn [textMissingPhrases textHasChanged].
  rewrite collectMissing_filter.
  assert (Hin : forall phrase,
             In phrase (filter (wentMissing toLowerCase referenceText
                                            currentText) keyPhrases)
             <-> In phrase keyPhrases
                 /\ includes (toLowerCase referenceText)
                             (toLowerCase phrase) = true
                 /\ includes (toLowerCase currentText)
                             (toLowerCase phrase) = false).
  { intros phrase. rewrite filter_In. unfold wentMissing, wasPresent.
    rewrite andb_true_iff, negb_true_iff. reflexivity. }
  split; [exact Hin|].
  rewrite Nat.ltb_lt. split.
  - intros Hlen.
    destruct (filter _ keyPhrases) as [|p l] eqn:E; [cbn in Hlen; lia|].
    exists p. apply Hin. left. reflexivity.
  - intros (p & Hp). apply Hin in Hp.
    destruct (filter _ keyPhrases); [contradiction|cbn; lia].
Qed.

End CompareTexts.

End TextProofs.
